(** * HaliStock store context: rentals, calendar, payments and stock

    A shallow embedding of [src/context/StoreContext.tsx].  The React
    provider keeps an in-memory copy of some tables ([products],
    [transactions], [rentals], [customers]) and talks to a remote record
    store through the supabase client.  Every [await] on the client is one
    round trip: the store either answers with [data] or with [error].

    Conventions of the embedding:
    - a JavaScript [Date] is its time value, milliseconds since the epoch;
    - a [date] column of the store ('YYYY-MM-DD') is the number of the UTC
      day, so that the order of the column is the order on [Z];
    - amounts, quantities and stock are whole numbers.  The code computes
      on JavaScript numbers, whose arithmetic and comparisons are exact on
      whole numbers below 2^53 (the [decimal(10,2)] columns of the store
      stay far below); amounts with a fractional part, on which the
      rounding of doubles shows, are treated apart, in [Number];
    - local time is that of a time zone given with the world, as the
      offset function [LocalTZA] of ECMAScript;
    - an identifier generated by the store is a string chosen by the store. *)

From Stdlib Require Import ZArith List String Bool Lia Sorted PrimFloat.
Import ListNotations.

Open Scope Z_scope.

(** A decimal literal of a JavaScript number is the nearest double. *)
Set Warnings "-inexact-float".

(** ** Dates *)

Definition Date := Z.
Definition IsoDate := Z.

Definition msPerDay : Z := 86400000.

(** [d.toISOString().split('T')[0]]: the UTC calendar day of [d]. *)
Definition toISODate (d : Date) : IsoDate := d / msPerDay.

(** [new Date('YYYY-MM-DD')]: midnight UTC of that day. *)
Definition parseISODate (day : IsoDate) : Date := day * msPerDay.

(** The time zone of the browser: [localTZA t true] is the offset of local
    time from UTC, in milliseconds, at the UTC instant [t], and
    [localTZA t false] the offset that goes with the local time value [t]
    ([LocalTZA(t, isUTC)] of ECMAScript). *)
Record TimeZone := mkTimeZone {
  localTZA : Z -> bool -> Z
}.

(** [LocalTime(t)] and [UTC(t)] of ECMAScript. *)
Definition LocalTime (tz : TimeZone) (t : Date) : Z := t + localTZA tz t true.
Definition UTC (tz : TimeZone) (t : Z) : Date := t - localTZA tz t false.

(** [d.setDate(d.getDate() + 1)]: the local time of [d] is taken one
    calendar day further, the local time of day kept, and turned back into
    an instant.  Across a change of offset the instant moves by 23 or 25
    hours, not 24. *)
Definition addOneDay (tz : TimeZone) (d : Date) : Date :=
  UTC tz (LocalTime tz d + msPerDay).

(** A time zone without any change of offset. *)
Definition fixedOffset (tz : TimeZone) : Prop :=
  forall t t' b b', localTZA tz t b = localTZA tz t' b'.

Definition msPerHour : Z := 3600000.

(** A time zone in which a step of one local day moves the instant by an
    hour at least, as it does wherever the changes of offset are smaller
    than 23 hours. *)
Definition advances (tz : TimeZone) : Prop :=
  forall d, d + msPerHour <= addOneDay tz d.

(** Time of day of [d] within its UTC day. *)
Definition timeOfDay (d : Date) : Z := d mod msPerDay.

(** ** JavaScript [||] on numbers and optional values *)

(** [x || dflt] for a number: [0] is falsy. *)
Definition orNum (x dflt : Z) : Z := if x =? 0 then dflt else x.

(** [x || dflt] for a possibly missing value. *)
Definition orElse {A : Type} (x : option A) (dflt : A) : A :=
  match x with Some v => v | None => dflt end.

(** ** Enumerations *)

Inductive PaymentStatus := completed | partial | pending.

Inductive TransactionType := sale | rental.

Inductive CalendarStatus := reserved | available.

(** Modelled from the spec: the declaration of [Rental['status']] lives in
    [src/types], which is not among the sources; the data model lists the
    four values below. *)
Inductive RentalStatus := active | returned | cancelled | overdue.

Definition RentalStatus_eqb (a b : RentalStatus) : bool :=
  match a, b with
  | active, active | returned, returned
  | cancelled, cancelled | overdue, overdue => true
  | _, _ => false
  end.

Definition CalendarStatus_eqb (a b : CalendarStatus) : bool :=
  match a, b with
  | reserved, reserved | available, available => true
  | _, _ => false
  end.

Definition TransactionType_eqb (a b : TransactionType) : bool :=
  match a, b with
  | sale, sale | rental, rental => true
  | _, _ => false
  end.

(** ** Records

    [Product], [Transaction] and [Customer] have the same fields in the
    store (snake case) and in memory (camel case); one record serves both.
    A rental is kept as a row with [date] columns and in memory with
    [Date] objects, hence two records. *)

Module Product.
Record t := mk {
  id : string;
  name : string;
  category : string;
  size : string;
  color : string;
  brand : string;
  purchasePrice : Z;
  salePrice : Z;
  rentalPricePerDay : Z;
  stock : Z;
  description : string;
  barcode : string;
  isAvailableForRental : bool;
  createdAt : Date
}.

Definition withStock (p : t) (n : Z) : t :=
  mk (id p) (name p) (category p) (size p) (color p) (brand p)
     (purchasePrice p) (salePrice p) (rentalPricePerDay p) n
     (description p) (barcode p) (isAvailableForRental p) (createdAt p).
End Product.

Module Transaction.
Record t := mk {
  id : string;
  type : TransactionType;
  productId : string;
  productName : string;
  quantity : Z;
  unitPrice : Z;
  totalAmount : Z;
  amountPaid : Z;
  remainingAmount : Z;
  paymentStatus : option PaymentStatus;
  discount : Z;
  discountAmount : Z;
  customerName : string;
  customerPhone : string;
  customerEmail : option string;
  status : string;
  agentId : string;
  agentName : string;
  createdAt : Date;
  notes : string
}.

Definition withPayment (x : t) (paid remaining : Z) (ps : option PaymentStatus) : t :=
  mk (id x) (type x) (productId x) (productName x) (quantity x)
     (unitPrice x) (totalAmount x) paid remaining ps
     (discount x) (discountAmount x) (customerName x) (customerPhone x)
     (customerEmail x) (status x) (agentId x) (agentName x)
     (createdAt x) (notes x).

Definition withIdentity (x : t) (newId : string) (created : Date) : t :=
  mk newId (type x) (productId x) (productName x) (quantity x)
     (unitPrice x) (totalAmount x) (amountPaid x) (remainingAmount x)
     (paymentStatus x) (discount x) (discountAmount x) (customerName x)
     (customerPhone x) (customerEmail x) (status x) (agentId x)
     (agentName x) created (notes x).
End Transaction.

Module Rental.
Record t := mk {
  id : string;
  transactionId : option string;
  productId : string;
  customerName : string;
  customerPhone : string;
  customerEmail : option string;
  rentalStartDate : Date;
  rentalEndDate : Date;
  rentalDays : Z;
  dailyRate : Z;
  totalAmount : Z;
  amountPaid : Z;
  remainingAmount : Z;
  paymentStatus : option PaymentStatus;
  discount : Z;
  discountAmount : Z;
  depositAmount : Z;
  status : RentalStatus;
  agentId : string;
  agentName : string;
  notes : string;
  createdAt : Date;
  returnedAt : option Date
}.
End Rental.

Module RentalRow.
Record t := mk {
  id : string;
  transaction_id : option string;
  product_id : string;
  customer_name : string;
  customer_phone : string;
  customer_email : option string;
  rental_start_date : IsoDate;
  rental_end_date : IsoDate;
  rental_days : Z;
  daily_rate : Z;
  total_amount : Z;
  amount_paid : Z;
  remaining_amount : Z;
  payment_status : option PaymentStatus;
  discount : Z;
  discount_amount : Z;
  deposit_amount : Z;
  status : RentalStatus;
  agent_id : string;
  agent_name : string;
  notes : string;
  created_at : Date;
  returned_at : option Date
}.

Definition withPayment (x : t) (paid remaining : Z) (ps : option PaymentStatus) : t :=
  mk (id x) (transaction_id x) (product_id x) (customer_name x)
     (customer_phone x) (customer_email x) (rental_start_date x)
     (rental_end_date x) (rental_days x) (daily_rate x) (total_amount x)
     paid remaining ps (discount x) (discount_amount x) (deposit_amount x)
     (status x) (agent_id x) (agent_name x) (notes x) (created_at x)
     (returned_at x).

Definition withStatus (x : t) (st : RentalStatus) (ret : option Date) : t :=
  mk (id x) (transaction_id x) (product_id x) (customer_name x)
     (customer_phone x) (customer_email x) (rental_start_date x)
     (rental_end_date x) (rental_days x) (daily_rate x) (total_amount x)
     (amount_paid x) (remaining_amount x) (payment_status x) (discount x)
     (discount_amount x) (deposit_amount x) st (agent_id x) (agent_name x)
     (notes x) (created_at x) ret.
End RentalRow.

Module CalendarRow.
Record t := mk {
  product_id : string;
  rental_id : string;
  reserved_date : IsoDate;
  status : CalendarStatus
}.

Definition withStatus (x : t) (st : CalendarStatus) : t :=
  mk (product_id x) (rental_id x) (reserved_date x) st.
End CalendarRow.

Module Customer.
Record t := mk {
  id : string;
  name : string;
  phone : string;
  email : option string;
  address : option string;
  notes : option string;
  createdAt : Date
}.
End Customer.

(** ** The record store and the provider state *)

Module DB.
Record t := mk {
  products : list Product.t;
  transactions : list Transaction.t;
  rentals : list RentalRow.t;
  rental_calendar : list CalendarRow.t;
  customers : list Customer.t
}.

Definition withProducts (d : t) (l : list Product.t) : t :=
  mk l (transactions d) (rentals d) (rental_calendar d) (customers d).
Definition withTransactions (d : t) (l : list Transaction.t) : t :=
  mk (products d) l (rentals d) (rental_calendar d) (customers d).
Definition withRentals (d : t) (l : list RentalRow.t) : t :=
  mk (products d) (transactions d) l (rental_calendar d) (customers d).
Definition withCalendar (d : t) (l : list CalendarRow.t) : t :=
  mk (products d) (transactions d) (rentals d) l (customers d).
Definition withCustomers (d : t) (l : list Customer.t) : t :=
  mk (products d) (transactions d) (rentals d) (rental_calendar d) l.
End DB.

(** The world a call runs in: the React state of the provider, the remote
    store, and what the environment decides: which round trips fail
    ([outage], indexed by the number of round trips made so far), which
    identifiers the store generates ([uuid]), the wall clock and the time
    zone.  The in-memory copies are those of the latest render of the
    provider. *)
Record State := mkState {
  products : list Product.t;
  transactions : list Transaction.t;
  rentals : list Rental.t;
  customers : list Customer.t;
  db : DB.t;
  tick : nat;
  outage : nat -> bool;
  uuid : nat -> string;
  clock : Date;
  timeZone : TimeZone
}.

Definition setProducts (l : list Product.t) (s : State) : State :=
  mkState l (transactions s) (rentals s) (customers s) (db s) (tick s)
          (outage s) (uuid s) (clock s) (timeZone s).
Definition setTransactions (l : list Transaction.t) (s : State) : State :=
  mkState (products s) l (rentals s) (customers s) (db s) (tick s)
          (outage s) (uuid s) (clock s) (timeZone s).
Definition setRentals (l : list Rental.t) (s : State) : State :=
  mkState (products s) (transactions s) l (customers s) (db s) (tick s)
          (outage s) (uuid s) (clock s) (timeZone s).
Definition setCustomers (l : list Customer.t) (s : State) : State :=
  mkState (products s) (transactions s) (rentals s) l (db s) (tick s)
          (outage s) (uuid s) (clock s) (timeZone s).

(** One round trip has been made; the store now holds [d]. *)
Definition answered (d : DB.t) (s : State) : State :=
  mkState (products s) (transactions s) (rentals s) (customers s) d
          (S (tick s)) (outage s) (uuid s) (clock s) (timeZone s).

(** ** Asynchronous computations

    An [async] function is a tree of steps.  [Await] is a round trip to
    the store (the function is suspended there and other calls may run);
    [Sync] reads or sets the provider state without suspending. *)

Inductive exn :=
| PostgrestError
| Error (message : string).

Inductive Async (A : Type) : Type :=
| Return (a : A)
| Throw (e : exn)
| Sync {R : Type} (f : State -> R * State) (k : R -> Async A)
| Await {R : Type} (call : State -> R * State) (k : R -> Async A).

Arguments Return {A} a.
Arguments Throw {A} e.
Arguments Sync {A R} f k.
Arguments Await {A R} call k.

Fixpoint bind {A B : Type} (t : Async A) (g : A -> Async B) : Async B :=
  match t with
  | Return a => g a
  | Throw e => Throw e
  | Sync f k => Sync f (fun r => bind (k r) g)
  | Await c k => Await c (fun r => bind (k r) g)
  end.

Declare Scope async_scope.
Delimit Scope async_scope with async.
Notation "x <- t ;; k" := (bind t (fun x => k))
  (at level 61, t at next level, right associativity) : async_scope.
Notation "t ;; k" := (bind t (fun _ => k))
  (at level 61, right associativity) : async_scope.
Open Scope async_scope.

Inductive Outcome (A : Type) : Type :=
| Resolved (a : A)
| Rejected (e : exn).

Arguments Resolved {A} a.
Arguments Rejected {A} e.

(** Running a call alone, from start to end. *)
Fixpoint run {A : Type} (t : Async A) (s : State) : Outcome A * State :=
  match t with
  | Return a => (Resolved a, s)
  | Throw e => (Rejected e, s)
  | Sync f k => let (r, s') := f s in run (k r) s'
  | Await c k => let (r, s') := c s in run (k r) s'
  end.

(** A call to the supabase client: [None] stands for [{ data: null, error }]
    and leaves the store as it is, [Some r] for [{ data: r, error: null }]. *)
Definition supabase {R : Type} (q : DB.t -> R * DB.t) : Async (option R) :=
  Await (fun s =>
           if outage s (tick s) then (None, answered (db s) s)
           else let (r, d) := q (db s) in (Some r, answered d s))
        Return.

(** A provider function reads [products], [transactions] and [rentals]
    from the render that created it.  [run t s] is the call [t] issued
    from the latest render of [s]: within the one call nothing replaces a
    copy before the call has read it, so reading at the moment of the step
    is reading that render.  This is the case of a call issued once the
    provider has rendered again after the previous one.  Two calls awaited
    in a row by one handler are both issued from the same render: the
    second is then to be run in [seenFrom], below. *)
Definition getState {R : Type} (proj : State -> R) : Async R :=
  Sync (fun s => (proj s, s)) Return.

(** The world [now] as a function created by the render of [render] sees
    it: the in-memory copies of that render, everything else as it is. *)
Definition seenFrom (render now : State) : State :=
  mkState (products render) (transactions render) (rentals render)
          (customers render) (db now) (tick now) (outage now) (uuid now)
          (clock now) (timeZone now).

Definition setState (upd : State -> State) : Async unit :=
  Sync (fun s => (tt, upd s)) Return.

(** An insert followed by [.select().single()]: the store generates the
    identifier and the creation time of the new row and answers with it. *)
Definition supabaseInsert {R : Type} (q : string -> Date -> DB.t -> R * DB.t)
  : Async (option R) :=
  Await (fun s =>
           if outage s (tick s) then (None, answered (db s) s)
           else let (r, d) := q (uuid s (tick s)) (clock s) (db s) in
                (Some r, answered d s))
        Return.

Definition select {R : Type} (rows : DB.t -> R) : DB.t -> R * DB.t :=
  fun d => (rows d, d).

Definition update (upd : DB.t -> DB.t) : DB.t -> unit * DB.t :=
  fun d => (tt, upd d).

(** ** Loading the in-memory copies

    Each loader asks the store for a table, newest row first, and, unless
    the store answered with an error (logged, nothing else), replaces the
    in-memory copy. *)

(** [.order('created_at', { ascending: false })].  Rows created at the
    same instant, whose order the store does not specify, are kept in the
    order of the table. *)
Fixpoint insertNewest {A : Type} (created : A -> Date) (x : A) (sorted : list A)
  : list A :=
  match sorted with
  | [] => [x]
  | y :: rest =>
      if created y <=? created x then x :: sorted
      else y :: insertNewest created x rest
  end.

Definition newestFirst {A : Type} (created : A -> Date) (rows : list A) : list A :=
  fold_right (insertNewest created) [] rows.

Definition loadProducts : Async unit :=
  r <- supabase (select (fun d => newestFirst Product.createdAt (DB.products d))) ;;
  match r with
  | None => Return tt
  | Some data => setState (setProducts data)
  end.

Definition formatTransaction (item : Transaction.t) : Transaction.t :=
  Transaction.withPayment item
    (orNum (Transaction.amountPaid item) (Transaction.totalAmount item))
    (orNum (Transaction.remainingAmount item) 0)
    (Some (orElse (Transaction.paymentStatus item) completed)).

Definition loadTransactions : Async unit :=
  r <- supabase (select (fun d =>
         newestFirst Transaction.createdAt (DB.transactions d))) ;;
  match r with
  | None => Return tt
  | Some data => setState (setTransactions (map formatTransaction data))
  end.

Definition formatRental (item : RentalRow.t) : Rental.t :=
  Rental.mk (RentalRow.id item) (RentalRow.transaction_id item)
    (RentalRow.product_id item) (RentalRow.customer_name item)
    (RentalRow.customer_phone item) (RentalRow.customer_email item)
    (parseISODate (RentalRow.rental_start_date item))
    (parseISODate (RentalRow.rental_end_date item))
    (RentalRow.rental_days item) (RentalRow.daily_rate item)
    (RentalRow.total_amount item)
    (orNum (RentalRow.amount_paid item) (RentalRow.total_amount item))
    (orNum (RentalRow.remaining_amount item) 0)
    (Some (orElse (RentalRow.payment_status item) completed))
    (RentalRow.discount item) (RentalRow.discount_amount item)
    (RentalRow.deposit_amount item) (RentalRow.status item)
    (RentalRow.agent_id item) (RentalRow.agent_name item)
    (RentalRow.notes item) (RentalRow.created_at item)
    (RentalRow.returned_at item).

(** [select('*, products!inner(name)')]: an inner join, a rental whose
    product is not in the store is not returned. *)
Definition rentalsWithProduct (d : DB.t) : list RentalRow.t :=
  filter (fun r => existsb (fun p => String.eqb (Product.id p) (RentalRow.product_id r))
                           (DB.products d))
         (DB.rentals d).

Definition loadRentals : Async unit :=
  r <- supabase (select (fun d =>
         newestFirst RentalRow.created_at (rentalsWithProduct d))) ;;
  match r with
  | None => Return tt
  | Some data => setState (setRentals (map formatRental data))
  end.

Definition loadCustomers : Async unit :=
  r <- supabase (select (fun d => newestFirst Customer.createdAt (DB.customers d))) ;;
  match r with
  | None => Return tt
  | Some data => setState (setCustomers data)
  end.

(** ** Stock *)

Definition setStockOf (productId : string) (newStock : Z) (d : DB.t) : DB.t :=
  DB.withProducts d
    (map (fun p => if String.eqb (Product.id p) productId
                   then Product.withStock p newStock else p)
         (DB.products d)).

Definition updateStock (productId : string) (quantity : Z) : Async unit :=
  found <- getState (fun s => find (fun p => String.eqb (Product.id p) productId)
                                   (products s)) ;;
  match found with
  | None => Return tt
  | Some product =>
      let newStock := Z.max 0 (Product.stock product + quantity) in
      r <- supabase (update (setStockOf productId newStock)) ;;
      match r with
      | None => Throw PostgrestError
      | Some _ => loadProducts
      end
  end.

(** ** Sales *)

(** The stored function [create_customer_if_not_exists]: customers are
    keyed by phone; an unknown phone is inserted, a known one gets the new
    name and, when one is given, the new email. *)
Definition create_customer_if_not_exists
    (customer_name customer_phone : string) (customer_email : option string)
    (newId : string) (now : Date) (d : DB.t) : DB.t :=
  match find (fun c => String.eqb (Customer.phone c) customer_phone) (DB.customers d) with
  | None =>
      DB.withCustomers d
        (DB.customers d ++
         [Customer.mk newId customer_name customer_phone customer_email None None now])
  | Some known =>
      DB.withCustomers d
        (map (fun c =>
                if String.eqb (Customer.id c) (Customer.id known)
                then Customer.mk (Customer.id c) customer_name (Customer.phone c)
                       (match customer_email with
                        | Some e => Some e
                        | None => Customer.email c
                        end)
                       (Customer.address c) (Customer.notes c) (Customer.createdAt c)
                else c)
             (DB.customers d))
  end.

(** The row sent by [addTransaction]; [id] and [createdAt] of the argument
    are not part of it ([Omit<Transaction, 'id' | 'createdAt'>]). *)
Definition transactionRow (transactionData : Transaction.t) (newId : string) (now : Date)
  : Transaction.t :=
  Transaction.withIdentity
    (Transaction.withPayment transactionData
       (orNum (Transaction.amountPaid transactionData)
              (Transaction.totalAmount transactionData))
       (orNum (Transaction.remainingAmount transactionData) 0)
       (Some (orElse (Transaction.paymentStatus transactionData) completed)))
    newId now.

(** [Promise.all([loadTransactions(), loadCustomers()])] is run as one
    loader after the other. *)
Definition addTransaction (transactionData : Transaction.t) : Async string :=
  _ <- supabaseInsert (fun newId now d =>
         (tt, create_customer_if_not_exists
                (Transaction.customerName transactionData)
                (Transaction.customerPhone transactionData)
                (Transaction.customerEmail transactionData) newId now d)) ;;
  r <- supabaseInsert (fun newId now d =>
         let row := transactionRow transactionData newId now in
         (row, DB.withTransactions d (DB.transactions d ++ [row]))) ;;
  match r with
  | None => Throw PostgrestError
  | Some data =>
      (if TransactionType_eqb (Transaction.type transactionData) sale
       then updateStock (Transaction.productId transactionData)
                        (- Transaction.quantity transactionData)
       else Return tt) ;;
      loadTransactions ;;
      loadCustomers ;;
      Return (Transaction.id data)
  end.

(** ** Availability *)

Definition reservedWithin (productId : string) (fromDay toDay : IsoDate)
    (e : CalendarRow.t) : bool :=
  String.eqb (CalendarRow.product_id e) productId
  && CalendarStatus_eqb (CalendarRow.status e) reserved
  && (fromDay <=? CalendarRow.reserved_date e)
  && (CalendarRow.reserved_date e <=? toDay).

Definition checkProductAvailability (productId : string) (startDate endDate : Date)
  : Async bool :=
  r <- supabase (select (fun d =>
         filter (reservedWithin productId (toISODate startDate) (toISODate endDate))
                (DB.rental_calendar d))) ;;
  match r with
  | None => Return false
  | Some data => Return (Nat.eqb (List.length data) 0)
  end.

(** ** Rentals *)

Definition rentalRow (rentalData : Rental.t) (newId : string) (now : Date) : RentalRow.t :=
  RentalRow.mk newId (Rental.transactionId rentalData)
    (Rental.productId rentalData) (Rental.customerName rentalData)
    (Rental.customerPhone rentalData) (Rental.customerEmail rentalData)
    (toISODate (Rental.rentalStartDate rentalData))
    (toISODate (Rental.rentalEndDate rentalData))
    (Rental.rentalDays rentalData) (Rental.dailyRate rentalData)
    (Rental.totalAmount rentalData)
    (orNum (Rental.amountPaid rentalData) (Rental.totalAmount rentalData))
    (orNum (Rental.remainingAmount rentalData) 0)
    (Some (orElse (Rental.paymentStatus rentalData) completed))
    (Rental.discount rentalData) (Rental.discountAmount rentalData)
    (Rental.depositAmount rentalData) (Rental.status rentalData)
    (Rental.agentId rentalData) (Rental.agentName rentalData)
    (Rental.notes rentalData) now None.

(** The loop of [addRental] that builds [dates]:
    [while (currentDate <= rentalEndDate) { dates.push(..); currentDate.setDate(..+1) }].
    The comparison is on time values.  [fuel] bounds the number of turns. *)
Fixpoint pushDates (tz : TimeZone) (fuel : nat) (productId rentalId : string)
    (currentDate rentalEndDate : Date) (dates : list CalendarRow.t)
  : list CalendarRow.t :=
  match fuel with
  | O => dates
  | S fuel' =>
      if currentDate <=? rentalEndDate
      then pushDates tz fuel' productId rentalId (addOneDay tz currentDate) rentalEndDate
             (dates ++ [CalendarRow.mk productId rentalId (toISODate currentDate) reserved])
      else dates
  end.

(** Turns granted to the loop from [currentDate]: one more than the number
    of whole hours up to the end.  The loop stops on its own test within
    them as soon as no step of a local day is shorter than an hour; a step
    of a whole day, as in a time zone of fixed offset, needs a 24th of
    them. *)
Definition turnsUntil (currentDate endDate : Date) : nat :=
  Z.to_nat ((endDate - currentDate) / msPerHour + 1).

Definition rentalDates (tz : TimeZone) (productId rentalId : string)
    (startDate endDate : Date) : list CalendarRow.t :=
  pushDates tz (turnsUntil startDate endDate) productId rentalId startDate endDate [].

Definition unavailableMessage : string :=
  "Le produit n'est pas disponible pour ces dates"%string.

Definition addRental (rentalData : Rental.t) : Async string :=
  isAvailable <- checkProductAvailability (Rental.productId rentalData)
                   (Rental.rentalStartDate rentalData)
                   (Rental.rentalEndDate rentalData) ;;
  if negb isAvailable then Throw (Error unavailableMessage)
  else
    r <- supabaseInsert (fun newId now d =>
           let row := rentalRow rentalData newId now in
           (row, DB.withRentals d (DB.rentals d ++ [row]))) ;;
    match r with
    | None => Throw PostgrestError
    | Some data =>
        tz <- getState timeZone ;;
        let dates := rentalDates tz (Rental.productId rentalData) (RentalRow.id data)
                       (Rental.rentalStartDate rentalData)
                       (Rental.rentalEndDate rentalData) in
        (if Nat.ltb 0 (List.length dates)
         then _ <- supabase (update (fun d =>
                     DB.withCalendar d (DB.rental_calendar d ++ dates))) ;;
              Return tt
         else Return tt) ;;
        loadRentals ;;
        Return (RentalRow.id data)
    end.

Definition releaseCalendar (rentalId : string) (d : DB.t) : DB.t :=
  DB.withCalendar d
    (map (fun e => if String.eqb (CalendarRow.rental_id e) rentalId
                   then CalendarRow.withStatus e available else e)
         (DB.rental_calendar d)).

Definition setRentalStatus (rentalId : string) (st : RentalStatus)
    (returnedAt : option Date) (d : DB.t) : DB.t :=
  DB.withRentals d
    (map (fun r => if String.eqb (RentalRow.id r) rentalId
                   then RentalRow.withStatus r st
                          (match returnedAt with
                           | Some at_ => Some at_
                           | None => RentalRow.returned_at r
                           end)
                   else r)
         (DB.rentals d)).

Definition updateRentalStatus (rentalId : string) (st : RentalStatus)
    (returnedAt : option Date) : Async unit :=
  r <- supabase (update (setRentalStatus rentalId st returnedAt)) ;;
  match r with
  | None => Throw PostgrestError
  | Some _ =>
      (if RentalStatus_eqb st returned
       then _ <- supabase (update (releaseCalendar rentalId)) ;; Return tt
       else Return tt) ;;
      loadRentals
  end.

(** ** Payments

    Both payment updates derive the status with the same expression:
    [remaining === 0 ? 'completed' : totalPaid > 0 ? 'partial' : 'pending'].
    The test and the sums before it are those of JavaScript numbers; they
    are the ones of [Z] on whole amounts ([isSafeInteger], below), which
    is where the statements about payments apply. *)
Definition paymentStatusOf (remaining totalPaid : Z) : PaymentStatus :=
  if remaining =? 0 then completed
  else if 0 <? totalPaid then partial
  else pending.

(** The same three lines on JavaScript numbers as they are, IEEE 754
    doubles: [(p || 0) + a], [Math.max(0, T - totalPaid)] and the status.
    This is what the code computes on amounts with a fractional part. *)
Module Number.
(** [x || dflt]: [0], [-0] and [NaN] are falsy. *)
Definition orNum (x dflt : float) : float :=
  if PrimFloat.eqb x 0 || negb (PrimFloat.eqb x x) then dflt else x.

(** [Math.max(0, x)]. *)
Definition max0 (x : float) : float :=
  if PrimFloat.ltb 0 x then x
  else if PrimFloat.eqb x x then 0%float
  else x.

Definition paymentOf (p T a : float) : float * float * PaymentStatus :=
  let totalPaid := PrimFloat.add (orNum p 0) a in
  let remaining := max0 (PrimFloat.sub T totalPaid) in
  (totalPaid, remaining,
   if PrimFloat.eqb remaining 0 then completed
   else if PrimFloat.ltb 0 totalPaid then partial
   else pending).
End Number.

Definition setTransactionPayment (transactionId : string)
    (totalPaid remaining : Z) (ps : PaymentStatus) (d : DB.t) : DB.t :=
  DB.withTransactions d
    (map (fun t => if String.eqb (Transaction.id t) transactionId
                   then Transaction.withPayment t totalPaid remaining (Some ps)
                   else t)
         (DB.transactions d)).

Definition updateTransactionPayment (transactionId : string) (amountPaid : Z)
  : Async unit :=
  found <- getState (fun s => find (fun t => String.eqb (Transaction.id t) transactionId)
                                   (transactions s)) ;;
  match found with
  | None => Return tt
  | Some transaction =>
      let totalPaid := orNum (Transaction.amountPaid transaction) 0 + amountPaid in
      let remaining := Z.max 0 (Transaction.totalAmount transaction - totalPaid) in
      let paymentStatus := paymentStatusOf remaining totalPaid in
      r <- supabase (update (setTransactionPayment transactionId
                               totalPaid remaining paymentStatus)) ;;
      match r with
      | None => Throw PostgrestError
      | Some _ => loadTransactions
      end
  end.

Definition setRentalPayment (rentalId : string)
    (totalPaid remaining : Z) (ps : PaymentStatus) (d : DB.t) : DB.t :=
  DB.withRentals d
    (map (fun r => if String.eqb (RentalRow.id r) rentalId
                   then RentalRow.withPayment r totalPaid remaining (Some ps)
                   else r)
         (DB.rentals d)).

Definition updateRentalPayment (rentalId : string) (amountPaid : Z) : Async unit :=
  found <- getState (fun s => find (fun r => String.eqb (Rental.id r) rentalId)
                                   (rentals s)) ;;
  match found with
  | None => Return tt
  | Some theRental =>
      let totalPaid := orNum (Rental.amountPaid theRental) 0 + amountPaid in
      let remaining := Z.max 0 (Rental.totalAmount theRental - totalPaid) in
      let paymentStatus := paymentStatusOf remaining totalPaid in
      r <- supabase (update (setRentalPayment rentalId
                               totalPaid remaining paymentStatus)) ;;
      match r with
      | None => Throw PostgrestError
      | Some _ => loadRentals
      end
  end.

(** ** Month view and statistics

    These two read the wall clock in local time.  The step of one local
    day goes by the time zone of the world; the calendar primitives of
    [Date] in local time are taken as given:
    [startOfMonth m] is [new Date(m.getFullYear(), m.getMonth(), 1)],
    [endOfMonth m] is [new Date(m.getFullYear(), m.getMonth() + 1, 0)],
    [endOfDay d] is [d] after [setHours(23, 59, 59, 999)] and
    [toDateString] is the method of that name. *)

Record ProductAvailability := mkAvailability {
  pa_productId : string;
  availableDates : list Date;
  reservedDates : list Date;
  isAvailable : bool
}.

Record StoreStats := mkStats {
  totalSales : nat;
  totalRentals : nat;
  revenue : Z;
  lowStockItems : nat;
  totalProducts : nat;
  pendingReturns : nat;
  activeRentals : nat;
  overdueRentals : nat
}.

(** The filter of [getStats] that counts overdue rentals, [now] being the
    value of [new Date()]. *)
Definition isOverdue (now : Date) (r : RentalRow.t) : bool :=
  if negb (RentalStatus_eqb (RentalRow.status r) active) then false
  else parseISODate (RentalRow.rental_end_date r) <? now.

Section LocalTime.

Variable startOfMonth : Date -> Date.
Variable endOfMonth : Date -> Date.
Variable endOfDay : Date -> Date.
Variable toDateString : Date -> string.

(** The loop of [getProductAvailability] over the days of the month. *)
Fixpoint pushAvailable (tz : TimeZone) (fuel : nat) (reservedDays : list Date)
    (currentDate lastDate : Date) (acc : list Date) : list Date :=
  match fuel with
  | O => acc
  | S fuel' =>
      if currentDate <=? lastDate
      then pushAvailable tz fuel' reservedDays (addOneDay tz currentDate) lastDate
             (if negb (existsb (fun date => String.eqb (toDateString date)
                                                       (toDateString currentDate))
                               reservedDays)
              then acc ++ [currentDate] else acc)
      else acc
  end.

Definition getProductAvailability (productId : string) (month : Date)
  : Async ProductAvailability :=
  let first := startOfMonth month in
  let last := endOfMonth month in
  r <- supabase (select (fun d =>
         filter (fun e => String.eqb (CalendarRow.product_id e) productId
                          && (toISODate first <=? CalendarRow.reserved_date e)
                          && (CalendarRow.reserved_date e <=? toISODate last))
                (DB.rental_calendar d))) ;;
  match r with
  | None => Return (mkAvailability productId [] [] true)
  | Some data =>
      let reservedDays :=
        map (fun item => parseISODate (CalendarRow.reserved_date item))
            (filter (fun item => CalendarStatus_eqb (CalendarRow.status item) reserved)
                    data) in
      tz <- getState timeZone ;;
      let free := pushAvailable tz (turnsUntil first last) reservedDays first last [] in
      Return (mkAvailability productId free reservedDays
                             (Nat.ltb 0 (List.length free)))
  end.

Definition createdWithin (dateFrom dateTo : option Date) (created : Date) : bool :=
  (match dateFrom with Some from => from <=? created | None => true end)
  && (match dateTo with Some to => created <=? endOfDay to | None => true end).

(** [Promise.all] of the two queries is run as one query after the
    other; a failed query counts as no row ([data || []]).  The clock is
    read once for the whole filter. *)
Definition getStats (dateFrom dateTo : option Date) : Async StoreStats :=
  transactionsResult <- supabase (select (fun d =>
      filter (fun t => createdWithin dateFrom dateTo (Transaction.createdAt t))
             (DB.transactions d))) ;;
  rentalsResult <- supabase (select (fun d =>
      filter (fun r => createdWithin dateFrom dateTo (RentalRow.created_at r))
             (DB.rentals d))) ;;
  let filteredTransactions := orElse transactionsResult [] in
  let filteredRentals := orElse rentalsResult [] in
  cached <- getState products ;;
  now <- getState clock ;;
  let nbActive :=
    List.length (filter (fun r => RentalStatus_eqb (RentalRow.status r) active)
                        filteredRentals) in
  Return (mkStats
    (List.length (filter (fun t => TransactionType_eqb (Transaction.type t) sale)
                         filteredTransactions))
    (List.length (filter (fun t => TransactionType_eqb (Transaction.type t) rental)
                         filteredTransactions))
    (fold_left (fun sum t => sum + orNum (Transaction.amountPaid t)
                                         (Transaction.totalAmount t))
               filteredTransactions 0)
    (List.length (filter (fun p => Product.stock p <=? 2) cached))
    (List.length cached)
    nbActive
    nbActive
    (List.length (filter (isOverdue now) filteredRentals))).

End LocalTime.

(** ** Calls in flight at the same time

    A call that is scheduled runs its synchronous steps up to its next
    round trip and makes that round trip; it is then suspended until it is
    scheduled again.  A schedule says which of two calls goes next
    ([true]: the first); when the schedule is used up the first call is
    run to its end, then the second. *)

Fixpoint turn {A : Type} (t : Async A) (s : State) : Async A * State :=
  match t with
  | Sync f k => let (r, s') := f s in turn (k r) s'
  | Await c k => let (r, s') := c s in (k r, s')
  | Return _ | Throw _ => (t, s)
  end.

Fixpoint interleave {A B : Type} (schedule : list bool)
    (t1 : Async A) (t2 : Async B) (s : State) : Outcome A * Outcome B * State :=
  match schedule with
  | [] =>
      let (o1, s1) := run t1 s in
      let (o2, s2) := run t2 s1 in
      (o1, o2, s2)
  | true :: rest => let (t1', s') := turn t1 s in interleave rest t1' t2 s'
  | false :: rest => let (t2', s') := turn t2 s in interleave rest t1 t2' s'
  end.

Definition succeeded {A : Type} (o : Outcome A) : bool :=
  match o with Resolved _ => true | Rejected _ => false end.

(** ** The catalogue *)

(** The argument of [addProduct]: the fields of a product ([id] and
    [createdAt] are not part of it), the rental flag possibly missing. *)
Record ProductData := mkProductData {
  pd_fields : Product.t;
  pd_isAvailableForRental : option bool
}.

Definition productRow (productData : ProductData) (newId : string) (now : Date)
  : Product.t :=
  let f := pd_fields productData in
  Product.mk newId (Product.name f) (Product.category f) (Product.size f)
    (Product.color f) (Product.brand f) (Product.purchasePrice f)
    (Product.salePrice f) (Product.rentalPricePerDay f) (Product.stock f)
    (Product.description f) (Product.barcode f)
    (orElse (pd_isAvailableForRental productData) true) now.

Definition addProduct (productData : ProductData) : Async unit :=
  r <- supabaseInsert (fun newId now d =>
         let row := productRow productData newId now in
         (row, DB.withProducts d (DB.products d ++ [row]))) ;;
  match r with
  | None => Throw PostgrestError
  | Some _ => loadProducts
  end.

(** [Partial<Product>], the argument of [updateProduct]. *)
Module ProductPatch.
Record t := mk {
  name : option string;
  category : option string;
  size : option string;
  color : option string;
  brand : option string;
  purchasePrice : option Z;
  salePrice : option Z;
  rentalPricePerDay : option Z;
  stock : option Z;
  description : option string;
  barcode : option string;
  isAvailableForRental : option bool
}.
End ProductPatch.

(** [if (productData.name) updateData.name = ...]: a missing or empty
    string leaves the column as it is. *)
Definition ifTruthy (x : option string) (old : string) : string :=
  match x with
  | Some v => if String.eqb v EmptyString then old else v
  | None => old
  end.

(** [if (productData.stock !== undefined) updateData.stock = ...]. *)
Definition ifDefined {A : Type} (x : option A) (old : A) : A :=
  match x with Some v => v | None => old end.

Definition patchProduct (productData : ProductPatch.t) (p : Product.t) : Product.t :=
  Product.mk (Product.id p)
    (ifTruthy (ProductPatch.name productData) (Product.name p))
    (ifTruthy (ProductPatch.category productData) (Product.category p))
    (ifTruthy (ProductPatch.size productData) (Product.size p))
    (ifTruthy (ProductPatch.color productData) (Product.color p))
    (ifTruthy (ProductPatch.brand productData) (Product.brand p))
    (ifDefined (ProductPatch.purchasePrice productData) (Product.purchasePrice p))
    (ifDefined (ProductPatch.salePrice productData) (Product.salePrice p))
    (ifDefined (ProductPatch.rentalPricePerDay productData) (Product.rentalPricePerDay p))
    (ifDefined (ProductPatch.stock productData) (Product.stock p))
    (ifDefined (ProductPatch.description productData) (Product.description p))
    (ifDefined (ProductPatch.barcode productData) (Product.barcode p))
    (ifDefined (ProductPatch.isAvailableForRental productData)
               (Product.isAvailableForRental p))
    (Product.createdAt p).

Definition updateProduct (productId : string) (productData : ProductPatch.t)
  : Async unit :=
  r <- supabase (update (fun d =>
         DB.withProducts d
           (map (fun p => if String.eqb (Product.id p) productId
                          then patchProduct productData p else p)
                (DB.products d)))) ;;
  match r with
  | None => Throw PostgrestError
  | Some _ => loadProducts
  end.

Definition deleteProduct (productId : string) : Async unit :=
  r <- supabase (update (fun d =>
         DB.withProducts d
           (filter (fun p => negb (String.eqb (Product.id p) productId))
                   (DB.products d)))) ;;
  match r with
  | None => Throw PostgrestError
  | Some _ => loadProducts
  end.

(** ** Customer statistics ([CustomerManagement])

    [calculateCustomerStats] reads the transactions and the rentals of a
    customer's history; the payments of the history are not read. *)
Record CustomerStats := mkCustomerStats {
  totalSpent : Z;
  totalTransactions : nat;
  pendingAmount : Z;
  cs_activeRentals : nat
}.

Definition calculateCustomerStats
    (historyTransactions : list Transaction.t) (historyRentals : list Rental.t)
  : CustomerStats :=
  mkCustomerStats
    (fold_left (fun sum t => sum + orNum (Transaction.amountPaid t)
                                         (Transaction.totalAmount t))
               historyTransactions 0
     + fold_left (fun sum r => sum + orNum (Rental.amountPaid r)
                                           (Rental.totalAmount r))
                 historyRentals 0)
    (List.length historyTransactions + List.length historyRentals)
    (fold_left (fun sum t => sum + orNum (Transaction.remainingAmount t) 0)
               historyTransactions 0
     + fold_left (fun sum r => sum + orNum (Rental.remainingAmount r) 0)
                 historyRentals 0)
    (List.length (filter (fun r => RentalStatus_eqb (Rental.status r) active)
                         historyRentals)).

(** ** Users and sessions ([AuthContext])

    The authentication provider keeps the logged-in [user] and the list of
    active [users] in memory and the [users] table in the store.  Its
    calls are written as functions on the world they run in; as before
    [outage] says which round trips the store refuses. *)

Module Auth.

Module User.
Record t := mk {
  id : string;
  name : string;
  email : string;
  role : string;
  isActive : bool;
  createdAt : Date;
  password : option string
}.
End User.

(** The argument of [addUser]: password and activity flag may be missing. *)
Record UserData := mkUserData {
  ud_name : string;
  ud_email : string;
  ud_role : string;
  ud_password : option string;
  ud_isActive : option bool
}.

(** The fields of [Partial<User>] that [updateUser] looks at. *)
Record UserPatch := mkUserPatch {
  up_name : option string;
  up_email : option string;
  up_role : option string;
  up_isActive : option bool
}.

Record World := mkWorld {
  user : option User.t;
  users : list User.t;
  table : list User.t;
  tick : nat;
  outage : nat -> bool;
  uuid : nat -> string;
  clock : Date
}.

Definition setUser (u : option User.t) (w : World) : World :=
  mkWorld u (users w) (table w) (tick w) (outage w) (uuid w) (clock w).

Definition setUsers (l : list User.t) (w : World) : World :=
  mkWorld (user w) l (table w) (tick w) (outage w) (uuid w) (clock w).

(** One round trip has been made; the table now holds [rows]. *)
Definition answered (rows : list User.t) (w : World) : World :=
  mkWorld (user w) (users w) rows (S (tick w)) (outage w) (uuid w) (clock w).

Definition loadUsers (w : World) : World :=
  if outage w (tick w) then answered (table w) w
  else setUsers (newestFirst User.createdAt (filter User.isActive (table w)))
                (answered (table w) w).

(** The rows that the query of [login] selects. *)
Definition credentialsMatch (email password : string) (row : User.t) : bool :=
  String.eqb (User.email row) email
  && match User.password row with
     | Some stored => String.eqb stored password
     | None => false
     end
  && User.isActive row.

(** [.single()]: an error unless exactly one row is selected. *)
Definition single {A : Type} (rows : list A) : option A :=
  match rows with
  | [row] => Some row
  | _ => None
  end.

Definition login (email password : string) (w : World) : bool * World :=
  if outage w (tick w) then (false, answered (table w) w)
  else
    match single (filter (credentialsMatch email password) (table w)) with
    | None => (false, answered (table w) w)
    | Some data =>
        (true,
         setUser (Some (User.mk (User.id data) (User.name data) (User.email data)
                                (User.role data) (User.isActive data)
                                (User.createdAt data) None))
                 (answered (table w) w))
    end.

Definition logout (w : World) : World := setUser None w.

(** [userData.password || '123456']: a missing or empty password. *)
Definition passwordOr (x : option string) (dflt : string) : string :=
  match x with
  | Some v => if String.eqb v EmptyString then dflt else v
  | None => dflt
  end.

Definition addUser (userData : UserData) (w : World) : Outcome unit * World :=
  if outage w (tick w) then (Rejected PostgrestError, answered (table w) w)
  else
    let row := User.mk (uuid w (tick w)) (ud_name userData) (ud_email userData)
                       (ud_role userData) (orElse (ud_isActive userData) true)
                       (clock w)
                       (Some (passwordOr (ud_password userData) "123456")) in
    (Resolved tt, loadUsers (answered (table w ++ [row]) w)).

(** [updateUser], [deleteUser] and [changePassword] have one shape: an
    update of the rows of the given id, an error thrown when the store
    refuses it, then [loadUsers]. *)
Definition onUser (userId : string) (change : User.t -> User.t) (w : World)
  : Outcome unit * World :=
  if outage w (tick w) then (Rejected PostgrestError, answered (table w) w)
  else
    (Resolved tt,
     loadUsers (answered (map (fun row => if String.eqb (User.id row) userId
                                          then change row else row)
                              (table w)) w)).

Definition updateUser (userId : string) (userData : UserPatch) (w : World)
  : Outcome unit * World :=
  onUser userId
    (fun row => User.mk (User.id row)
                  (ifTruthy (up_name userData) (User.name row))
                  (ifTruthy (up_email userData) (User.email row))
                  (ifTruthy (up_role userData) (User.role row))
                  (ifDefined (up_isActive userData) (User.isActive row))
                  (User.createdAt row) (User.password row))
    w.

Definition deleteUser (userId : string) (w : World) : Outcome unit * World :=
  onUser userId
    (fun row => User.mk (User.id row) (User.name row) (User.email row)
                        (User.role row) false (User.createdAt row)
                        (User.password row))
    w.

Definition changePassword (userId newPassword : string) (w : World)
  : Outcome unit * World :=
  onUser userId
    (fun row => User.mk (User.id row) (User.name row) (User.email row)
                        (User.role row) (User.isActive row) (User.createdAt row)
                        (Some newPassword))
    w.

Definition isAdmin (w : World) : bool :=
  match user w with
  | Some u => String.eqb (User.role u) "admin"
  | None => false
  end.

End Auth.

(** ** Vocabulary of the statements *)

(** Number of calendar rows of [l] that fall on [day]. *)
Definition entriesOn (day : IsoDate) (l : list CalendarRow.t) : nat :=
  List.length (filter (fun e => CalendarRow.reserved_date e =? day) l).

(** [Number.MAX_SAFE_INTEGER] and [Number.isSafeInteger]: the whole
    numbers that a JavaScript number holds exactly. *)
Definition MAX_SAFE_INTEGER : Z := 2 ^ 53 - 1.

Definition isSafeInteger (x : Z) : bool :=
  (- MAX_SAFE_INTEGER <=? x) && (x <=? MAX_SAFE_INTEGER).

(** A payment [a] on a record with [p] paid of a total [T] whose amounts,
    sum and difference are whole numbers that the code computes exactly. *)
Definition wholeAmounts (p T a : Z) : Prop :=
  isSafeInteger p = true /\ isSafeInteger T = true /\ isSafeInteger a = true
  /\ isSafeInteger (p + a) = true /\ isSafeInteger (T - (p + a)) = true.

(** What a loader may change: the in-memory copies and the count of round
    trips; never the store, the failures to come, the clock or the time
    zone. *)
Record sameWorld (s s' : State) : Prop := mkSame {
  same_db : db s' = db s;
  same_outage : outage s' = outage s;
  same_uuid : uuid s' = uuid s;
  same_clock : clock s' = clock s;
  same_timeZone : timeZone s' = timeZone s
}.

Definition loaderSpec (load : Async unit) : Prop :=
  forall s, fst (run load s) = Resolved tt
            /\ sameWorld s (snd (run load s))
            /\ tick (snd (run load s)) = S (tick s).

(** ** A small shop, for the examples *)

(** Coordinated universal time, offset 0 throughout. *)
Definition utc : TimeZone := mkTimeZone (fun _ _ => 0).

(** Paris around the change to summer time of 31 March 2024: one hour
    ahead of UTC until 01:00 UTC of that day, two hours from then on.  A
    local time in the hour that the change skips goes with the offset
    before the change. *)
Definition springForward2024 : Date := 19813 * msPerDay + msPerHour.

Definition paris : TimeZone :=
  mkTimeZone (fun t isUTC =>
    if isUTC
    then (if t <? springForward2024 then msPerHour else 2 * msPerHour)
    else (if t <? springForward2024 + 2 * msPerHour then msPerHour
          else 2 * msPerHour)).

Definition noOutage : nat -> bool := fun _ => false.

(** Only the round trip number [n] fails. *)
Definition outageAt (n : nat) : nat -> bool := fun k => Nat.eqb k n.

Definition uuids : nat -> string :=
  fun n => String (Ascii.ascii_of_nat (97 + n)) EmptyString.

Definition hours (h : Z) : Z := h * 3600000.

(** 2024-06-10, the 19884th day after 1970-01-01. *)
Definition june10 : IsoDate := 19884.

Definition robe : Product.t :=
  Product.mk "p1" "Robe" "robes" "M" "rouge" "Hali" 4000 9000 1000 3 "" "" true 0.

Definition rentalOf (startDate endDate : Date) : Rental.t :=
  Rental.mk "" None "p1" "Amina Boudiaf" "0888901234" None startDate endDate
            1 1000 1000 1000 0 None 0 0 0 active "u1" "agent" "" 0 None.

Definition saleOf (qty total paid : Z) : Transaction.t :=
  Transaction.mk "t1" sale "p1" "Robe" qty 9000 total paid (total - paid)
                 (Some (paymentStatusOf (total - paid) paid)) 0 0
                 "Karim Zidane" "0999567890" None
                 "completed" "u1" "agent" 0 "".

Definition shopDB : DB.t := DB.mk [robe] [] [] [] [].

Definition shop (failing : nat -> bool) : State :=
  mkState [robe] [] [] [] shopDB 0 failing uuids (parseISODate june10) utc.

Definition withTimeZone (tz : TimeZone) (s : State) : State :=
  mkState (products s) (transactions s) (rentals s) (customers s) (db s)
          (tick s) (outage s) (uuid s) (clock s) tz.

Definition withStore (d : DB.t) (s : State) : State :=
  mkState (products s) (transactions s) (rentals s) (customers s) d
          (tick s) (outage s) (uuid s) (clock s) (timeZone s).

(** The shop with June 10 already reserved for the robe. *)
Definition reservedJune10 : CalendarRow.t :=
  CalendarRow.mk "p1" "r1" june10 reserved.

Definition booked : State :=
  withStore (DB.withCalendar shopDB [reservedJune10]) (shop noOutage).

(** The shop with one sale on credit and one rental on credit, known to
    the provider as they are in the store. *)
Definition creditRow (total paid : Z) : RentalRow.t :=
  RentalRow.mk "r1" None "p1" "Amina Boudiaf" "0888901234" None
               june10 june10 1 total total paid (total - paid)
               (Some (paymentStatusOf (total - paid) paid)) 0 0 0 active
               "u1" "agent" "" 0 None.

Definition ledger (total paid : Z) (failing : nat -> bool) : State :=
  mkState [robe] [saleOf 1 total paid] [formatRental (creditRow total paid)] []
          (DB.mk [robe] [saleOf 1 total paid] [creditRow total paid] [] [])
          0 failing uuids (parseISODate june10) utc.

(** The shop with a rental of the robe on June 10 and its calendar row. *)
Definition rented : State :=
  withStore (DB.mk [robe] [] [creditRow 1000 1000] [reservedJune10] [])
            (shop noOutage).

(** Local time for the examples: UTC, and a month that is June 2024
    (June 1 is day 19875, June 30 is day 19904). *)
Definition firstOfJune2024 (_ : Date) : Date := parseISODate 19875.
Definition lastOfJune2024 (_ : Date) : Date := parseISODate 19904.
Definition utcEndOfDay (d : Date) : Date :=
  parseISODate (toISODate d) + (msPerDay - 1).
Definition juneDateString (d : Date) : string :=
  String (Ascii.ascii_of_N (Z.to_N (toISODate d - 19875 + 1))) EmptyString.

(** The payment columns that a payment [a] on a record with [p] paid of a
    total [T] is to leave, in the words of the payment ledger. *)
Definition ledgerEntry (p T a : Z) (paid remaining : Z) (st : PaymentStatus) : Prop :=
  paid = p + a
  /\ remaining = Z.max 0 (T - (p + a))
  /\ (remaining = 0 -> st = completed)
  /\ (remaining <> 0 -> 0 < p + a -> st = partial)
  /\ (remaining <> 0 -> p + a <= 0 -> st = pending).

(** The store once [addTransaction] has made its first round trip, the
    customer upsert, whose outcome the code does not look at. *)
Definition afterUpsert (transactionData : Transaction.t) (s : State) : State :=
  if outage s (tick s) then answered (db s) s
  else answered (create_customer_if_not_exists
                   (Transaction.customerName transactionData)
                   (Transaction.customerPhone transactionData)
                   (Transaction.customerEmail transactionData)
                   (uuid s (tick s)) (clock s) (db s)) s.

(** A sale of robes whose product the provider does not hold in memory. *)
Definition strangerSale : Transaction.t :=
  Transaction.mk "" sale "p7" "Caftan" 2 7000 14000 0 14000 (Some pending) 0 0
                 "Fatima Khelifi" "0666789012" None "completed" "u1" "agent" 0 "".

Definition rentalFee : Transaction.t :=
  Transaction.mk "" rental "p1" "Robe" 1 1000 1000 1000 0 (Some completed) 0 0
                 "Amina Boudiaf" "0888901234" None "completed" "u1" "agent" 0 "".

(** A store with one customer on file. *)
Definition ahmed : Customer.t :=
  Customer.mk "c1" "Ahmed Benali" "0555123456" (Some "ahmed.benali@email.com"%string)
              (Some "123 Rue de la Paix, Alger"%string) None 0.

Definition clients : DB.t := DB.mk [robe] [] [] [] [ahmed].

(** A sale on credit with nothing paid yet. *)
Definition unpaidSale : Transaction.t :=
  Transaction.mk "" sale "p1" "Robe" 1 9000 9000 0 9000 (Some pending) 0 0
                 "Ahmed Benali" "0555123456" None "completed" "u1" "agent" 0 "".

(** What a customer has been billed: the totals of the history. *)
Definition billed (historyTransactions : list Transaction.t)
    (historyRentals : list Rental.t) : Z :=
  fold_right (fun t sum => Transaction.totalAmount t + sum) 0 historyTransactions
  + fold_right (fun r sum => Rental.totalAmount r + sum) 0 historyRentals.

(** A record whose payment columns balance: something has been paid, not
    more than the total, and the rest is the remainder. *)
Definition balanced (total paid remaining : Z) : Prop :=
  paid <> 0 /\ paid <= total /\ remaining = total - paid.

(** A new robe for the catalogue, rental flag not given. *)
Definition caftan : ProductData :=
  mkProductData
    (Product.mk "" "Caftan" "caftans" "L" "vert" "Hali" 6000 12000 1500 2 "" "" false 0)
    None.

Definition noPatch : ProductPatch.t :=
  ProductPatch.mk None None None None None None None None None None None None.

(** A staff of two, the agent deactivated. *)
Definition admin : Auth.User.t :=
  Auth.User.mk "u1" "Zahia" "admin@boutique.com" "admin" true 0 (Some "hamaza44"%string).

Definition formerAgent : Auth.User.t :=
  Auth.User.mk "u2" "Karim" "karim@boutique.com" "agent" false 0 (Some "123456"%string).

Definition staff (failing : nat -> bool) : Auth.World :=
  Auth.mkWorld None [admin] [admin; formerAgent] 0 failing uuids 0.

Definition newAgent : Auth.UserData :=
  Auth.mkUserData "Amina" "amina@boutique.com" "agent" None None.

(** * Properties *)

(** ** Running computations *)

Lemma run_bind {A B : Type} (t : Async A) (g : A -> Async B) (s : State) :
  run (bind t g) s =
  match run t s with
  | (Resolved a, s') => run (g a) s'
  | (Rejected e, s') => (Rejected e, s')
  end.
Proof.
  revert s; induction t as [a | e | R f k IH | R c k IH]; intros s; simpl.
  - reflexivity.
  - reflexivity.
  - destruct (f s) as [r s']. apply IH.
  - destruct (c s) as [r s']. apply IH.
Qed.

Lemma run_getState {A R : Type} (proj : State -> R) (k : R -> Async A) (s : State) :
  run (bind (getState proj) k) s = run (k (proj s)) s.
Proof. reflexivity. Qed.

Lemma run_supabase {R : Type} (q : DB.t -> R * DB.t) (s : State) :
  run (supabase q) s =
  if outage s (tick s) then (Resolved None, answered (db s) s)
  else (Resolved (Some (fst (q (db s)))), answered (snd (q (db s))) s).
Proof.
  unfold supabase; simpl.
  destruct (outage s (tick s)); [reflexivity|].
  destruct (q (db s)); reflexivity.
Qed.

Lemma run_supabaseInsert {R : Type} (q : string -> Date -> DB.t -> R * DB.t) (s : State) :
  run (supabaseInsert q) s =
  if outage s (tick s) then (Resolved None, answered (db s) s)
  else (Resolved (Some (fst (q (uuid s (tick s)) (clock s) (db s)))),
        answered (snd (q (uuid s (tick s)) (clock s) (db s))) s).
Proof.
  unfold supabaseInsert; simpl.
  destruct (outage s (tick s)); [reflexivity|].
  destruct (q (uuid s (tick s)) (clock s) (db s)); reflexivity.
Qed.

Lemma sameWorld_refl (s : State) : sameWorld s s.
Proof. split; reflexivity. Qed.

Lemma sameWorld_refl_answered (s : State) : sameWorld s (answered (db s) s).
Proof. split; reflexivity. Qed.

Lemma sameWorld_trans (s1 s2 s3 : State) :
  sameWorld s1 s2 -> sameWorld s2 s3 -> sameWorld s1 s3.
Proof. intros [] []; split; congruence. Qed.

Ltac loader_tac :=
  intros s; simpl;
  destruct (outage s (tick s)); simpl;
  (split; [reflexivity | split; [split; reflexivity | reflexivity]]).

Lemma loadProducts_spec : loaderSpec loadProducts.
Proof. loader_tac. Qed.

Lemma loadTransactions_spec : loaderSpec loadTransactions.
Proof. loader_tac. Qed.

Lemma loadRentals_spec : loaderSpec loadRentals.
Proof. loader_tac. Qed.

Lemma loadCustomers_spec : loaderSpec loadCustomers.
Proof. loader_tac. Qed.

Lemma run_loader {A : Type} (load : Async unit) (k : Async A) (s : State) :
  loaderSpec load ->
  exists s', run (load ;; k) s = run k s'
             /\ sameWorld s s' /\ tick s' = S (tick s).
Proof.
  intros H. destruct (H s) as (Hr & Hw & Ht).
  rewrite run_bind. destruct (run load s) as [o s']; simpl in *. subst o.
  exists s'; auto.
Qed.

(** ** Newest first *)

Lemma In_insertNewest {A : Type} (created : A -> Date) (x y : A) (l : list A) :
  In y (insertNewest created x l) <-> y = x \/ In y l.
Proof.
  induction l as [|z l IH]; simpl.
  - intuition.
  - destruct (created z <=? created x); simpl; [intuition|].
    rewrite IH. intuition.
Qed.

(** The rows that a loader gets are those of the table. *)
Lemma In_newestFirst {A : Type} (created : A -> Date) (y : A) (l : list A) :
  In y (newestFirst created l) <-> In y l.
Proof.
  induction l as [|x l IH]; simpl; [reflexivity|].
  rewrite In_insertNewest, IH. intuition.
Qed.

Lemma length_insertNewest {A : Type} (created : A -> Date) (x : A) (l : list A) :
  List.length (insertNewest created x l) = S (List.length l).
Proof.
  induction l as [|z l IH]; simpl; [reflexivity|].
  destruct (created z <=? created x); simpl; [reflexivity | now rewrite IH].
Qed.

Lemma length_newestFirst {A : Type} (created : A -> Date) (l : list A) :
  List.length (newestFirst created l) = List.length l.
Proof.
  induction l as [|x l IH]; simpl; [reflexivity|].
  now rewrite length_insertNewest, IH.
Qed.

Lemma insertNewest_map {A B : Type} (created : A -> Date) (created' : B -> Date)
    (g : A -> B) (x : A) (l : list A) :
  (forall y, created' (g y) = created y) ->
  insertNewest created' (g x) (map g l) = map g (insertNewest created x l).
Proof.
  intros Hg. induction l as [|z l IH]; simpl; [reflexivity|].
  rewrite !Hg. destruct (created z <=? created x); simpl; [reflexivity|].
  now rewrite IH.
Qed.

(** The rows come out with no row before a newer one. *)
Lemma newestFirst_sorted {A : Type} (created : A -> Date) (l : list A) :
  StronglySorted (fun a b => created b <= created a) (newestFirst created l).
Proof.
  induction l as [|x l IH]; simpl; [constructor|].
  revert IH. generalize (newestFirst created l) as sorted.
  induction sorted as [|z sorted IHs]; intros Hs; simpl.
  - constructor; constructor.
  - apply StronglySorted_inv in Hs. destruct Hs as [Hs Hz].
    destruct (Z.leb_spec (created z) (created x)) as [Hzx | Hzx].
    + constructor; [constructor; assumption|].
      constructor; [exact Hzx|].
      eapply Forall_impl; [|exact Hz]. cbv beta. intros y Hy. lia.
    + constructor; [apply IHs; exact Hs|].
      apply Forall_forall. intros y Hy. apply In_insertNewest in Hy.
      destruct Hy as [-> | Hy]; [lia|].
      rewrite Forall_forall in Hz. apply Hz. exact Hy.
Qed.

(** When no two rows were created at the same instant the order is all
    there is to it: two lists of the same rows, newest first both, are the
    same list. *)
Lemma sorted_determined {A : Type} (created : A -> Date) (l1 l2 : list A) :
  StronglySorted (fun a b => created b <= created a) l1 ->
  StronglySorted (fun a b => created b <= created a) l2 ->
  NoDup (map created l1) ->
  NoDup (map created l2) ->
  (forall x, In x l1 <-> In x l2) ->
  l1 = l2.
Proof.
  revert l2. induction l1 as [|x l1 IH]; intros l2 Hs1 Hs2 Hn1 Hn2 Hin.
  - destruct l2 as [|y l2]; [reflexivity|].
    destruct (proj2 (Hin y) (or_introl eq_refl)).
  - destruct l2 as [|y l2]; [destruct (proj1 (Hin x) (or_introl eq_refl))|].
    apply StronglySorted_inv in Hs1, Hs2.
    destruct Hs1 as [Hs1 Hx], Hs2 as [Hs2 Hy].
    rewrite Forall_forall in Hx, Hy.
    cbn [map] in Hn1, Hn2.
    apply NoDup_cons_iff in Hn1, Hn2.
    destruct Hn1 as [Hx1 Hn1], Hn2 as [Hy2 Hn2].
    assert (Hxy : x = y).
    { destruct (proj1 (Hin x) (or_introl eq_refl)) as [Heq | Hx2]; [now symmetry|].
      destruct (proj2 (Hin y) (or_introl eq_refl)) as [Heq | Hy1]; [exact Heq|].
      exfalso. apply Hy2.
      replace (created y) with (created x)
        by (pose proof (Hx y Hy1); pose proof (Hy x Hx2); lia).
      now apply in_map. }
    subst y. f_equal. apply IH; try assumption.
    intros z. split; intros Hz.
    + destruct (proj1 (Hin z) (or_intror Hz)) as [<- | Hz2]; [|exact Hz2].
      exfalso. apply Hx1. now apply in_map.
    + destruct (proj2 (Hin z) (or_intror Hz)) as [<- | Hz1]; [|exact Hz1].
      exfalso. apply Hy2. now apply in_map.
Qed.

Lemma sorted_map {A B : Type} (created : A -> Date) (created' : B -> Date)
    (g : A -> B) (l : list A) :
  (forall y, created' (g y) = created y) ->
  StronglySorted (fun a b => created b <= created a) l ->
  StronglySorted (fun a b => created' b <= created' a) (map g l).
Proof.
  intros Hg Hs. induction Hs as [|x l Hs IH Hx]; simpl; constructor.
  - exact IH.
  - apply Forall_forall. intros y Hy. apply in_map_iff in Hy.
    destruct Hy as (y0 & <- & Hy0). rewrite !Hg.
    rewrite Forall_forall in Hx. apply Hx. exact Hy0.
Qed.

(** An update that keeps the time of creation keeps the order. *)
Lemma newestFirst_map {A B : Type} (created : A -> Date) (created' : B -> Date)
    (g : A -> B) (l : list A) :
  (forall y, created' (g y) = created y) ->
  newestFirst created' (map g l) = map g (newestFirst created l).
Proof.
  intros Hg. induction l as [|x l IH]; simpl; [reflexivity|].
  rewrite IH. now apply insertNewest_map.
Qed.

(** ** Availability and the conflict check *)

Lemma reservedWithin_iff (productId : string) (fromDay toDay : IsoDate) (e : CalendarRow.t) :
  reservedWithin productId fromDay toDay e = true <->
  CalendarRow.product_id e = productId
  /\ CalendarRow.status e = reserved
  /\ fromDay <= CalendarRow.reserved_date e <= toDay.
Proof.
  unfold reservedWithin.
  rewrite !andb_true_iff, String.eqb_eq, !Z.leb_le.
  destruct (CalendarRow.status e); simpl; intuition congruence.
Qed.

Lemma filter_nonempty {A : Type} (f : A -> bool) (l : list A) (x : A) :
  In x l -> f x = true -> Nat.eqb (List.length (filter f l)) 0 = false.
Proof.
  intros Hin Hf.
  assert (Hx : In x (filter f l)) by (apply filter_In; auto).
  destruct (filter f l); [contradiction | reflexivity].
Qed.

Lemma checkProductAvailability_reserved
    (productId : string) (startDate endDate : Date) (s : State) (e : CalendarRow.t) :
  In e (DB.rental_calendar (db s)) ->
  reservedWithin productId (toISODate startDate) (toISODate endDate) e = true ->
  run (checkProductAvailability productId startDate endDate) s
  = (Resolved false, answered (db s) s).
Proof.
  intros Hin He. unfold checkProductAvailability.
  rewrite run_bind, run_supabase.
  destruct (outage s (tick s)); simpl; [reflexivity|].
  rewrite (filter_nonempty _ _ e Hin He). reflexivity.
Qed.

Lemma checkProductAvailability_free
    (productId : string) (startDate endDate : Date) (s : State) :
  fst (run (checkProductAvailability productId startDate endDate) s) = Resolved true ->
  outage s (tick s) = false
  /\ forall e, In e (DB.rental_calendar (db s)) ->
               reservedWithin productId (toISODate startDate) (toISODate endDate) e = false.
Proof.
  unfold checkProductAvailability.
  rewrite run_bind, run_supabase.
  destruct (outage s (tick s)); simpl; [discriminate|].
  intros H. split; [reflexivity|]. intros e Hin.
  destruct (reservedWithin _ _ _ e) eqn:He; [|reflexivity].
  rewrite (filter_nonempty _ _ e Hin He) in H. discriminate.
Qed.

(** A reserved day of the product inside the requested range makes
    [addRental] throw right after the check, the store untouched. *)
Lemma addRental_rejects_reserved (rentalData : Rental.t) (s : State) (e : CalendarRow.t) :
  In e (DB.rental_calendar (db s)) ->
  reservedWithin (Rental.productId rentalData)
                 (toISODate (Rental.rentalStartDate rentalData))
                 (toISODate (Rental.rentalEndDate rentalData)) e = true ->
  run (addRental rentalData) s
  = (Rejected (Error unavailableMessage), answered (db s) s).
Proof.
  intros Hin He. unfold addRental.
  rewrite run_bind, (checkProductAvailability_reserved _ _ _ _ e Hin He).
  reflexivity.
Qed.

(** C1.  When the requested product has a reserved calendar entry whose
    day lies in the requested range (both bounds included, by UTC day),
    [addRental] throws its unavailability error and writes nothing: the
    store, hence its rentals and calendar, and the in-memory rentals are
    what they were. *)
Theorem addRental_conflict_no_mutation
    (rentalData : Rental.t) (s : State) (e : CalendarRow.t) :
  In e (DB.rental_calendar (db s)) ->
  CalendarRow.product_id e = Rental.productId rentalData ->
  CalendarRow.status e = reserved ->
  toISODate (Rental.rentalStartDate rentalData) <= CalendarRow.reserved_date e
    <= toISODate (Rental.rentalEndDate rentalData) ->
  exists s',
    run (addRental rentalData) s = (Rejected (Error unavailableMessage), s')
    /\ db s' = db s
    /\ rentals s' = rentals s.
Proof.
  intros Hin Hp Hs Hd.
  exists (answered (db s) s). split; [|split; reflexivity].
  apply addRental_rejects_reserved with (e := e); [assumption|].
  apply reservedWithin_iff. auto.
Qed.

Lemma addRental_conflict_no_mutation_witness :
  exists s',
    run (addRental (rentalOf (parseISODate (june10 - 1)) (parseISODate (june10 + 1))))
        booked
    = (Rejected (Error unavailableMessage), s')
    /\ db s' = db booked
    /\ rentals s' = rentals booked.
Proof.
  apply (addRental_conflict_no_mutation
           (rentalOf (parseISODate (june10 - 1)) (parseISODate (june10 + 1)))
           booked reservedJune10).
  - left; reflexivity.
  - reflexivity.
  - reflexivity.
  - vm_compute. split; discriminate.
Defined.

(** ** The calendar rows of a new rental *)

Lemma entriesOn_app (day : IsoDate) (l1 l2 : list CalendarRow.t) :
  entriesOn day (l1 ++ l2) = (entriesOn day l1 + entriesOn day l2)%nat.
Proof. unfold entriesOn. rewrite filter_app, length_app. reflexivity. Qed.

(** In a time zone of fixed offset a local day is 24 hours. *)
Lemma addOneDay_fixedOffset (tz : TimeZone) (d : Date) :
  fixedOffset tz -> addOneDay tz d = d + msPerDay.
Proof.
  intros Htz. unfold addOneDay, UTC, LocalTime.
  rewrite (Htz (d + localTZA tz d true + msPerDay) d false true). lia.
Qed.

Lemma fixedOffset_utc : fixedOffset utc.
Proof. intros t t' b b'. reflexivity. Qed.

Lemma pushDates_acc (tz : TimeZone) (fuel : nat) (productId rentalId : string)
    (currentDate endDate : Date) (acc : list CalendarRow.t) :
  pushDates tz fuel productId rentalId currentDate endDate acc
  = acc ++ pushDates tz fuel productId rentalId currentDate endDate [].
Proof.
  revert currentDate acc.
  induction fuel as [|fuel IH]; intros currentDate acc; simpl.
  - now rewrite app_nil_r.
  - destruct (currentDate <=? endDate).
    + rewrite IH, (IH _ [_]). now rewrite <- app_assoc.
    + now rewrite app_nil_r.
Qed.

(** With fuel for every turn, the loop leaves one row on each day from the
    day of [currentDate] to the day reached by the last whole-day step
    that does not pass [endDate], and no row elsewhere. *)
Lemma entriesOn_pushDates (tz : TimeZone) (productId rentalId : string)
    (endDate : Date) (day : IsoDate) :
  fixedOffset tz ->
  forall (fuel : nat) (currentDate : Date),
    (endDate - currentDate) / msPerDay + 1 <= Z.of_nat fuel ->
    entriesOn day (pushDates tz fuel productId rentalId currentDate endDate [])
    = if (currentDate <=? endDate)
         && (toISODate currentDate <=? day)
         && (day <=? toISODate currentDate + (endDate - currentDate) / msPerDay)
      then 1%nat else 0%nat.
Proof.
  intros Htz.
  induction fuel as [|fuel IH]; intros currentDate Hfuel.
  - simpl pushDates.
    replace (currentDate <=? endDate) with false; [reflexivity|].
    symmetry; apply Z.leb_gt.
    unfold msPerDay in Hfuel. Z.div_mod_to_equations. lia.
  - simpl pushDates.
    destruct (currentDate <=? endDate) eqn:Hle; [|reflexivity].
    apply Z.leb_le in Hle.
    rewrite (addOneDay_fixedOffset tz currentDate Htz).
    rewrite pushDates_acc, entriesOn_app, IH.
    + unfold entriesOn at 1; simpl.
      unfold toISODate, msPerDay.
      destruct (currentDate / 86400000 =? day) eqn:Hd;
        [apply Z.eqb_eq in Hd | apply Z.eqb_neq in Hd]; simpl;
        repeat match goal with
               | |- context [?a <=? ?b] => destruct (Z.leb_spec a b)
               end; simpl; try reflexivity;
        exfalso; Z.div_mod_to_equations; lia.
    + unfold msPerDay in *. Z.div_mod_to_equations. lia.
Qed.

(** Where a local day is 24 hours, the loop has stopped on its own test
    within one turn more than the whole days to the end: more fuel changes
    nothing. *)
Lemma pushDates_enough (tz : TimeZone) (productId rentalId : string) (endDate : Date) :
  fixedOffset tz ->
  forall (fuel extra : nat) (currentDate : Date) (acc : list CalendarRow.t),
    (endDate - currentDate) / msPerDay + 1 <= Z.of_nat fuel ->
    pushDates tz (fuel + extra) productId rentalId currentDate endDate acc
    = pushDates tz fuel productId rentalId currentDate endDate acc.
Proof.
  intros Htz.
  induction fuel as [|fuel IH]; intros extra currentDate acc Hfuel.
  - assert (Hgt : (currentDate <=? endDate) = false).
    { apply Z.leb_gt. unfold msPerDay in Hfuel. Z.div_mod_to_equations. lia. }
    destruct extra; simpl; [reflexivity | now rewrite Hgt].
  - simpl. destruct (currentDate <=? endDate) eqn:Hle; [|reflexivity].
    apply Z.leb_le in Hle. apply IH.
    rewrite (addOneDay_fixedOffset tz currentDate Htz).
    unfold msPerDay in *. Z.div_mod_to_equations. lia.
Qed.

Lemma pushAvailable_enough (toDateString : Date -> string) (tz : TimeZone)
    (reservedDays : list Date) (lastDate : Date) :
  fixedOffset tz ->
  forall (fuel extra : nat) (currentDate : Date) (acc : list Date),
    (lastDate - currentDate) / msPerDay + 1 <= Z.of_nat fuel ->
    pushAvailable toDateString tz (fuel + extra) reservedDays currentDate lastDate acc
    = pushAvailable toDateString tz fuel reservedDays currentDate lastDate acc.
Proof.
  intros Htz.
  induction fuel as [|fuel IH]; intros extra currentDate acc Hfuel.
  - assert (Hgt : (currentDate <=? lastDate) = false).
    { apply Z.leb_gt. unfold msPerDay in Hfuel. Z.div_mod_to_equations. lia. }
    destruct extra; simpl; [reflexivity | now rewrite Hgt].
  - simpl. destruct (currentDate <=? lastDate) eqn:Hle; [|reflexivity].
    apply Z.leb_le in Hle. apply IH.
    rewrite (addOneDay_fixedOffset tz currentDate Htz).
    unfold msPerDay in *. Z.div_mod_to_equations. lia.
Qed.

(** In a time zone that advances the loop has stopped on its own test
    within the turns granted by [turnsUntil], whatever the changes of
    offset on the way: more turns change nothing. *)
Lemma pushDates_stops (tz : TimeZone) (productId rentalId : string) (endDate : Date) :
  advances tz ->
  forall (fuel extra : nat) (currentDate : Date) (acc : list CalendarRow.t),
    (endDate - currentDate) / msPerHour + 1 <= Z.of_nat fuel ->
    pushDates tz (fuel + extra) productId rentalId currentDate endDate acc
    = pushDates tz fuel productId rentalId currentDate endDate acc.
Proof.
  intros Htz.
  induction fuel as [|fuel IH]; intros extra currentDate acc Hfuel.
  - assert (Hgt : (currentDate <=? endDate) = false).
    { apply Z.leb_gt. unfold msPerHour in Hfuel. Z.div_mod_to_equations. lia. }
    destruct extra; simpl; [reflexivity | now rewrite Hgt].
  - simpl. destruct (currentDate <=? endDate) eqn:Hle; [|reflexivity].
    apply Z.leb_le in Hle. apply IH.
    pose proof (Htz currentDate) as Hstep. revert Hstep.
    generalize (addOneDay tz currentDate) as next. intros next Hstep.
    unfold msPerHour in *. Z.div_mod_to_equations. lia.
Qed.

Lemma pushAvailable_stops (toDateString : Date -> string) (tz : TimeZone)
    (reservedDays : list Date) (lastDate : Date) :
  advances tz ->
  forall (fuel extra : nat) (currentDate : Date) (acc : list Date),
    (lastDate - currentDate) / msPerHour + 1 <= Z.of_nat fuel ->
    pushAvailable toDateString tz (fuel + extra) reservedDays currentDate lastDate acc
    = pushAvailable toDateString tz fuel reservedDays currentDate lastDate acc.
Proof.
  intros Htz.
  induction fuel as [|fuel IH]; intros extra currentDate acc Hfuel.
  - assert (Hgt : (currentDate <=? lastDate) = false).
    { apply Z.leb_gt. unfold msPerHour in Hfuel. Z.div_mod_to_equations. lia. }
    destruct extra; simpl; [reflexivity | now rewrite Hgt].
  - simpl. destruct (currentDate <=? lastDate) eqn:Hle; [|reflexivity].
    apply Z.leb_le in Hle. apply IH.
    pose proof (Htz currentDate) as Hstep. revert Hstep.
    generalize (addOneDay tz currentDate) as next. intros next Hstep.
    unfold msPerHour in *. Z.div_mod_to_equations. lia.
Qed.

Lemma turnsUntil_hours (startDate endDate : Date) :
  (endDate - startDate) / msPerHour + 1 <= Z.of_nat (turnsUntil startDate endDate).
Proof. unfold turnsUntil. lia. Qed.

(** The rows of [rentalDates] are those of the loop run to its end. *)
Lemma rentalDates_stops (tz : TimeZone) (productId rentalId : string)
    (startDate endDate : Date) (extra : nat) :
  advances tz ->
  pushDates tz (turnsUntil startDate endDate + extra) productId rentalId
            startDate endDate []
  = rentalDates tz productId rentalId startDate endDate.
Proof.
  intros Htz. unfold rentalDates.
  apply pushDates_stops; [exact Htz | apply turnsUntil_hours].
Qed.

Lemma advances_fixedOffset (tz : TimeZone) : fixedOffset tz -> advances tz.
Proof.
  intros Htz d. rewrite (addOneDay_fixedOffset tz d Htz).
  unfold msPerDay, msPerHour. lia.
Qed.

Lemma advances_paris : advances paris.
Proof.
  intros d. unfold addOneDay, UTC, LocalTime, paris, springForward2024.
  cbn [localTZA]. unfold msPerDay, msPerHour.
  repeat match goal with
         | |- context [?a <? ?b] => destruct (Z.ltb_spec a b)
         end; lia.
Qed.

(** The turns granted by [turnsUntil] cover those of whole-day steps. *)
Lemma turnsUntil_enough (startDate endDate : Date) :
  (endDate - startDate) / msPerDay + 1 <= Z.of_nat (turnsUntil startDate endDate).
Proof.
  unfold turnsUntil, msPerDay, msPerHour.
  destruct (Z.le_gt_cases 0 (endDate - startDate)).
  - rewrite Z2Nat.id by (Z.div_mod_to_equations; lia).
    Z.div_mod_to_equations. lia.
  - assert ((endDate - startDate) / 86400000 + 1 <= 0)
      by (Z.div_mod_to_equations; lia).
    lia.
Qed.

Lemma pushDates_rows (tz : TimeZone) (productId rentalId : string) (endDate : Date) :
  forall (fuel : nat) (currentDate : Date) (acc : list CalendarRow.t),
    Forall (fun e => CalendarRow.product_id e = productId
                     /\ CalendarRow.rental_id e = rentalId
                     /\ CalendarRow.status e = reserved) acc ->
    Forall (fun e => CalendarRow.product_id e = productId
                     /\ CalendarRow.rental_id e = rentalId
                     /\ CalendarRow.status e = reserved)
           (pushDates tz fuel productId rentalId currentDate endDate acc).
Proof.
  induction fuel as [|fuel IH]; intros currentDate acc Hacc; simpl.
  - assumption.
  - destruct (currentDate <=? endDate); [|assumption].
    apply IH. apply Forall_app; split; [assumption|].
    constructor; [|constructor]. simpl. auto.
Qed.

(** When the end is not earlier in its day than the start is in its own,
    the last whole-day step lands on the day of the end. *)
Lemma last_step_day (startDate endDate : Date) :
  timeOfDay startDate <= timeOfDay endDate ->
  toISODate startDate + (endDate - startDate) / msPerDay = toISODate endDate.
Proof.
  unfold timeOfDay, toISODate, msPerDay. intros H.
  Z.div_mod_to_equations. lia.
Qed.

Lemma toISODate_mono (a b : Date) : a <= b -> toISODate a <= toISODate b.
Proof.
  unfold toISODate, msPerDay. intros H. Z.div_mod_to_equations. lia.
Qed.

Lemma entriesOn_rentalDates (tz : TimeZone) (productId rentalId : string)
    (startDate endDate : Date) (day : IsoDate) :
  fixedOffset tz ->
  startDate <= endDate ->
  timeOfDay startDate <= timeOfDay endDate ->
  entriesOn day (rentalDates tz productId rentalId startDate endDate)
  = if (toISODate startDate <=? day) && (day <=? toISODate endDate)
    then 1%nat else 0%nat.
Proof.
  intros Htz Hle Htod. unfold rentalDates.
  rewrite (entriesOn_pushDates tz _ _ _ _ Htz) by apply turnsUntil_enough.
  rewrite last_step_day by assumption.
  apply Z.leb_le in Hle. rewrite Hle. reflexivity.
Qed.

(** ** What a successful [addRental] has done *)

Lemma run_checkProductAvailability
    (productId : string) (startDate endDate : Date) (s : State) :
  run (checkProductAvailability productId startDate endDate) s
  = (Resolved
       (if outage s (tick s) then false
        else Nat.eqb (List.length
               (filter (reservedWithin productId (toISODate startDate) (toISODate endDate))
                       (DB.rental_calendar (db s)))) 0),
     answered (db s) s).
Proof.
  unfold checkProductAvailability.
  rewrite run_bind, run_supabase.
  destruct (outage s (tick s)); reflexivity.
Qed.

Lemma run_then_loaded {A : Type} (x y : A) (st s' : State) :
  run (loadRentals ;; Return x) st = (Resolved y, s') ->
  x = y /\ db s' = db st.
Proof.
  destruct (run_loader loadRentals (Return x) st loadRentals_spec)
    as (s3 & Hrun & [Hdb _ _ _ _] & _).
  rewrite Hrun; cbn [run]. intros H; injection H as <- <-. auto.
Qed.

Lemma addRental_resolved (rentalData : Rental.t) (s s' : State) (newId : string) :
  run (addRental rentalData) s = (Resolved newId, s') ->
  outage s (tick s) = false
  /\ outage s (S (tick s)) = false
  /\ newId = uuid s (S (tick s))
  /\ DB.rentals (db s') = DB.rentals (db s) ++ [rentalRow rentalData newId (clock s)]
  /\ DB.rental_calendar (db s')
     = (if outage s (S (S (tick s))) then DB.rental_calendar (db s)
        else DB.rental_calendar (db s)
             ++ rentalDates (timeZone s) (Rental.productId rentalData) newId
                  (Rental.rentalStartDate rentalData)
                  (Rental.rentalEndDate rentalData)).
Proof.
  unfold addRental.
  rewrite run_bind, run_checkProductAvailability.
  destruct (outage s (tick s)) eqn:Ho0; cbn [negb run]; [discriminate|].
  destruct (Nat.eqb _ 0); cbn [negb run]; [|discriminate].
  rewrite run_bind, run_supabaseInsert.
  cbn [tick answered outage uuid clock db].
  destruct (outage s (S (tick s))) eqn:Ho1; cbn [run fst snd]; [discriminate|].
  set (newRow := rentalRow rentalData (uuid s (S (tick s))) (clock s)).
  change (RentalRow.id newRow) with (uuid s (S (tick s))).
  rewrite run_getState. cbn [timeZone answered].
  set (dates := rentalDates _ _ _ _ _).
  rewrite run_bind.
  destruct (Nat.ltb 0 (List.length dates)) eqn:Hlen.
  - rewrite run_bind, run_supabase.
    cbn [tick answered outage uuid clock db].
    destruct (outage s (S (S (tick s)))) eqn:Ho2; cbn [run fst snd update];
      intros Hrun; apply run_then_loaded in Hrun; destruct Hrun as [<- ->];
      subst newRow; cbn; auto.
  - cbn [run]. intros Hrun.
    assert (Hnil : dates = []) by (destruct dates; [reflexivity | discriminate]).
    apply run_then_loaded in Hrun; destruct Hrun as [<- ->].
    unfold dates in Hnil. rewrite Hnil, app_nil_r. subst newRow; cbn.
    destruct (outage s (S (S (tick s)))); auto.
Qed.

Lemma rentalDates_single_day (tz : TimeZone) (productId rentalId : string)
    (date : Date) :
  rentalDates tz productId rentalId date date
  = [CalendarRow.mk productId rentalId (toISODate date) reserved].
Proof.
  unfold rentalDates, turnsUntil.
  rewrite Z.sub_diag. change (Z.to_nat (0 / msPerHour + 1)) with 1%nat.
  simpl. now rewrite Z.leb_refl.
Qed.

(** C2, as the code has it.  In a time zone of fixed offset (no
    daylight-saving change, so that a step of one local day is 24 hours),
    when [addRental] succeeds, its calendar insert was answered by the
    store, the start is not after the end and the end is not earlier in
    its day than the start is in its own, the calendar has grown by rows
    of the rented product that are all reserved and carry the new rental's
    id, one row for each UTC day from the day of the start to the day of
    the end inclusive and none for another day; when start and end are the
    same instant it has grown by one row. *)
Theorem addRental_one_entry_per_day
    (rentalData : Rental.t) (s s' : State) (newId : string) :
  fixedOffset (timeZone s) ->
  run (addRental rentalData) s = (Resolved newId, s') ->
  Rental.rentalStartDate rentalData <= Rental.rentalEndDate rentalData ->
  timeOfDay (Rental.rentalStartDate rentalData)
    <= timeOfDay (Rental.rentalEndDate rentalData) ->
  outage s (S (S (tick s))) = false ->
  exists dates,
    DB.rental_calendar (db s') = DB.rental_calendar (db s) ++ dates
    /\ Forall (fun e => CalendarRow.product_id e = Rental.productId rentalData
                        /\ CalendarRow.rental_id e = newId
                        /\ CalendarRow.status e = reserved) dates
    /\ (forall day,
          toISODate (Rental.rentalStartDate rentalData) <= day
            <= toISODate (Rental.rentalEndDate rentalData) ->
          entriesOn day dates = 1%nat)
    /\ (forall day,
          ~ (toISODate (Rental.rentalStartDate rentalData) <= day
               <= toISODate (Rental.rentalEndDate rentalData)) ->
          entriesOn day dates = 0%nat)
    /\ (Rental.rentalStartDate rentalData = Rental.rentalEndDate rentalData ->
        List.length dates = 1%nat).
Proof.
  intros Htz Hrun Hle Htod Ho2.
  apply addRental_resolved in Hrun.
  destruct Hrun as (_ & _ & _ & _ & Hcal). rewrite Ho2 in Hcal.
  eexists; split; [exact Hcal|].
  split; [apply pushDates_rows; constructor|].
  split; [|split].
  - intros day [H1 H2].
    rewrite entriesOn_rentalDates by assumption.
    apply Z.leb_le in H1, H2. now rewrite H1, H2.
  - intros day Hout.
    rewrite entriesOn_rentalDates by assumption.
    destruct (Z.leb_spec (toISODate (Rental.rentalStartDate rentalData)) day);
      destruct (Z.leb_spec day (toISODate (Rental.rentalEndDate rentalData)));
      simpl; try reflexivity.
    exfalso; apply Hout; lia.
  - intros Heq. rewrite Heq, rentalDates_single_day. reflexivity.
Qed.

Lemma addRental_one_entry_per_day_witness :
  exists dates,
    DB.rental_calendar
      (db (snd (run (addRental (rentalOf (parseISODate june10)
                                         (parseISODate (june10 + 2))))
                    (shop noOutage))))
    = DB.rental_calendar (db (shop noOutage)) ++ dates
    /\ entriesOn (june10 + 1) dates = 1%nat.
Proof.
  destruct (addRental_one_entry_per_day
              (rentalOf (parseISODate june10) (parseISODate (june10 + 2)))
              (shop noOutage)
              (snd (run (addRental (rentalOf (parseISODate june10)
                                             (parseISODate (june10 + 2))))
                        (shop noOutage)))
              "b")
    as (dates & Hcal & _ & Hin & _).
  - exact fixedOffset_utc.
  - vm_compute. reflexivity.
  - vm_compute. discriminate.
  - vm_compute. discriminate.
  - reflexivity.
  - exists dates. split; [exact Hcal|]. apply Hin. vm_compute.
    split; discriminate.
Defined.

(** C2 as stated fails three times.  A calendar insert that the store
    refuses is only logged: the call succeeds and no day is reserved.  The
    loop compares instants, not days: a rental from 15:00 on June 10 to
    10:00 on June 11 succeeds and reserves June 10 only.  And the loop
    steps by local days: in Paris a rental from 30 March 2024 to 1 April,
    midnight UTC both, reserves 31 March twice and 1 April not at all. *)
Lemma addRental_entries_counterexample :
  (let call := run (addRental (rentalOf (parseISODate june10) (parseISODate june10)))
                   (shop (outageAt 2)) in
   succeeded (fst call) = true
   /\ entriesOn june10 (DB.rental_calendar (db (snd call))) = 0%nat)
  /\
  (let startDate := parseISODate june10 + hours 15 in
   let endDate := parseISODate (june10 + 1) + hours 10 in
   let call := run (addRental (rentalOf startDate endDate)) (shop noOutage) in
   startDate <= endDate
   /\ toISODate endDate = june10 + 1
   /\ succeeded (fst call) = true
   /\ entriesOn (june10 + 1) (DB.rental_calendar (db (snd call))) = 0%nat)
  /\
  (let call := run (addRental (rentalOf (parseISODate 19812) (parseISODate 19814)))
                   (withTimeZone paris (shop noOutage)) in
   succeeded (fst call) = true
   /\ entriesOn 19813 (DB.rental_calendar (db (snd call))) = 2%nat
   /\ entriesOn 19814 (DB.rental_calendar (db (snd call))) = 0%nat).
Proof.
  split; [|split]; vm_compute; repeat split; try reflexivity; discriminate.
Qed.

(** ** The payment ledger *)

Lemma orNum_zero (x : Z) : orNum x 0 = x.
Proof. unfold orNum. destruct (Z.eqb_spec x 0); congruence. Qed.

Lemma paymentStatusOf_ledger (p T a : Z) :
  ledgerEntry p T a (p + a) (Z.max 0 (T - (p + a)))
              (paymentStatusOf (Z.max 0 (T - (p + a))) (p + a)).
Proof.
  unfold ledgerEntry, paymentStatusOf.
  destruct (Z.eqb_spec (Z.max 0 (T - (p + a))) 0);
    destruct (Z.ltb_spec 0 (p + a)); intuition (congruence || lia).
Qed.

Lemma run_then_loader (load : Async unit) (st : State) :
  loaderSpec load ->
  exists s', run load st = (Resolved tt, s') /\ db s' = db st.
Proof.
  intros H. destruct (H st) as (Hr & [Hdb _ _ _ _] & _).
  destruct (run load st) as [o s']; simpl in *. subst o. eauto.
Qed.

Lemma updateTransactionPayment_written
    (transactionId : string) (a : Z) (s : State) (transaction : Transaction.t) :
  find (fun t => String.eqb (Transaction.id t) transactionId) (transactions s)
    = Some transaction ->
  outage s (tick s) = false ->
  exists s',
    run (updateTransactionPayment transactionId a) s = (Resolved tt, s')
    /\ db s' = setTransactionPayment transactionId
                 (Transaction.amountPaid transaction + a)
                 (Z.max 0 (Transaction.totalAmount transaction
                           - (Transaction.amountPaid transaction + a)))
                 (paymentStatusOf
                    (Z.max 0 (Transaction.totalAmount transaction
                              - (Transaction.amountPaid transaction + a)))
                    (Transaction.amountPaid transaction + a))
                 (db s).
Proof.
  intros Hfind Ho. unfold updateTransactionPayment, getState.
  cbn [bind run]. rewrite Hfind. cbv zeta.
  rewrite run_bind, run_supabase, Ho, orNum_zero. cbn [fst snd update].
  match goal with
  | |- context [run loadTransactions ?st] =>
      destruct (run_then_loader loadTransactions st loadTransactions_spec)
        as (s' & Hrun & Hdb)
  end.
  exists s'. split; [exact Hrun | exact Hdb].
Qed.

Lemma updateRentalPayment_written
    (rentalId : string) (a : Z) (s : State) (theRental : Rental.t) :
  find (fun r => String.eqb (Rental.id r) rentalId) (rentals s) = Some theRental ->
  outage s (tick s) = false ->
  exists s',
    run (updateRentalPayment rentalId a) s = (Resolved tt, s')
    /\ db s' = setRentalPayment rentalId
                 (Rental.amountPaid theRental + a)
                 (Z.max 0 (Rental.totalAmount theRental
                           - (Rental.amountPaid theRental + a)))
                 (paymentStatusOf
                    (Z.max 0 (Rental.totalAmount theRental
                              - (Rental.amountPaid theRental + a)))
                    (Rental.amountPaid theRental + a))
                 (db s).
Proof.
  intros Hfind Ho. unfold updateRentalPayment, getState.
  cbn [bind run]. rewrite Hfind. cbv zeta.
  rewrite run_bind, run_supabase, Ho, orNum_zero. cbn [fst snd update].
  match goal with
  | |- context [run loadRentals ?st] =>
      destruct (run_then_loader loadRentals st loadRentals_spec)
        as (s' & Hrun & Hdb)
  end.
  exists s'. split; [exact Hrun | exact Hdb].
Qed.

Lemma In_setTransactionPayment (targetId : string) (paid remaining : Z)
    (st : PaymentStatus) (d : DB.t) (row : Transaction.t) :
  In row (DB.transactions (setTransactionPayment targetId paid remaining st d)) ->
  Transaction.id row = targetId ->
  Transaction.amountPaid row = paid /\ Transaction.remainingAmount row = remaining
  /\ Transaction.paymentStatus row = Some st.
Proof.
  unfold setTransactionPayment; cbn. intros Hin Hid.
  apply in_map_iff in Hin. destruct Hin as (t0 & Heq & _).
  destruct (String.eqb_spec (Transaction.id t0) targetId) as [_ | Hne].
  - subst row; cbn; auto.
  - subst row; contradiction.
Qed.

Lemma In_setRentalPayment (targetId : string) (paid remaining : Z)
    (st : PaymentStatus) (d : DB.t) (row : RentalRow.t) :
  In row (DB.rentals (setRentalPayment targetId paid remaining st d)) ->
  RentalRow.id row = targetId ->
  RentalRow.amount_paid row = paid /\ RentalRow.remaining_amount row = remaining
  /\ RentalRow.payment_status row = Some st.
Proof.
  unfold setRentalPayment; cbn. intros Hin Hid.
  apply in_map_iff in Hin. destruct Hin as (r0 & Heq & _).
  destruct (String.eqb_spec (RentalRow.id r0) targetId) as [_ | Hne].
  - subst row; cbn; auto.
  - subst row; contradiction.
Qed.

(** An update of the rows with one id keeps the rows with another. *)
Lemma In_map_other {A : Type} (idOf : A -> string) (targetId : string)
    (g : A -> A) (l : list A) (row : A) :
  (forall x, idOf (g x) = idOf x) ->
  idOf row <> targetId ->
  In row (map (fun x => if String.eqb (idOf x) targetId then g x else x) l)
  <-> In row l.
Proof.
  intros Hg Hrow. split.
  - intros Hin. apply in_map_iff in Hin. destruct Hin as (x & Heq & Hin).
    destruct (String.eqb_spec (idOf x) targetId) as [Hx | Hx].
    + exfalso. apply Hrow. rewrite <- Heq, Hg. exact Hx.
    + now subst row.
  - intros Hin. apply in_map_iff. exists row. split; [|exact Hin].
    destruct (String.eqb_spec (idOf row) targetId); [contradiction | reflexivity].
Qed.

Lemma map_if_same {A B : Type} (test : A -> bool) (g : A -> A) (proj : A -> B)
    (l : list A) :
  (forall x, proj (g x) = proj x) ->
  map proj (map (fun x => if test x then g x else x) l) = map proj l.
Proof.
  intros Hg. rewrite map_map. apply map_ext.
  intros x. destruct (test x); [apply Hg | reflexivity].
Qed.

(** C3, as the code has it.  The prior amount of a payment is the one of
    the provider's in-memory record, and the loaders read a stored paid
    amount of 0 as the whole total; the remaining amount and the total are
    read as stored.  For a payment [a] on a transaction (resp. a rental)
    that the provider knows with [p] paid of a total [T], these being
    whole numbers that the code computes exactly, and the store answering
    the update: the call succeeds; every row of the store with that id
    comes out with [amountPaid = p + a],
    [remainingAmount = max 0 (T - (p + a))] and the status [completed]
    when that remainder is 0, else [partial] when [p + a > 0], else
    [pending], its other columns kept; every row with another id is left
    as it was and no row is added or removed.  On an overpayment the
    amount written exceeds [T] and the remainder is 0. *)
Theorem applyPayment_writes (targetId : string) (a : Z) (s : State) :
  (forall transaction,
      find (fun t => String.eqb (Transaction.id t) targetId) (transactions s)
        = Some transaction ->
      outage s (tick s) = false ->
      wholeAmounts (Transaction.amountPaid transaction)
                   (Transaction.totalAmount transaction) a ->
      exists s' paid remaining st,
        run (updateTransactionPayment targetId a) s = (Resolved tt, s')
        /\ ledgerEntry (Transaction.amountPaid transaction)
                       (Transaction.totalAmount transaction) a paid remaining st
        /\ (forall row,
              In row (DB.transactions (db s')) ->
              Transaction.id row = targetId ->
              Transaction.amountPaid row = paid
              /\ Transaction.remainingAmount row = remaining
              /\ Transaction.paymentStatus row = Some st)
        /\ DB.transactions (db s')
           = map (fun t => if String.eqb (Transaction.id t) targetId
                           then Transaction.withPayment t paid remaining (Some st)
                           else t)
                 (DB.transactions (db s))
        /\ (forall row,
              Transaction.id row <> targetId ->
              In row (DB.transactions (db s')) <-> In row (DB.transactions (db s)))
        /\ map Transaction.id (DB.transactions (db s'))
           = map Transaction.id (DB.transactions (db s))
        /\ map Transaction.totalAmount (DB.transactions (db s'))
           = map Transaction.totalAmount (DB.transactions (db s))
        /\ (Transaction.totalAmount transaction < Transaction.amountPaid transaction + a ->
            Transaction.totalAmount transaction < paid /\ remaining = 0))
  /\
  (forall theRental,
      find (fun r => String.eqb (Rental.id r) targetId) (rentals s) = Some theRental ->
      outage s (tick s) = false ->
      wholeAmounts (Rental.amountPaid theRental) (Rental.totalAmount theRental) a ->
      exists s' paid remaining st,
        run (updateRentalPayment targetId a) s = (Resolved tt, s')
        /\ ledgerEntry (Rental.amountPaid theRental)
                       (Rental.totalAmount theRental) a paid remaining st
        /\ (forall row,
              In row (DB.rentals (db s')) ->
              RentalRow.id row = targetId ->
              RentalRow.amount_paid row = paid
              /\ RentalRow.remaining_amount row = remaining
              /\ RentalRow.payment_status row = Some st)
        /\ DB.rentals (db s')
           = map (fun r => if String.eqb (RentalRow.id r) targetId
                           then RentalRow.withPayment r paid remaining (Some st)
                           else r)
                 (DB.rentals (db s))
        /\ (forall row,
              RentalRow.id row <> targetId ->
              In row (DB.rentals (db s')) <-> In row (DB.rentals (db s)))
        /\ map RentalRow.id (DB.rentals (db s')) = map RentalRow.id (DB.rentals (db s))
        /\ map RentalRow.total_amount (DB.rentals (db s'))
           = map RentalRow.total_amount (DB.rentals (db s))
        /\ (Rental.totalAmount theRental < Rental.amountPaid theRental + a ->
            Rental.totalAmount theRental < paid /\ remaining = 0))
  /\
  (forall item,
      Transaction.amountPaid (formatTransaction item)
      = (if Transaction.amountPaid item =? 0 then Transaction.totalAmount item
         else Transaction.amountPaid item)
      /\ Transaction.totalAmount (formatTransaction item) = Transaction.totalAmount item)
  /\
  (forall item,
      Rental.amountPaid (formatRental item)
      = (if RentalRow.amount_paid item =? 0 then RentalRow.total_amount item
         else RentalRow.amount_paid item)
      /\ Rental.totalAmount (formatRental item) = RentalRow.total_amount item).
Proof.
  split; [|split; [|split; intros item; split; reflexivity]].
  - intros transaction Hfind Ho _.
    destruct (updateTransactionPayment_written targetId a s transaction Hfind Ho)
      as (s' & Hrun & Hdb).
    exists s'. do 3 eexists.
    split; [exact Hrun|]. split; [apply paymentStatusOf_ledger|].
    rewrite Hdb. split; [|split; [reflexivity|]].
    { intros row Hin Hid. exact (In_setTransactionPayment _ _ _ _ _ _ Hin Hid). }
    unfold setTransactionPayment; cbn [DB.transactions DB.withTransactions].
    split; [|split; [|split]].
    + intros row Hrow. apply (In_map_other Transaction.id); [reflexivity | exact Hrow].
    + apply map_if_same. reflexivity.
    + apply map_if_same. reflexivity.
    + lia.
  - intros theRental Hfind Ho _.
    destruct (updateRentalPayment_written targetId a s theRental Hfind Ho)
      as (s' & Hrun & Hdb).
    exists s'. do 3 eexists.
    split; [exact Hrun|]. split; [apply paymentStatusOf_ledger|].
    rewrite Hdb. split; [|split; [reflexivity|]].
    { intros row Hin Hid. exact (In_setRentalPayment _ _ _ _ _ _ Hin Hid). }
    unfold setRentalPayment; cbn [DB.rentals DB.withRentals].
    split; [|split; [|split]].
    + intros row Hrow. apply (In_map_other RentalRow.id); [reflexivity | exact Hrow].
    + apply map_if_same. reflexivity.
    + apply map_if_same. reflexivity.
    + lia.
Qed.

Lemma applyPayment_writes_witness :
  exists s' paid remaining st,
    run (updateTransactionPayment "t1" 300) (ledger 500 200 noOutage) = (Resolved tt, s')
    /\ ledgerEntry 200 500 300 paid remaining st
    /\ (forall row,
          In row (DB.transactions (db s')) ->
          Transaction.id row = "t1"%string ->
          Transaction.amountPaid row = paid
          /\ Transaction.remainingAmount row = remaining
          /\ Transaction.paymentStatus row = Some st).
Proof.
  destruct (proj1 (applyPayment_writes "t1" 300 (ledger 500 200 noOutage))
                  (saleOf 1 500 200))
    as (s' & paid & remaining & st & Hrun & Hledger & Hrows & _).
  - reflexivity.
  - reflexivity.
  - vm_compute. repeat split.
  - exists s', paid, remaining, st. auto.
Defined.

(** C3 as stated fails on a row stored with nothing paid, as the rows that
    were there when the payment columns were added with default 0: the
    provider loads the row of total 500 as paid in full, and a payment of
    200 then writes 700 paid, 0 remaining and [completed], where the claim
    has 200, 300 and [partial].  It also fails on amounts with a
    fractional part: 200.20 paid on top of 100.10 for a total of 300.30
    comes out of the doubles a little under the total, with a remainder
    above 0 and the status [partial], where the claim has the total, 0
    and [completed]. *)
Lemma applyPayment_counterexample :
  (let stored := mkState [robe] [] [] []
                  (DB.mk [robe] [saleOf 1 500 0] [] [] []) 0 noOutage uuids 0 utc in
  let loaded := snd (run loadTransactions stored) in
  let call := run (updateTransactionPayment "t1" 200) loaded in
  map Transaction.totalAmount (DB.transactions (db stored)) = [500]
  /\ map Transaction.amountPaid (DB.transactions (db stored)) = [0]
  /\ map Transaction.id (DB.transactions (db stored)) = ["t1"%string]
  /\ fst (run loadTransactions stored) = Resolved tt
  /\ fst call = Resolved tt
  /\ map Transaction.amountPaid (DB.transactions (db (snd call))) = [700]
  /\ map Transaction.remainingAmount (DB.transactions (db (snd call))) = [0]
  /\ map Transaction.paymentStatus (DB.transactions (db (snd call))) = [Some completed]
  /\ 700 <> 0 + 200
  /\ 0 <> Z.max 0 (500 - (0 + 200)))
  /\
  (let written := Number.paymentOf 100.10 300.30 200.20 in
   snd written = partial
   /\ PrimFloat.ltb 0 (snd (fst written)) = true
   /\ PrimFloat.ltb (fst (fst written)) 300.30 = true
   /\ (10010 + 20020 = 30030)%Z
   /\ paymentStatusOf (Z.max 0 (30030 - (10010 + 20020))) (10010 + 20020) = completed).
Proof.
  split; [vm_compute; repeat split; discriminate|].
  vm_compute. repeat split.
Qed.

(** On whole amounts the doubles compute what [Z] does: the payments of
    the scenario, 200 and then 300 on a total of 500 and 50 more. *)
Example whole_amounts_on_numbers :
  Number.paymentOf 0 500 200 = (200%float, 300%float, partial)
  /\ Number.paymentOf 200 500 300 = (500%float, 0%float, completed)
  /\ Number.paymentOf 500 500 50 = (550%float, 0%float, completed).
Proof. vm_compute. repeat split. Qed.

(** With fractional amounts the order of two payments shows: 0.2 and then
    0.5 on 0.1 paid of 0.8 completes the payment, 0.7 at once does not. *)
Example fractional_amounts_on_numbers :
  let first := Number.paymentOf 0.1 0.8 0.2 in
  snd (Number.paymentOf (fst (fst first)) 0.8 0.5) = completed
  /\ snd (Number.paymentOf 0.1 0.8 (0.2 + 0.5)) = partial.
Proof. vm_compute. split; reflexivity. Qed.

(** ** The balance after a payment *)

(** C6, as the code has it.  After a payment that the store has taken,
    every row of the target whose total is the total the provider knew has
    a remainder that is not negative and
    [remainingAmount + amountPaid = max totalAmount amountPaid]: the sum is
    the total as long as no more than the total has been paid, and the
    amount paid itself once it exceeds the total. *)
Theorem balance_after_payment (targetId : string) (a : Z) (s : State) :
  (forall transaction,
      find (fun t => String.eqb (Transaction.id t) targetId) (transactions s)
        = Some transaction ->
      outage s (tick s) = false ->
      exists s',
        run (updateTransactionPayment targetId a) s = (Resolved tt, s')
        /\ forall row,
             In row (DB.transactions (db s')) ->
             Transaction.id row = targetId ->
             Transaction.totalAmount row = Transaction.totalAmount transaction ->
             0 <= Transaction.remainingAmount row
             /\ Transaction.remainingAmount row + Transaction.amountPaid row
                = Z.max (Transaction.totalAmount row) (Transaction.amountPaid row)
             /\ (Transaction.amountPaid row <= Transaction.totalAmount row ->
                 Transaction.remainingAmount row + Transaction.amountPaid row
                 = Transaction.totalAmount row))
  /\
  (forall theRental,
      find (fun r => String.eqb (Rental.id r) targetId) (rentals s) = Some theRental ->
      outage s (tick s) = false ->
      exists s',
        run (updateRentalPayment targetId a) s = (Resolved tt, s')
        /\ forall row,
             In row (DB.rentals (db s')) ->
             RentalRow.id row = targetId ->
             RentalRow.total_amount row = Rental.totalAmount theRental ->
             0 <= RentalRow.remaining_amount row
             /\ RentalRow.remaining_amount row + RentalRow.amount_paid row
                = Z.max (RentalRow.total_amount row) (RentalRow.amount_paid row)
             /\ (RentalRow.amount_paid row <= RentalRow.total_amount row ->
                 RentalRow.remaining_amount row + RentalRow.amount_paid row
                 = RentalRow.total_amount row)).
Proof.
  split.
  - intros transaction Hfind Ho.
    destruct (updateTransactionPayment_written targetId a s transaction Hfind Ho)
      as (s' & Hrun & Hdb).
    exists s'. split; [exact Hrun|].
    intros row Hin Hid Htotal. rewrite Hdb in Hin.
    destruct (In_setTransactionPayment _ _ _ _ _ _ Hin Hid) as (Hp & Hr & _).
    rewrite Hp, Hr, Htotal. lia.
  - intros theRental Hfind Ho.
    destruct (updateRentalPayment_written targetId a s theRental Hfind Ho)
      as (s' & Hrun & Hdb).
    exists s'. split; [exact Hrun|].
    intros row Hin Hid Htotal. rewrite Hdb in Hin.
    destruct (In_setRentalPayment _ _ _ _ _ _ Hin Hid) as (Hp & Hr & _).
    rewrite Hp, Hr, Htotal. lia.
Qed.

Lemma balance_after_payment_witness :
  exists s',
    run (updateRentalPayment "r1" 300) (ledger 1000 200 noOutage) = (Resolved tt, s')
    /\ forall row,
         In row (DB.rentals (db s')) ->
         RentalRow.id row = "r1"%string ->
         RentalRow.total_amount row = 1000 ->
         0 <= RentalRow.remaining_amount row
         /\ RentalRow.remaining_amount row + RentalRow.amount_paid row
            = Z.max (RentalRow.total_amount row) (RentalRow.amount_paid row)
         /\ (RentalRow.amount_paid row <= RentalRow.total_amount row ->
             RentalRow.remaining_amount row + RentalRow.amount_paid row
             = RentalRow.total_amount row).
Proof.
  apply (proj2 (balance_after_payment "r1" 300 (ledger 1000 200 noOutage))
               (formatRental (creditRow 1000 200))); reflexivity.
Defined.

(** C6 as stated fails on an overpayment: 50 more on a transaction of 500
    already paid in full leaves 550 paid and 0 remaining, and
    [0 + 550] is not [500]. *)
Lemma balance_overpayment_counterexample :
  let call := run (updateTransactionPayment "t1" 50) (ledger 500 500 noOutage) in
  fst call = Resolved tt
  /\ exists row,
       DB.transactions (db (snd call)) = [row]
       /\ Transaction.id row = "t1"%string
       /\ Transaction.totalAmount row = 500
       /\ Transaction.amountPaid row = 550
       /\ Transaction.remainingAmount row = 0
       /\ Transaction.remainingAmount row + Transaction.amountPaid row
          <> Transaction.totalAmount row.
Proof.
  split; [reflexivity|].
  eexists; split; [vm_compute; reflexivity|].
  cbn. repeat split; discriminate.
Qed.

(** ** Payments that are not positive *)

Lemma updateTransactionPayment_outcome (transactionId : string) (a : Z) (s : State) :
  fst (run (updateTransactionPayment transactionId a) s) = Resolved tt
  \/ fst (run (updateTransactionPayment transactionId a) s) = Rejected PostgrestError.
Proof.
  unfold updateTransactionPayment, getState. cbn [bind run].
  destruct (find _ (transactions s)) as [transaction|]; [|left; reflexivity].
  cbv zeta. rewrite run_bind, run_supabase.
  destruct (outage s (tick s)); cbn [fst snd update]; [right; reflexivity|].
  left. apply loadTransactions_spec.
Qed.

Lemma updateRentalPayment_outcome (rentalId : string) (a : Z) (s : State) :
  fst (run (updateRentalPayment rentalId a) s) = Resolved tt
  \/ fst (run (updateRentalPayment rentalId a) s) = Rejected PostgrestError.
Proof.
  unfold updateRentalPayment, getState. cbn [bind run].
  destruct (find _ (rentals s)) as [theRental|]; [|left; reflexivity].
  cbv zeta. rewrite run_bind, run_supabase.
  destruct (outage s (tick s)); cbn [fst snd update]; [right; reflexivity|].
  left. apply loadRentals_spec.
Qed.

(** C7, as the code has it.  The payment updates do not look at the sign
    of the amount.  For an amount [a <= 0] neither of them ever throws an
    error of its own (the only rejection is the store's), and when the
    target is known and the store answers the update, the call succeeds
    and the rows of the target hold [p + a] as amount paid. *)
Theorem nonpositive_payment_is_written (targetId : string) (a : Z) (s : State) :
  a <= 0 ->
  (forall message,
      fst (run (updateTransactionPayment targetId a) s) <> Rejected (Error message)
      /\ fst (run (updateRentalPayment targetId a) s) <> Rejected (Error message))
  /\ (forall transaction,
        find (fun t => String.eqb (Transaction.id t) targetId) (transactions s)
          = Some transaction ->
        outage s (tick s) = false ->
        exists s',
          run (updateTransactionPayment targetId a) s = (Resolved tt, s')
          /\ forall row,
               In row (DB.transactions (db s')) ->
               Transaction.id row = targetId ->
               Transaction.amountPaid row = Transaction.amountPaid transaction + a)
  /\ (forall theRental,
        find (fun r => String.eqb (Rental.id r) targetId) (rentals s) = Some theRental ->
        outage s (tick s) = false ->
        exists s',
          run (updateRentalPayment targetId a) s = (Resolved tt, s')
          /\ forall row,
               In row (DB.rentals (db s')) ->
               RentalRow.id row = targetId ->
               RentalRow.amount_paid row = Rental.amountPaid theRental + a).
Proof.
  intros _. split; [|split].
  - intros message. split.
    + destruct (updateTransactionPayment_outcome targetId a s) as [-> | ->]; discriminate.
    + destruct (updateRentalPayment_outcome targetId a s) as [-> | ->]; discriminate.
  - intros transaction Hfind Ho.
    destruct (updateTransactionPayment_written targetId a s transaction Hfind Ho)
      as (s' & Hrun & Hdb).
    exists s'. split; [exact Hrun|].
    intros row Hin Hid. rewrite Hdb in Hin.
    apply (In_setTransactionPayment _ _ _ _ _ _ Hin Hid).
  - intros theRental Hfind Ho.
    destruct (updateRentalPayment_written targetId a s theRental Hfind Ho)
      as (s' & Hrun & Hdb).
    exists s'. split; [exact Hrun|].
    intros row Hin Hid. rewrite Hdb in Hin.
    apply (In_setRentalPayment _ _ _ _ _ _ Hin Hid).
Qed.

Lemma nonpositive_payment_is_written_witness :
  exists s',
    run (updateTransactionPayment "t1" (-100)) (ledger 500 200 noOutage)
    = (Resolved tt, s')
    /\ forall row,
         In row (DB.transactions (db s')) ->
         Transaction.id row = "t1"%string ->
         Transaction.amountPaid row = 200 + -100.
Proof.
  apply (proj1 (proj2 (nonpositive_payment_is_written
                         "t1" (-100) (ledger 500 200 noOutage) ltac:(lia)))
               (saleOf 1 500 200)); reflexivity.
Defined.

(** C7 as stated fails: a payment of -100, and a payment of 0, are taken
    like any other.  The call succeeds and the store is written. *)
Lemma nonpositive_payment_counterexample :
  (let call := run (updateTransactionPayment "t1" (-100)) (ledger 500 200 noOutage) in
   fst call = Resolved tt
   /\ map Transaction.amountPaid (DB.transactions (db (snd call))) = [100]
   /\ map Transaction.remainingAmount (DB.transactions (db (snd call))) = [400])
  /\
  (let call := run (updateRentalPayment "r1" 0) (ledger 500 200 noOutage) in
   fst call = Resolved tt
   /\ map RentalRow.amount_paid (DB.rentals (db (snd call))) = [200]).
Proof.
  split; vm_compute; repeat split; try reflexivity; discriminate.
Qed.

(** ** Availability reads when the store fails *)

(** C4, as the code has it.  When the query fails,
    [checkProductAvailability] answers [false] (the range is treated as
    taken) and [getProductAvailability] answers with no available date, no
    reserved date and the flag [isAvailable] set; neither touches the
    store. *)
Theorem availability_when_query_fails
    (startOfMonth endOfMonth : Date -> Date) (toDateString : Date -> string)
    (productId : string) (startDate endDate month : Date) (s : State) :
  outage s (tick s) = true ->
  run (checkProductAvailability productId startDate endDate) s
  = (Resolved false, answered (db s) s)
  /\ run (getProductAvailability startOfMonth endOfMonth toDateString productId month) s
     = (Resolved (mkAvailability productId [] [] true), answered (db s) s).
Proof.
  intros Ho. split.
  - rewrite run_checkProductAvailability, Ho. reflexivity.
  - unfold getProductAvailability. cbv zeta.
    rewrite run_bind, run_supabase, Ho. reflexivity.
Qed.

Lemma availability_when_query_fails_witness :
  run (checkProductAvailability "p1" (parseISODate june10) (parseISODate june10))
      (shop (outageAt 0))
  = (Resolved false, answered (db (shop (outageAt 0))) (shop (outageAt 0)))
  /\ run (getProductAvailability firstOfJune2024 lastOfJune2024 juneDateString
                                 "p1" (parseISODate june10))
         (shop (outageAt 0))
     = (Resolved (mkAvailability "p1" [] [] true),
        answered (db (shop (outageAt 0))) (shop (outageAt 0))).
Proof.
  apply (availability_when_query_fails firstOfJune2024 lastOfJune2024 juneDateString
           "p1" (parseISODate june10) (parseISODate june10) (parseISODate june10)
           (shop (outageAt 0))).
  reflexivity.
Defined.

(** C4 as stated fails: with the store down and an empty calendar, the
    range check answers [false], not [true], and the month view lists no
    day at all as available. *)
Lemma availability_fail_open_counterexample :
  outage (shop (outageAt 0)) (tick (shop (outageAt 0))) = true
  /\ fst (run (checkProductAvailability "p1" (parseISODate june10) (parseISODate june10))
              (shop (outageAt 0)))
     = Resolved false
  /\ exists view,
       fst (run (getProductAvailability firstOfJune2024 lastOfJune2024 juneDateString
                                        "p1" (parseISODate june10))
                (shop (outageAt 0)))
       = Resolved view
       /\ availableDates view = [].
Proof.
  split; [reflexivity|]. split; [reflexivity|].
  eexists; split; [vm_compute; reflexivity | reflexivity].
Qed.

(** The month view when the store answers: June 2024 with June 10
    reserved has 29 available days and one reserved day. *)
Example june_with_one_reserved_day :
  exists view,
    fst (run (getProductAvailability firstOfJune2024 lastOfJune2024 juneDateString
                                     "p1" (parseISODate june10))
             booked)
    = Resolved view
    /\ List.length (availableDates view) = 29%nat
    /\ reservedDates view = [parseISODate june10]
    /\ isAvailable view = true.
Proof.
  eexists; split; [vm_compute; reflexivity|]. repeat split.
Qed.

(** ** Releasing the calendar of a rental *)

Lemma releaseCalendar_idempotent (rentalId : string) (d : DB.t) :
  DB.rental_calendar (releaseCalendar rentalId (releaseCalendar rentalId d))
  = DB.rental_calendar (releaseCalendar rentalId d).
Proof.
  unfold releaseCalendar; cbn. rewrite map_map. apply map_ext.
  intros e. destruct (String.eqb (CalendarRow.rental_id e) rentalId) eqn:He; cbn.
  - now rewrite He.
  - now rewrite He.
Qed.

Lemma releaseCalendar_released (rentalId : string) (d : DB.t) (e : CalendarRow.t) :
  In e (DB.rental_calendar (releaseCalendar rentalId d)) ->
  CalendarRow.rental_id e = rentalId ->
  CalendarRow.status e = available.
Proof.
  unfold releaseCalendar; cbn. intros Hin Hid.
  apply in_map_iff in Hin. destruct Hin as (e0 & Heq & _).
  destruct (String.eqb_spec (CalendarRow.rental_id e0) rentalId) as [_ | Hne].
  - subst e; reflexivity.
  - subst e; contradiction.
Qed.

(** The calendar after any call of [updateRentalStatus]: untouched, or,
    for [returned] only, released. *)
Lemma updateRentalStatus_calendar
    (rentalId : string) (st : RentalStatus) (returnedAt : option Date) (s : State) :
  DB.rental_calendar (db (snd (run (updateRentalStatus rentalId st returnedAt) s)))
  = DB.rental_calendar (db s)
  \/ (st = returned
      /\ outage s (tick s) = false /\ outage s (S (tick s)) = false
      /\ fst (run (updateRentalStatus rentalId st returnedAt) s) = Resolved tt
      /\ DB.rental_calendar (db (snd (run (updateRentalStatus rentalId st returnedAt) s)))
         = DB.rental_calendar (releaseCalendar rentalId (db s))).
Proof.
  unfold updateRentalStatus.
  rewrite run_bind, run_supabase.
  destruct (outage s (tick s)) eqn:Ho0; cbn [fst snd update run]; [left; reflexivity|].
  rewrite run_bind.
  assert (Hload : forall st0 : State,
             fst (run loadRentals st0) = Resolved tt
             /\ db (snd (run loadRentals st0)) = db st0).
  { intros st0. destruct (run_then_loader loadRentals st0 loadRentals_spec)
      as (s' & Hrun & Hdb). rewrite Hrun. auto. }
  destruct st; cbn [RentalStatus_eqb run].
  2: { rewrite run_bind, run_supabase.
       cbn [tick answered outage db].
       destruct (outage s (S (tick s))) eqn:Ho1; cbn [fst snd update run].
       - left. now rewrite (proj2 (Hload _)).
       - right. rewrite (proj2 (Hload _)), (proj1 (Hload _)). auto. }
  all: left; now rewrite (proj2 (Hload _)).
Qed.

(** Once the store has taken the status, the call succeeds; the calendar
    is released for [returned] if the store takes that second update. *)
Lemma updateRentalStatus_answered
    (rentalId : string) (st : RentalStatus) (returnedAt : option Date) (s : State) :
  outage s (tick s) = false ->
  fst (run (updateRentalStatus rentalId st returnedAt) s) = Resolved tt
  /\ db (snd (run (updateRentalStatus rentalId st returnedAt) s))
     = if RentalStatus_eqb st returned && negb (outage s (S (tick s)))
       then releaseCalendar rentalId (setRentalStatus rentalId st returnedAt (db s))
       else setRentalStatus rentalId st returnedAt (db s).
Proof.
  intros Ho0. unfold updateRentalStatus.
  rewrite run_bind, run_supabase, Ho0. cbn [fst snd update run].
  assert (Hload : forall st0 : State,
             fst (run loadRentals st0) = Resolved tt
             /\ db (snd (run loadRentals st0)) = db st0).
  { intros st0. destruct (run_then_loader loadRentals st0 loadRentals_spec)
      as (s' & Hrun & Hdb). rewrite Hrun. auto. }
  rewrite run_bind.
  destruct (RentalStatus_eqb st returned); cbn [andb run].
  - rewrite run_bind, run_supabase. cbn [tick answered outage db].
    destruct (outage s (S (tick s))); cbn [fst snd update run negb];
      split; apply Hload.
  - split; apply Hload.
Qed.

(** C5, as the code has it.  A transition to [returned] that the store
    takes (the status update and the calendar update are both answered)
    succeeds and sets every calendar row of that rental to [available],
    the other rows staying as they were; after that, one more transition
    to [returned] leaves the calendar as it is, whatever the store does. *)
Theorem release_on_return
    (rentalId : string) (returnedAt : option Date) (s : State) :
  outage s (tick s) = false ->
  outage s (S (tick s)) = false ->
  exists s',
    run (updateRentalStatus rentalId returned returnedAt) s = (Resolved tt, s')
    /\ DB.rental_calendar (db s')
       = map (fun e => if String.eqb (CalendarRow.rental_id e) rentalId
                       then CalendarRow.withStatus e available else e)
             (DB.rental_calendar (db s))
    /\ (forall e, In e (DB.rental_calendar (db s')) ->
                  CalendarRow.rental_id e = rentalId ->
                  CalendarRow.status e = available)
    /\ (forall again,
          DB.rental_calendar
            (db (snd (run (updateRentalStatus rentalId returned again) s')))
          = DB.rental_calendar (db s')).
Proof.
  intros Ho0 Ho1.
  destruct (updateRentalStatus_answered rentalId returned returnedAt s Ho0)
    as (Hres & Hdb).
  rewrite Ho1 in Hdb. cbn [RentalStatus_eqb andb negb] in Hdb.
  destruct (run (updateRentalStatus rentalId returned returnedAt) s) as [o s'].
  cbn [fst snd] in *. subst o.
  exists s'. split; [reflexivity|].
  assert (Hcal : DB.rental_calendar (db s')
                 = DB.rental_calendar (releaseCalendar rentalId (db s))).
  { rewrite Hdb. reflexivity. }
  split; [exact Hcal|]. split.
  - intros e Hin Hid. rewrite Hcal in Hin.
    now apply (releaseCalendar_released rentalId (db s)).
  - intros again.
    destruct (updateRentalStatus_calendar rentalId returned again s')
      as [Hsame | (_ & _ & _ & _ & Hrel)]; [exact Hsame|].
    rewrite Hrel. unfold releaseCalendar at 1. cbn [DB.rental_calendar DB.withCalendar].
    rewrite Hcal. apply releaseCalendar_idempotent.
Qed.

Lemma release_on_return_witness :
  exists s',
    run (updateRentalStatus "r1" returned (Some (parseISODate (june10 + 1)))) rented
    = (Resolved tt, s')
    /\ DB.rental_calendar (db s')
       = map (fun e => if String.eqb (CalendarRow.rental_id e) "r1"
                       then CalendarRow.withStatus e available else e)
             (DB.rental_calendar (db rented))
    /\ (forall e, In e (DB.rental_calendar (db s')) ->
                  CalendarRow.rental_id e = "r1"%string ->
                  CalendarRow.status e = available)
    /\ (forall again,
          DB.rental_calendar
            (db (snd (run (updateRentalStatus "r1" returned again) s')))
          = DB.rental_calendar (db s')).
Proof.
  apply (release_on_return "r1" (Some (parseISODate (june10 + 1))) rented);
    reflexivity.
Defined.

(** C5 as stated fails for [cancelled]: the rental is stored as cancelled
    and its calendar row is still reserved. *)
Lemma cancel_keeps_calendar_counterexample :
  let call := run (updateRentalStatus "r1" cancelled None) rented in
  fst call = Resolved tt
  /\ map RentalRow.status (DB.rentals (db (snd call))) = [cancelled]
  /\ DB.rental_calendar (db (snd call)) = [reservedJune10]
  /\ CalendarRow.rental_id reservedJune10 = "r1"%string
  /\ CalendarRow.status reservedJune10 = reserved.
Proof.
  vm_compute. repeat split.
Qed.

(** ** Stock *)

Lemma updateStock_written
    (productId : string) (quantity : Z) (s : State) (product : Product.t) :
  find (fun p => String.eqb (Product.id p) productId) (products s) = Some product ->
  outage s (tick s) = false ->
  exists s',
    run (updateStock productId quantity) s = (Resolved tt, s')
    /\ db s' = setStockOf productId (Z.max 0 (Product.stock product + quantity)) (db s)
    /\ outage s' = outage s /\ uuid s' = uuid s /\ clock s' = clock s
    /\ tick s' = S (S (tick s)).
Proof.
  intros Hfind Ho. unfold updateStock, getState.
  cbn [bind run]. rewrite Hfind. cbv zeta.
  rewrite run_bind, run_supabase, Ho. cbn [fst snd update].
  match goal with
  | |- context [run loadProducts ?st] =>
      destruct (loadProducts_spec st) as (Hres & [Hdb Hout Hid Hclock] & Htick);
      destruct (run loadProducts st) as [o s']
  end.
  cbn [fst snd] in *. subst o.
  exists s'. repeat split; assumption.
Qed.

(** What a stock update leaves in the products: the rows of the product
    carry the new stock, the other rows are as they were, and no row is
    added or removed. *)
Lemma stock_rows (productId : string) (newStock : Z) (before after : list Product.t) :
  after = map (fun p => if String.eqb (Product.id p) productId
                        then Product.withStock p newStock else p) before ->
  (forall row, In row after -> Product.id row = productId ->
               Product.stock row = newStock)
  /\ (forall row, Product.id row <> productId -> In row after <-> In row before)
  /\ map Product.id after = map Product.id before.
Proof.
  intros ->. split; [|split].
  - intros row Hin Hid. apply in_map_iff in Hin. destruct Hin as (p & Hp & _).
    destruct (String.eqb_spec (Product.id p) productId) as [_ | Hne].
    + subst row. reflexivity.
    + subst row. contradiction.
  - intros row Hrow. apply (In_map_other Product.id); [reflexivity | exact Hrow].
  - apply map_if_same. reflexivity.
Qed.

(** C10.  [updateStock] on a product that the provider knows with stock
    [c], the store answering the update: the call succeeds and the stock
    written for that product is [max 0 (c + delta)], never negative; a
    decrement larger than the stock writes 0 and does not fail.  Every row
    of the product in the store then has that stock, every other row is
    as it was and no row is added or removed.  The same holds for the
    decrement made by [addTransaction] for a sale, where [delta] is minus
    the quantity sold. *)
Theorem stock_is_floored_at_zero (productId : string) (s : State) (product : Product.t) :
  find (fun p => String.eqb (Product.id p) productId) (products s) = Some product ->
  (forall delta,
      outage s (tick s) = false ->
      exists s' newStock,
        run (updateStock productId delta) s = (Resolved tt, s')
        /\ newStock = Z.max 0 (Product.stock product + delta)
        /\ 0 <= newStock
        /\ (Product.stock product + delta < 0 -> newStock = 0)
        /\ DB.products (db s')
           = map (fun p => if String.eqb (Product.id p) productId
                           then Product.withStock p newStock else p)
                 (DB.products (db s))
        /\ (forall row, In row (DB.products (db s')) -> Product.id row = productId ->
                        Product.stock row = newStock)
        /\ (forall row, Product.id row <> productId ->
                        In row (DB.products (db s')) <-> In row (DB.products (db s)))
        /\ map Product.id (DB.products (db s')) = map Product.id (DB.products (db s)))
  /\
  (forall transactionData,
      Transaction.type transactionData = sale ->
      Transaction.productId transactionData = productId ->
      outage s (S (tick s)) = false ->
      outage s (S (S (tick s))) = false ->
      exists s' newId newStock,
        run (addTransaction transactionData) s = (Resolved newId, s')
        /\ newStock = Z.max 0 (Product.stock product - Transaction.quantity transactionData)
        /\ 0 <= newStock
        /\ (Product.stock product - Transaction.quantity transactionData < 0 ->
            newStock = 0)
        /\ DB.products (db s')
           = map (fun p => if String.eqb (Product.id p) productId
                           then Product.withStock p newStock else p)
                 (DB.products (db s))
        /\ (forall row, In row (DB.products (db s')) -> Product.id row = productId ->
                        Product.stock row = newStock)
        /\ (forall row, Product.id row <> productId ->
                        In row (DB.products (db s')) <-> In row (DB.products (db s)))
        /\ map Product.id (DB.products (db s')) = map Product.id (DB.products (db s))).
Proof.
  intros Hfind. split.
  - intros delta Ho.
    destruct (updateStock_written productId delta s product Hfind Ho)
      as (s' & Hrun & Hdb & _).
    exists s', (Z.max 0 (Product.stock product + delta)).
    split; [exact Hrun|]. split; [reflexivity|]. split; [lia|]. split; [lia|].
    assert (Hprod : DB.products (db s')
                    = map (fun p => if String.eqb (Product.id p) productId
                                    then Product.withStock p
                                           (Z.max 0 (Product.stock product + delta))
                                    else p)
                          (DB.products (db s)))
      by (rewrite Hdb; reflexivity).
    split; [exact Hprod | apply stock_rows; exact Hprod].
  - intros transactionData Htype Hpid Ho1 Ho2.
    unfold addTransaction.
    rewrite run_bind, run_supabaseInsert.
    assert (Hstep : forall s1 : State,
               products s1 = products s -> outage s1 = outage s ->
               tick s1 = S (tick s) ->
               DB.products (db s1) = DB.products (db s) ->
               exists s' newId,
                 run (r <- supabaseInsert (fun newId now d =>
                        let row := transactionRow transactionData newId now in
                        (row, DB.withTransactions d (DB.transactions d ++ [row]))) ;;
                      match r with
                      | None => Throw PostgrestError
                      | Some data =>
                          (if TransactionType_eqb (Transaction.type transactionData) sale
                           then updateStock (Transaction.productId transactionData)
                                            (- Transaction.quantity transactionData)
                           else Return tt) ;;
                          loadTransactions ;; loadCustomers ;;
                          Return (Transaction.id data)
                      end) s1 = (Resolved newId, s')
                 /\ DB.products (db s')
                    = map (fun p => if String.eqb (Product.id p) productId
                                    then Product.withStock p
                                           (Z.max 0 (Product.stock product
                                                     - Transaction.quantity transactionData))
                                    else p)
                          (DB.products (db s))).
    { intros s1 Hp1 Hout1 Htick1 Hdb1.
      rewrite run_bind, run_supabaseInsert, Hout1, Htick1, Ho1.
      cbn [fst snd]. rewrite Htype, Hpid. cbn [TransactionType_eqb].
      rewrite run_bind.
      match goal with
      | |- context [run (updateStock productId ?q) ?st] =>
          destruct (updateStock_written productId q st product) as (s2 & Hrun2 & Hdb2 & _)
      end.
      { cbn. rewrite Hp1. exact Hfind. }
      { cbn. rewrite Hout1, Htick1. exact Ho2. }
      rewrite Hrun2.
      destruct (run_loader loadTransactions
                  (loadCustomers ;; Return (uuid s1 (S (tick s))))
                  s2 loadTransactions_spec) as (s3 & Hrun3 & [Hdb3 _ _ _] & _).
      cbn [Transaction.id transactionRow Transaction.withIdentity].
      rewrite Hrun3.
      destruct (run_loader loadCustomers (Return (uuid s1 (S (tick s))))
                  s3 loadCustomers_spec) as (s4 & Hrun4 & [Hdb4 _ _ _] & _).
      rewrite Hrun4. cbn [run].
      exists s4, (uuid s1 (S (tick s))). split; [reflexivity|].
      rewrite Hdb4, Hdb3, Hdb2. cbn. rewrite Hdb1. reflexivity. }
    destruct (outage s (tick s)); cbn [fst snd].
    + destruct (Hstep (answered (db s) s)) as (s' & newId & Hrun & Hprod);
        try reflexivity.
      exists s', newId, (Z.max 0 (Product.stock product - Transaction.quantity transactionData)).
      split; [exact Hrun|]. split; [reflexivity|]. split; [lia|]. split; [lia|].
      split; [exact Hprod | apply stock_rows; exact Hprod].
    + match goal with
      | |- context [answered ?d s] =>
          destruct (Hstep (answered d s)) as (s' & newId & Hrun & Hprod)
      end; try reflexivity.
      { cbn. unfold create_customer_if_not_exists.
        destruct (find _ (DB.customers (db s))); reflexivity. }
      exists s', newId, (Z.max 0 (Product.stock product - Transaction.quantity transactionData)).
      split; [exact Hrun|]. split; [reflexivity|]. split; [lia|]. split; [lia|].
      split; [exact Hprod | apply stock_rows; exact Hprod].
Qed.

Lemma stock_is_floored_at_zero_witness :
  (exists s' newStock,
      run (updateStock "p1" (-5)) (shop noOutage) = (Resolved tt, s')
      /\ newStock = Z.max 0 (Product.stock robe + -5)
      /\ 0 <= newStock
      /\ (Product.stock robe + -5 < 0 -> newStock = 0)
      /\ forall row, In row (DB.products (db s')) -> Product.id row = "p1"%string ->
                     Product.stock row = newStock)
  /\
  (exists s' newId newStock,
      run (addTransaction (saleOf 5 45000 45000)) (shop noOutage) = (Resolved newId, s')
      /\ newStock = Z.max 0 (Product.stock robe - 5)
      /\ 0 <= newStock
      /\ forall row, In row (DB.products (db s')) -> Product.id row = "p1"%string ->
                     Product.stock row = newStock).
Proof.
  pose proof (stock_is_floored_at_zero "p1" (shop noOutage) robe eq_refl) as [Hupd Hsale].
  split.
  - destruct (Hupd (-5) eq_refl)
      as (s' & newStock & Hrun & Hnew & Hpos & Hzero & _ & Hrows & _).
    exists s', newStock. auto.
  - destruct (Hsale (saleOf 5 45000 45000) eq_refl eq_refl eq_refl eq_refl)
      as (s' & newId & newStock & Hrun & Hnew & Hpos & _ & _ & Hrows & _).
    exists s', newId, newStock. auto.
Defined.

(** A sale of 5 robes out of a stock of 3 goes through and leaves 0. *)
Example oversold_stock_is_zero :
  let call := run (addTransaction (saleOf 5 45000 45000)) (shop noOutage) in
  succeeded (fst call) = true
  /\ map Product.stock (DB.products (db (snd call))) = [0].
Proof. vm_compute. split; reflexivity. Qed.

(** ** Overdue rentals *)

Lemma isOverdue_iff (now : Date) (r : RentalRow.t) :
  isOverdue now r = true
  <-> RentalRow.status r = active
      /\ parseISODate (RentalRow.rental_end_date r) < now.
Proof.
  unfold isOverdue. rewrite <- Z.ltb_lt.
  destruct (RentalRow.status r); cbn; intuition congruence.
Qed.

Lemma In_setRentalStatus (rentalId : string) (st : RentalStatus)
    (returnedAt : option Date) (d : DB.t) (row : RentalRow.t) :
  In row (DB.rentals (setRentalStatus rentalId st returnedAt d)) ->
  RentalRow.id row = rentalId ->
  RentalRow.status row = st.
Proof.
  unfold setRentalStatus; cbn. intros Hin Hid.
  apply in_map_iff in Hin. destruct Hin as (r0 & Heq & _).
  destruct (String.eqb_spec (RentalRow.id r0) rentalId) as [_ | Hne].
  - subst row; reflexivity.
  - subst row; contradiction.
Qed.

Lemma getStats_reads (endOfDay : Date -> Date) (dateFrom dateTo : option Date) (s : State) :
  exists stats s',
    run (getStats endOfDay dateFrom dateTo) s = (Resolved stats, s')
    /\ db s' = db s
    /\ overdueRentals stats
       = List.length
           (filter (isOverdue (clock s))
                   (if outage s (S (tick s)) then []
                    else filter (fun r => createdWithin endOfDay dateFrom dateTo
                                            (RentalRow.created_at r))
                                (DB.rentals (db s)))).
Proof.
  unfold getStats, getState.
  rewrite run_bind, run_supabase.
  destruct (outage s (tick s)); cbn [fst snd select];
    rewrite run_bind, run_supabase; cbn [tick answered outage db];
    destruct (outage s (S (tick s))); cbn [fst snd select bind run orElse];
    do 2 eexists; (split; [reflexivity|]); split; reflexivity.
Qed.

(** C8, as the code has it.  [getStats] counts a rental as overdue exactly
    when its stored status is [active] and its end date (midnight UTC of
    the stored day) is before the clock reading; the count is computed
    from the rows read, their status, their end date and the clock, and
    [getStats] writes nothing to the store.  [updateRentalStatus], on the
    other hand, stores the status it is given, whichever of the four it
    is: nothing in it keeps [overdue] out of the store. *)
Theorem overdue_is_derived_on_read (endOfDay : Date -> Date) :
  (forall now r,
      isOverdue now r = true
      <-> RentalRow.status r = active
          /\ parseISODate (RentalRow.rental_end_date r) < now)
  /\ (forall dateFrom dateTo s,
        exists stats s',
          run (getStats endOfDay dateFrom dateTo) s = (Resolved stats, s')
          /\ db s' = db s
          /\ overdueRentals stats
             = List.length
                 (filter (isOverdue (clock s))
                         (if outage s (S (tick s)) then []
                          else filter (fun r => createdWithin endOfDay dateFrom dateTo
                                                  (RentalRow.created_at r))
                                      (DB.rentals (db s)))))
  /\ (forall rentalId st returnedAt s,
        outage s (tick s) = false ->
        fst (run (updateRentalStatus rentalId st returnedAt) s) = Resolved tt
        /\ forall row,
             In row (DB.rentals
                       (db (snd (run (updateRentalStatus rentalId st returnedAt) s)))) ->
             RentalRow.id row = rentalId ->
             RentalRow.status row = st).
Proof.
  split; [exact isOverdue_iff|]. split; [apply getStats_reads|].
  intros rentalId st returnedAt s Ho.
  destruct (updateRentalStatus_answered rentalId st returnedAt s Ho) as (Hres & Hdb).
  split; [exact Hres|].
  intros row Hin Hid. rewrite Hdb in Hin.
  apply (In_setRentalStatus rentalId st returnedAt (db s)); [|exact Hid].
  destruct (RentalStatus_eqb st returned && negb (outage s (S (tick s)))); exact Hin.
Qed.

Lemma overdue_is_derived_on_read_witness :
  fst (run (updateRentalStatus "r1" returned None) rented) = Resolved tt
  /\ forall row,
       In row (DB.rentals (db (snd (run (updateRentalStatus "r1" returned None) rented)))) ->
       RentalRow.id row = "r1"%string ->
       RentalRow.status row = returned.
Proof.
  apply (proj2 (proj2 (overdue_is_derived_on_read utcEndOfDay))
               "r1"%string returned None rented).
  reflexivity.
Defined.

(** C8 as stated fails in its last part: asked to, [updateRentalStatus]
    commits [overdue] to the store; such a rental is then no longer
    counted as overdue, its status not being [active]. *)
Lemma overdue_can_be_stored_counterexample :
  let call := run (updateRentalStatus "r1" overdue None) rented in
  fst call = Resolved tt
  /\ map RentalRow.status (DB.rentals (db (snd call))) = [overdue]
  /\ map (isOverdue (parseISODate (june10 + 7))) (DB.rentals (db rented)) = [true]
  /\ map (isOverdue (parseISODate (june10 + 7))) (DB.rentals (db (snd call))) = [false].
Proof.
  vm_compute. repeat split.
Qed.

(** The count at work: a week after its end the active rental of June 10
    is overdue, on its last day it is not. *)
Example overdue_a_week_later :
  let late := mkState [robe] [] [] [] (db rented) 0 noOutage uuids
                      (parseISODate (june10 + 7)) utc in
  (exists stats, fst (run (getStats utcEndOfDay None None) late) = Resolved stats
                 /\ overdueRentals stats = 1%nat /\ activeRentals stats = 1%nat)
  /\ (exists stats, fst (run (getStats utcEndOfDay None None) rented) = Resolved stats
                    /\ overdueRentals stats = 0%nat).
Proof.
  split; eexists; (split; [vm_compute; reflexivity|]); repeat split.
Qed.

(** ** Two rentals of the same product on overlapping days *)

Lemma entriesOn_In (day : IsoDate) (l : list CalendarRow.t) :
  entriesOn day l = 1%nat ->
  exists e, In e l /\ CalendarRow.reserved_date e = day.
Proof.
  unfold entriesOn. intros H.
  destruct (filter _ l) as [|e rest] eqn:Hf; [discriminate|].
  assert (Hin : In e (filter (fun e => CalendarRow.reserved_date e =? day) l))
    by (rewrite Hf; left; reflexivity).
  apply filter_In in Hin. destruct Hin as [Hin Hd].
  exists e. split; [exact Hin | now apply Z.eqb_eq].
Qed.

(** C9, as the code has it.  Nothing makes the check and the inserts of
    [addRental] one unit; what holds is the sequential case, in a time
    zone of fixed offset (no daylight-saving change).  Two calls for the
    same product, run one after the other, whose ranges share a UTC day:
    if the calendar insert of the first is answered by the store and the
    first range is well formed (start not after end, end not earlier in
    its day than the start), at most one of them succeeds, and when the
    first succeeds the second throws the unavailability error and leaves
    the store as the first left it. *)
Theorem sequential_rentals_exclude
    (first second : Rental.t) (s : State) (day : IsoDate) :
  fixedOffset (timeZone s) ->
  Rental.productId second = Rental.productId first ->
  Rental.rentalStartDate first <= Rental.rentalEndDate first ->
  timeOfDay (Rental.rentalStartDate first) <= timeOfDay (Rental.rentalEndDate first) ->
  toISODate (Rental.rentalStartDate first) <= day
    <= toISODate (Rental.rentalEndDate first) ->
  toISODate (Rental.rentalStartDate second) <= day
    <= toISODate (Rental.rentalEndDate second) ->
  outage s (S (S (tick s))) = false ->
  let result := interleave [] (addRental first) (addRental second) s in
  succeeded (fst (fst result)) && succeeded (snd (fst result)) = false
  /\ (succeeded (fst (fst result)) = true ->
      snd (fst result) = Rejected (Error unavailableMessage)
      /\ db (snd result) = db (snd (run (addRental first) s))).
Proof.
  intros Htz Hpid Hle Htod HdayF HdayS Ho2. cbn [interleave].
  destruct (run (addRental first) s) as [o1 s1] eqn:Hrun1.
  destruct o1 as [newId | e1].
  - pose proof (addRental_resolved first s s1 newId Hrun1)
      as (_ & _ & _ & _ & Hcal).
    rewrite Ho2 in Hcal.
    destruct (entriesOn_In day
                (rentalDates (timeZone s) (Rental.productId first) newId
                             (Rental.rentalStartDate first)
                             (Rental.rentalEndDate first)))
      as (e & Hin & Hdate).
    { rewrite entriesOn_rentalDates by assumption.
      destruct HdayF as [H1 H2]. apply Z.leb_le in H1, H2. now rewrite H1, H2. }
    assert (Hrow : CalendarRow.product_id e = Rental.productId first
                   /\ CalendarRow.rental_id e = newId
                   /\ CalendarRow.status e = reserved).
    { pose proof (pushDates_rows (timeZone s) (Rental.productId first) newId
                    (Rental.rentalEndDate first)
                    (turnsUntil (Rental.rentalStartDate first)
                                (Rental.rentalEndDate first))
                    (Rental.rentalStartDate first) [] (Forall_nil _)) as Hall.
      rewrite Forall_forall in Hall. apply Hall. exact Hin. }
    rewrite (addRental_rejects_reserved second s1 e).
    + cbn. auto.
    + rewrite Hcal. apply in_or_app. right. exact Hin.
    + apply reservedWithin_iff. rewrite Hpid, Hdate. intuition.
  - destruct (run (addRental second) s1) as [o2 s2]. cbn.
    split; [reflexivity | discriminate].
Qed.

Lemma sequential_rentals_exclude_witness :
  let result :=
    interleave [] (addRental (rentalOf (parseISODate june10) (parseISODate june10)))
                  (addRental (rentalOf (parseISODate june10) (parseISODate (june10 + 1))))
                  (shop noOutage) in
  succeeded (fst (fst result)) && succeeded (snd (fst result)) = false
  /\ (succeeded (fst (fst result)) = true ->
      snd (fst result) = Rejected (Error unavailableMessage)
      /\ db (snd result)
         = db (snd (run (addRental (rentalOf (parseISODate june10) (parseISODate june10)))
                        (shop noOutage)))).
Proof.
  apply (sequential_rentals_exclude
           (rentalOf (parseISODate june10) (parseISODate june10))
           (rentalOf (parseISODate june10) (parseISODate (june10 + 1)))
           (shop noOutage) june10).
  - exact fixedOffset_utc.
  - reflexivity.
  - vm_compute. discriminate.
  - vm_compute. discriminate.
  - vm_compute. split; discriminate.
  - vm_compute. split; discriminate.
  - reflexivity.
Defined.

(** C9 as stated fails: when the second call makes its availability check
    before the first has inserted anything, both calls pass the check,
    both succeed, and June 10 is reserved twice for the same product. *)
Lemma concurrent_rentals_counterexample :
  let first := rentalOf (parseISODate june10) (parseISODate june10) in
  let second := rentalOf (parseISODate june10) (parseISODate (june10 + 1)) in
  let result := interleave [true; false] (addRental first) (addRental second)
                           (shop noOutage) in
  Rental.productId first = Rental.productId second
  /\ succeeded (fst (fst result)) = true
  /\ succeeded (snd (fst result)) = true
  /\ List.length (DB.rentals (db (snd result))) = 2%nat
  /\ List.length (filter (reservedWithin "p1" june10 june10)
                         (DB.rental_calendar (db (snd result)))) = 2%nat.
Proof.
  vm_compute. repeat split.
Qed.

(** * Further properties of the provider *)

(** ** Calls that change nothing *)

(** X1.  [updateStock] for a product that the provider does not hold in
    memory returns at once: no round trip, nothing changed, no error.
    When the product is known and the store refuses the update, the call
    throws the store's error and neither the store nor the in-memory
    products have changed. *)
Theorem updateStock_without_effect (productId : string) (quantity : Z) (s : State) :
  (find (fun p => String.eqb (Product.id p) productId) (products s) = None ->
   run (updateStock productId quantity) s = (Resolved tt, s))
  /\ (forall product,
        find (fun p => String.eqb (Product.id p) productId) (products s)
          = Some product ->
        outage s (tick s) = true ->
        exists s',
          run (updateStock productId quantity) s = (Rejected PostgrestError, s')
          /\ db s' = db s
          /\ products s' = products s).
Proof.
  split.
  - intros Hnone. unfold updateStock, getState. cbn [bind run].
    rewrite Hnone. reflexivity.
  - intros product Hfind Ho. unfold updateStock, getState. cbn [bind run].
    rewrite Hfind. cbv zeta. rewrite run_bind, run_supabase, Ho.
    cbn [run]. eexists; split; [reflexivity|]. split; reflexivity.
Qed.

Lemma updateStock_without_effect_witness :
  run (updateStock "p9" (-1)) (shop noOutage) = (Resolved tt, shop noOutage)
  /\ exists s',
       run (updateStock "p1" (-1)) (shop (outageAt 0)) = (Rejected PostgrestError, s')
       /\ db s' = db (shop (outageAt 0))
       /\ products s' = products (shop (outageAt 0)).
Proof.
  split.
  - apply (proj1 (updateStock_without_effect "p9" (-1) (shop noOutage))).
    reflexivity.
  - apply (proj2 (updateStock_without_effect "p1" (-1) (shop (outageAt 0))) robe);
      reflexivity.
Defined.

(** X2.  A payment on a transaction (resp. a rental) that the provider
    does not hold in memory is dropped in silence: the call succeeds
    without a round trip and nothing is written.  When the record is
    known and the store refuses the update, the call throws the store's
    error and the store is unchanged. *)
Theorem payment_without_effect (targetId : string) (a : Z) (s : State) :
  (find (fun t => String.eqb (Transaction.id t) targetId) (transactions s) = None ->
   run (updateTransactionPayment targetId a) s = (Resolved tt, s))
  /\ (find (fun r => String.eqb (Rental.id r) targetId) (rentals s) = None ->
      run (updateRentalPayment targetId a) s = (Resolved tt, s))
  /\ (outage s (tick s) = true ->
      (forall transaction,
          find (fun t => String.eqb (Transaction.id t) targetId) (transactions s)
            = Some transaction ->
          exists s',
            run (updateTransactionPayment targetId a) s = (Rejected PostgrestError, s')
            /\ db s' = db s)
      /\ (forall theRental,
            find (fun r => String.eqb (Rental.id r) targetId) (rentals s)
              = Some theRental ->
            exists s',
              run (updateRentalPayment targetId a) s = (Rejected PostgrestError, s')
              /\ db s' = db s)).
Proof.
  split; [|split].
  - intros Hnone. unfold updateTransactionPayment, getState. cbn [bind run].
    rewrite Hnone. reflexivity.
  - intros Hnone. unfold updateRentalPayment, getState. cbn [bind run].
    rewrite Hnone. reflexivity.
  - intros Ho. split.
    + intros transaction Hfind. unfold updateTransactionPayment, getState.
      cbn [bind run]. rewrite Hfind. cbv zeta.
      rewrite run_bind, run_supabase, Ho. cbn [run].
      eexists; split; reflexivity.
    + intros theRental Hfind. unfold updateRentalPayment, getState.
      cbn [bind run]. rewrite Hfind. cbv zeta.
      rewrite run_bind, run_supabase, Ho. cbn [run].
      eexists; split; reflexivity.
Qed.

Lemma payment_without_effect_witness :
  run (updateTransactionPayment "t9" 100) (ledger 500 200 noOutage)
  = (Resolved tt, ledger 500 200 noOutage)
  /\ exists s',
       run (updateRentalPayment "r1" 100) (ledger 500 200 (outageAt 0))
       = (Rejected PostgrestError, s')
       /\ db s' = db (ledger 500 200 (outageAt 0)).
Proof.
  split.
  - apply (proj1 (payment_without_effect "t9" 100 (ledger 500 200 noOutage))).
    reflexivity.
  - apply (proj2 (proj2 (proj2 (payment_without_effect
                                  "r1" 100 (ledger 500 200 (outageAt 0)))) eq_refl)
                 (formatRental (creditRow 500 200))).
    reflexivity.
Defined.

(** ** Failures and odd ranges of [addRental] *)

(** Once the rental row is in, nothing makes [addRental] throw. *)
Lemma addRental_after_insert (dates : list CalendarRow.t) (newId : string) (st : State) :
  exists s',
    run ((if Nat.ltb 0 (List.length dates)
          then _ <- supabase (update (fun d =>
                      DB.withCalendar d (DB.rental_calendar d ++ dates))) ;;
               Return tt
          else Return tt) ;;
         loadRentals ;; Return newId) st
    = (Resolved newId, s').
Proof.
  rewrite run_bind.
  destruct (Nat.ltb 0 (List.length dates)).
  - rewrite run_bind, run_supabase.
    destruct (outage st (tick st)); cbn [run fst snd update];
      match goal with
      | |- context [run (loadRentals ;; ?k) ?st0] =>
          destruct (run_loader loadRentals k st0 loadRentals_spec) as (s3 & Hrun & _)
      end; rewrite Hrun; cbn [run]; eauto.
  - cbn [run].
    destruct (run_loader loadRentals (Return newId) st loadRentals_spec)
      as (s3 & Hrun & _).
    rewrite Hrun; cbn [run]; eauto.
Qed.

(** X3.  A rejected [addRental] has written nothing: whether it was turned
    down by the availability check or by the store refusing the rental
    row, the store and the in-memory rentals are what they were, and the
    error is one of these two. *)
Theorem rejected_addRental_writes_nothing
    (rentalData : Rental.t) (s s' : State) (e : exn) :
  run (addRental rentalData) s = (Rejected e, s') ->
  db s' = db s
  /\ rentals s' = rentals s
  /\ (e = Error unavailableMessage \/ e = PostgrestError).
Proof.
  unfold addRental.
  rewrite run_bind, run_checkProductAvailability.
  destruct (outage s (tick s)); cbn [negb run].
  - intros H; injection H as <- <-. auto.
  - destruct (Nat.eqb _ 0); cbn [negb run].
    + rewrite run_bind, run_supabaseInsert.
      cbn [tick answered outage uuid clock db].
      destruct (outage s (S (tick s))); cbn [run fst snd].
      * intros H; injection H as <- <-. auto.
      * rewrite run_getState.
        match goal with
        | |- run (?pre ;; loadRentals ;; Return ?i) ?st = _ -> _ =>
            match pre with
            | context [rentalDates ?tz ?a ?b ?c ?d] =>
                destruct (addRental_after_insert (rentalDates tz a b c d) i st)
                  as (s3 & Hrun)
            end
        end.
        rewrite Hrun. discriminate.
    + intros H; injection H as <- <-. auto.
Qed.

Lemma rejected_addRental_writes_nothing_witness :
  db (snd (run (addRental (rentalOf (parseISODate june10) (parseISODate june10)))
               (shop (outageAt 1))))
  = db (shop (outageAt 1))
  /\ rentals (snd (run (addRental (rentalOf (parseISODate june10) (parseISODate june10)))
                       (shop (outageAt 1))))
     = rentals (shop (outageAt 1))
  /\ (PostgrestError = Error unavailableMessage \/ PostgrestError = PostgrestError).
Proof.
  apply (rejected_addRental_writes_nothing
           (rentalOf (parseISODate june10) (parseISODate june10))
           (shop (outageAt 1))).
  vm_compute. reflexivity.
Defined.

Lemma filter_none {A : Type} (f : A -> bool) (l : list A) :
  (forall x, In x l -> f x = false) -> filter f l = [].
Proof.
  induction l as [|x l IH]; intros H; simpl; [reflexivity|].
  rewrite (H x (or_introl eq_refl)). apply IH. intros y Hy. apply H. now right.
Qed.

(** With the store answering the check and the insert, and no reserved
    day of the product in the requested days, [addRental] succeeds. *)
Lemma addRental_runs (rentalData : Rental.t) (s : State) :
  outage s (tick s) = false ->
  (forall e, In e (DB.rental_calendar (db s)) ->
             reservedWithin (Rental.productId rentalData)
                            (toISODate (Rental.rentalStartDate rentalData))
                            (toISODate (Rental.rentalEndDate rentalData)) e = false) ->
  outage s (S (tick s)) = false ->
  exists s', run (addRental rentalData) s = (Resolved (uuid s (S (tick s))), s').
Proof.
  intros Ho0 Hfree Ho1. unfold addRental.
  rewrite run_bind, run_checkProductAvailability, Ho0.
  rewrite (filter_none _ _ Hfree). cbn [List.length Nat.eqb negb].
  rewrite run_bind, run_supabaseInsert.
  cbn [tick answered outage uuid clock db]. rewrite Ho1. cbn [fst snd].
  rewrite run_getState. apply addRental_after_insert.
Qed.

Lemma rentalDates_inverted (tz : TimeZone) (productId rentalId : string)
    (startDate endDate : Date) :
  endDate < startDate -> rentalDates tz productId rentalId startDate endDate = [].
Proof.
  intros Hlt. unfold rentalDates.
  destruct (turnsUntil startDate endDate); simpl; [reflexivity|].
  apply Z.leb_gt in Hlt. now rewrite Hlt.
Qed.

(** X4.  [addRental] does not look at the order of the two dates.  A
    request whose end day is before its start day passes the availability
    check whatever the calendar holds (no day lies in the range), and,
    the store answering the check and the insert, the rental row is
    stored and no calendar row is created. *)
Theorem addRental_inverted_range (rentalData : Rental.t) (s : State) :
  toISODate (Rental.rentalEndDate rentalData)
    < toISODate (Rental.rentalStartDate rentalData) ->
  outage s (tick s) = false ->
  outage s (S (tick s)) = false ->
  exists s' newId,
    run (addRental rentalData) s = (Resolved newId, s')
    /\ DB.rentals (db s') = DB.rentals (db s) ++ [rentalRow rentalData newId (clock s)]
    /\ DB.rental_calendar (db s') = DB.rental_calendar (db s).
Proof.
  intros Hinv Ho0 Ho1.
  destruct (addRental_runs rentalData s Ho0) as (s' & Hrun); [|exact Ho1|].
  - intros e _. destruct (reservedWithin _ _ _ e) eqn:He; [|reflexivity].
    apply reservedWithin_iff in He. lia.
  - exists s', (uuid s (S (tick s))). split; [exact Hrun|].
    apply addRental_resolved in Hrun.
    destruct Hrun as (_ & _ & _ & Hrentals & Hcal).
    split; [exact Hrentals|].
    rewrite rentalDates_inverted in Hcal.
    + rewrite app_nil_r in Hcal. now destruct (outage s (S (S (tick s)))).
    + destruct (Z.lt_ge_cases (Rental.rentalEndDate rentalData)
                              (Rental.rentalStartDate rentalData)) as [Hlt | Hge];
        [exact Hlt|].
      apply toISODate_mono in Hge. lia.
Qed.

Lemma addRental_inverted_range_witness :
  exists s' newId,
    run (addRental (rentalOf (parseISODate (june10 + 3)) (parseISODate june10))) booked
    = (Resolved newId, s')
    /\ DB.rentals (db s')
       = DB.rentals (db booked)
         ++ [rentalRow (rentalOf (parseISODate (june10 + 3)) (parseISODate june10))
                       newId (clock booked)]
    /\ DB.rental_calendar (db s') = DB.rental_calendar (db booked).
Proof.
  apply (addRental_inverted_range
           (rentalOf (parseISODate (june10 + 3)) (parseISODate june10)) booked).
  - vm_compute. reflexivity.
  - reflexivity.
  - reflexivity.
Defined.

(** X5.  In a time zone of fixed offset (no daylight-saving change), the
    number of calendar rows built for a rental is the number of whole days
    that fit between start and end, plus one, whatever the times of day;
    the rows are on consecutive days from the day of the start.  In
    particular an end earlier in its day than the start leaves the day of
    the end without a row. *)
Theorem rentalDates_days (tz : TimeZone) (productId rentalId : string)
    (startDate endDate : Date) :
  fixedOffset tz ->
  startDate <= endDate ->
  map CalendarRow.reserved_date (rentalDates tz productId rentalId startDate endDate)
  = map (fun k => toISODate startDate + Z.of_nat k)
        (seq 0 (Z.to_nat ((endDate - startDate) / msPerDay + 1)))
  /\ (timeOfDay endDate < timeOfDay startDate ->
      entriesOn (toISODate endDate)
                (rentalDates tz productId rentalId startDate endDate) = 0%nat).
Proof.
  intros Htz Hle. split.
  - unfold rentalDates.
    assert (Hgen : forall fuel cur offset,
               (endDate - cur) / msPerDay + 1 = Z.of_nat fuel ->
               toISODate cur = toISODate startDate + Z.of_nat offset ->
               map CalendarRow.reserved_date
                   (pushDates tz fuel productId rentalId cur endDate [])
               = map (fun k => toISODate startDate + Z.of_nat k) (seq offset fuel)).
    { induction fuel as [|fuel IH]; intros cur offset Hfuel Hday; [reflexivity|].
      simpl pushDates.
      assert (Hcur : cur <= endDate).
      { unfold msPerDay in Hfuel. Z.div_mod_to_equations. lia. }
      apply Z.leb_le in Hcur. rewrite Hcur.
      rewrite (addOneDay_fixedOffset tz cur Htz).
      rewrite pushDates_acc. simpl. f_equal; [exact Hday|].
      apply IH.
      - unfold msPerDay in *. Z.div_mod_to_equations. lia.
      - unfold toISODate, msPerDay in *. Z.div_mod_to_equations. lia. }
    set (days := Z.to_nat ((endDate - startDate) / msPerDay + 1)).
    assert (Hdays : (endDate - startDate) / msPerDay + 1 = Z.of_nat days).
    { unfold days. rewrite Z2Nat.id; [reflexivity|].
      unfold msPerDay. Z.div_mod_to_equations. lia. }
    assert (Hturns : turnsUntil startDate endDate
                     = (days + (turnsUntil startDate endDate - days))%nat).
    { pose proof (turnsUntil_enough startDate endDate). lia. }
    rewrite Hturns, (pushDates_enough tz _ _ _ Htz) by lia.
    apply Hgen; [exact Hdays | simpl; lia].
  - intros Htod. unfold rentalDates.
    rewrite (entriesOn_pushDates tz _ _ _ _ Htz) by apply turnsUntil_enough.
    replace (toISODate endDate <=? toISODate startDate + (endDate - startDate) / msPerDay)
      with false; [now rewrite andb_false_r|].
    symmetry. apply Z.leb_gt.
    unfold timeOfDay, toISODate, msPerDay in *. Z.div_mod_to_equations. lia.
Qed.

Lemma rentalDates_days_witness :
  map CalendarRow.reserved_date
      (rentalDates utc "p1" "r1" (parseISODate june10 + hours 15)
                   (parseISODate (june10 + 2) + hours 10))
  = map (fun k => toISODate (parseISODate june10 + hours 15) + Z.of_nat k)
        (seq 0 (Z.to_nat ((parseISODate (june10 + 2) + hours 10
                           - (parseISODate june10 + hours 15)) / msPerDay + 1)))
  /\ (timeOfDay (parseISODate (june10 + 2) + hours 10)
        < timeOfDay (parseISODate june10 + hours 15) ->
      entriesOn (toISODate (parseISODate (june10 + 2) + hours 10))
                (rentalDates utc "p1" "r1" (parseISODate june10 + hours 15)
                             (parseISODate (june10 + 2) + hours 10)) = 0%nat).
Proof.
  apply (rentalDates_days utc "p1" "r1" (parseISODate june10 + hours 15)
                          (parseISODate (june10 + 2) + hours 10)).
  - exact fixedOffset_utc.
  - vm_compute. discriminate.
Defined.

(** Across the change to summer time the steps are not whole days: in
    Paris a rental from 30 March 2024 to 1 April, midnight UTC both, gets
    a row for 30 March and two for 31 March, none for 1 April. *)
Example rentalDates_across_summer_time :
  map CalendarRow.reserved_date
      (rentalDates paris "p1" "r1" (parseISODate 19812) (parseISODate 19814))
  = [19812; 19813; 19813].
Proof. vm_compute. reflexivity. Qed.

(** ** Sales step by step *)

Lemma run_updateStock (productId : string) (quantity : Z) (s : State) :
  run (updateStock productId quantity) s
  = match find (fun p => String.eqb (Product.id p) productId) (products s) with
    | None => (Resolved tt, s)
    | Some product =>
        if outage s (tick s) then (Rejected PostgrestError, answered (db s) s)
        else run loadProducts
               (answered (setStockOf productId
                            (Z.max 0 (Product.stock product + quantity)) (db s)) s)
    end.
Proof.
  unfold updateStock, getState. cbn [bind run].
  destruct (find _ (products s)) as [product|]; [|reflexivity].
  cbv zeta. rewrite run_bind, run_supabase.
  destruct (outage s (tick s)); reflexivity.
Qed.

Lemma run_addTransaction (transactionData : Transaction.t) (s : State) :
  run (addTransaction transactionData) s
  = let s1 := afterUpsert transactionData s in
    if outage s (S (tick s)) then (Rejected PostgrestError, answered (db s1) s1)
    else
      let row := transactionRow transactionData (uuid s (S (tick s))) (clock s) in
      let s2 := answered (DB.withTransactions (db s1) (DB.transactions (db s1) ++ [row])) s1 in
      match (if TransactionType_eqb (Transaction.type transactionData) sale
             then run (updateStock (Transaction.productId transactionData)
                                   (- Transaction.quantity transactionData)) s2
             else (Resolved tt, s2)) with
      | (Resolved _, s3) =>
          run (loadTransactions ;; loadCustomers ;; Return (uuid s (S (tick s)))) s3
      | (Rejected e, s3) => (Rejected e, s3)
      end.
Proof.
  unfold addTransaction.
  rewrite run_bind, run_supabaseInsert. unfold afterUpsert.
  destruct (outage s (tick s)); cbn [fst snd];
    rewrite run_bind, run_supabaseInsert;
    cbn [tick answered outage uuid clock db];
    (destruct (outage s (S (tick s))); cbn [fst snd]; [reflexivity|]);
    rewrite run_bind;
    (destruct (TransactionType_eqb (Transaction.type transactionData) sale);
     [ destruct (run (updateStock _ _) _) as [[[]|e] s3]; reflexivity
     | reflexivity ]).
Qed.

Lemma afterUpsert_frame (transactionData : Transaction.t) (s : State) :
  let s1 := afterUpsert transactionData s in
  products s1 = products s /\ transactions s1 = transactions s
  /\ outage s1 = outage s /\ uuid s1 = uuid s /\ clock s1 = clock s
  /\ tick s1 = S (tick s)
  /\ DB.products (db s1) = DB.products (db s)
  /\ DB.transactions (db s1) = DB.transactions (db s)
  /\ DB.rentals (db s1) = DB.rentals (db s)
  /\ DB.rental_calendar (db s1) = DB.rental_calendar (db s).
Proof.
  unfold afterUpsert, create_customer_if_not_exists.
  destruct (outage s (tick s)); cbn; [repeat split|].
  destruct (find _ (DB.customers (db s))); cbn; repeat split.
Qed.

Lemma run_two_loaders {A : Type} (x : A) (st : State) :
  exists s', run (loadTransactions ;; loadCustomers ;; Return x) st = (Resolved x, s')
             /\ db s' = db st.
Proof.
  destruct (run_loader loadTransactions (loadCustomers ;; Return x) st
              loadTransactions_spec) as (s3 & Hrun3 & [Hdb3 _ _ _] & _).
  destruct (run_loader loadCustomers (Return x) s3 loadCustomers_spec)
    as (s4 & Hrun4 & [Hdb4 _ _ _] & _).
  exists s4. rewrite Hrun3, Hrun4. cbn [run]. split; congruence.
Qed.

Lemma updateStock_frame (productId : string) (quantity : Z) (s : State) :
  let s' := snd (run (updateStock productId quantity) s) in
  DB.transactions (db s') = DB.transactions (db s)
  /\ DB.rentals (db s') = DB.rentals (db s)
  /\ DB.rental_calendar (db s') = DB.rental_calendar (db s)
  /\ DB.customers (db s') = DB.customers (db s).
Proof.
  cbv zeta. rewrite run_updateStock.
  destruct (find _ (products s)) as [product|]; [|repeat split].
  destruct (outage s (tick s)); [repeat split|].
  match goal with
  | |- context [run loadProducts ?st] =>
      destruct (run_then_loader loadProducts st loadProducts_spec) as (s' & Hrun & Hdb)
  end.
  rewrite Hrun. cbn [snd]. rewrite Hdb. repeat split.
Qed.

(** The tables after [addTransaction], whatever the store does. *)
Lemma addTransaction_tables (transactionData : Transaction.t) (s : State) :
  let s' := snd (run (addTransaction transactionData) s) in
  DB.rentals (db s') = DB.rentals (db s)
  /\ DB.rental_calendar (db s') = DB.rental_calendar (db s)
  /\ DB.transactions (db s')
     = (if outage s (S (tick s)) then DB.transactions (db s)
        else DB.transactions (db s)
             ++ [transactionRow transactionData (uuid s (S (tick s))) (clock s)])
  /\ (Transaction.type transactionData = rental ->
      DB.products (db s') = DB.products (db s)).
Proof.
  cbv zeta. rewrite run_addTransaction. cbv zeta.
  destruct (afterUpsert_frame transactionData s)
    as (_ & _ & _ & _ & _ & _ & Hp1 & Ht1 & Hr1 & Hc1).
  destruct (outage s (S (tick s))); cbn [snd db answered].
  { rewrite Hr1, Hc1, Ht1, Hp1. repeat split. }
  set (s2 := answered _ (afterUpsert transactionData s)).
  assert (H2 : DB.rentals (db s2) = DB.rentals (db s)
               /\ DB.rental_calendar (db s2) = DB.rental_calendar (db s)
               /\ DB.transactions (db s2)
                  = DB.transactions (db s)
                    ++ [transactionRow transactionData (uuid s (S (tick s))) (clock s)]
               /\ DB.products (db s2) = DB.products (db s)).
  { subst s2; cbn. rewrite Hr1, Hc1, Ht1, Hp1. repeat split. }
  destruct H2 as (Hr2 & Hc2 & Ht2 & Hp2).
  destruct (Transaction.type transactionData) eqn:Htype; cbn [TransactionType_eqb].
  - pose proof (updateStock_frame (Transaction.productId transactionData)
                  (- Transaction.quantity transactionData) s2) as Hframe.
    cbv zeta in Hframe. destruct Hframe as (Ht3 & Hr3 & Hc3 & _).
    destruct (run (updateStock _ _) s2) as [[[]|e] s3]; cbn [snd] in *.
    + destruct (run_two_loaders (uuid s (S (tick s))) s3) as (s4 & Hrun & Hdb).
      rewrite Hrun. cbn [snd]. rewrite Hdb, Hr3, Hc3, Ht3, Hr2, Hc2, Ht2.
      repeat split. discriminate.
    + rewrite Hr3, Hc3, Ht3, Hr2, Hc2, Ht2. repeat split. discriminate.
  - destruct (run_two_loaders (uuid s (S (tick s))) s2) as (s4 & Hrun & Hdb).
    rewrite Hrun. cbn [snd]. rewrite Hdb, Hr2, Hc2, Ht2, Hp2. repeat split.
Qed.

(** X6.  [addTransaction] never writes a rental or a calendar row,
    whatever its argument and whatever the store does; and for a
    transaction of type [rental] it does not touch the products either:
    recording the fee of a rental neither reserves a day nor moves the
    stock. *)
Theorem addTransaction_reserves_nothing (transactionData : Transaction.t) (s : State) :
  DB.rentals (db (snd (run (addTransaction transactionData) s))) = DB.rentals (db s)
  /\ DB.rental_calendar (db (snd (run (addTransaction transactionData) s)))
     = DB.rental_calendar (db s)
  /\ (Transaction.type transactionData = rental ->
      DB.products (db (snd (run (addTransaction transactionData) s)))
      = DB.products (db s)).
Proof.
  destruct (addTransaction_tables transactionData s) as (Hr & Hc & _ & Hp).
  auto.
Qed.

Lemma addTransaction_reserves_nothing_witness :
  DB.rentals (db (snd (run (addTransaction rentalFee) (shop noOutage))))
  = DB.rentals (db (shop noOutage))
  /\ DB.rental_calendar (db (snd (run (addTransaction rentalFee) (shop noOutage))))
     = DB.rental_calendar (db (shop noOutage))
  /\ DB.products (db (snd (run (addTransaction rentalFee) (shop noOutage))))
     = DB.products (db (shop noOutage)).
Proof.
  destruct (addTransaction_reserves_nothing rentalFee (shop noOutage))
    as (Hr & Hc & Hp).
  split; [exact Hr|]. split; [exact Hc|]. apply Hp. reflexivity.
Defined.

(** X7.  A sale whose stock update the store refuses is thrown back to the
    caller as a failure although the sale itself is stored: the
    transaction row has been inserted and stays, and the stock is what it
    was. *)
Theorem sale_stored_stock_refused
    (transactionData : Transaction.t) (s : State) (product : Product.t) :
  Transaction.type transactionData = sale ->
  find (fun p => String.eqb (Product.id p) (Transaction.productId transactionData))
       (products s) = Some product ->
  outage s (S (tick s)) = false ->
  outage s (S (S (tick s))) = true ->
  exists s',
    run (addTransaction transactionData) s = (Rejected PostgrestError, s')
    /\ DB.transactions (db s')
       = DB.transactions (db s)
         ++ [transactionRow transactionData (uuid s (S (tick s))) (clock s)]
    /\ DB.products (db s') = DB.products (db s).
Proof.
  intros Htype Hfind Ho1 Ho2.
  rewrite run_addTransaction. cbv zeta.
  destruct (afterUpsert_frame transactionData s)
    as (Hprod & _ & Hout & _ & _ & Htick & Hp1 & Ht1 & _).
  rewrite Ho1, Htype. cbn [TransactionType_eqb].
  rewrite run_updateStock. cbn [products answered tick outage db].
  rewrite Hprod, Hfind, Hout, Htick, Ho2.
  eexists; split; [reflexivity|]. cbn. rewrite Ht1, Hp1. split; reflexivity.
Qed.

Lemma sale_stored_stock_refused_witness :
  exists s',
    run (addTransaction (saleOf 1 9000 9000)) (shop (outageAt 2))
    = (Rejected PostgrestError, s')
    /\ DB.transactions (db s')
       = DB.transactions (db (shop (outageAt 2)))
         ++ [transactionRow (saleOf 1 9000 9000)
                            (uuid (shop (outageAt 2)) 1) (clock (shop (outageAt 2)))]
    /\ DB.products (db s') = DB.products (db (shop (outageAt 2))).
Proof.
  apply (sale_stored_stock_refused (saleOf 1 9000 9000) (shop (outageAt 2)) robe);
    reflexivity.
Defined.

(** X8.  A sale of a product that the provider does not hold in memory is
    recorded without any stock movement and without any error: the
    transaction row is stored, the call succeeds, the products of the
    store are untouched. *)
Theorem sale_of_unknown_product (transactionData : Transaction.t) (s : State) :
  Transaction.type transactionData = sale ->
  find (fun p => String.eqb (Product.id p) (Transaction.productId transactionData))
       (products s) = None ->
  outage s (S (tick s)) = false ->
  exists s',
    run (addTransaction transactionData) s = (Resolved (uuid s (S (tick s))), s')
    /\ DB.transactions (db s')
       = DB.transactions (db s)
         ++ [transactionRow transactionData (uuid s (S (tick s))) (clock s)]
    /\ DB.products (db s') = DB.products (db s).
Proof.
  intros Htype Hfind Ho1.
  rewrite run_addTransaction. cbv zeta.
  destruct (afterUpsert_frame transactionData s)
    as (Hprod & _ & _ & _ & _ & _ & Hp1 & Ht1 & _).
  rewrite Ho1, Htype. cbn [TransactionType_eqb].
  rewrite run_updateStock. cbn [products answered].
  rewrite Hprod, Hfind.
  match goal with
  | |- context [run (loadTransactions ;; loadCustomers ;; Return ?x) ?st] =>
      destruct (run_two_loaders x st) as (s4 & Hrun & Hdb)
  end.
  exists s4. split; [exact Hrun|]. rewrite Hdb. cbn. rewrite Ht1, Hp1.
  split; reflexivity.
Qed.

Lemma sale_of_unknown_product_witness :
  exists s',
    run (addTransaction strangerSale) (shop noOutage)
    = (Resolved (uuid (shop noOutage) 1), s')
    /\ DB.transactions (db s')
       = DB.transactions (db (shop noOutage))
         ++ [transactionRow strangerSale (uuid (shop noOutage) 1)
                            (clock (shop noOutage))]
    /\ DB.products (db s') = DB.products (db (shop noOutage)).
Proof.
  apply (sale_of_unknown_product strangerSale (shop noOutage)); reflexivity.
Defined.

(** ** The customer upsert *)

Lemma find_map_same {A : Type} (p : A -> bool) (g : A -> A) (l : list A) :
  (forall x, p (g x) = p x) ->
  find p (map g l) = option_map g (find p l).
Proof.
  intros Hp. induction l as [|x l IH]; simpl; [reflexivity|].
  rewrite Hp. destruct (p x); [reflexivity | exact IH].
Qed.

Lemma find_app_new {A : Type} (p : A -> bool) (l : list A) (x : A) :
  find p l = None -> p x = true -> find p (l ++ [x]) = Some x.
Proof.
  intros Hnone Hx. induction l as [|y l IH]; simpl in *.
  - now rewrite Hx.
  - destruct (p y); [discriminate | now apply IH].
Qed.

(** X9.  [create_customer_if_not_exists] keeps one customer per phone.
    After the call the customer found under the phone bears the name
    given, and the email given when there is one; a phone not known yet
    adds one customer at the end, with the identifier generated and the
    time of the call; a known phone keeps its customer's identifier,
    address, notes and time of creation, and its email when none is
    given; and phones that were pairwise distinct still are. *)
Theorem customer_upsert
    (customer_name customer_phone : string) (customer_email : option string)
    (newId : string) (now : Date) (d : DB.t) :
  let byPhone := fun c => String.eqb (Customer.phone c) customer_phone in
  let d' := create_customer_if_not_exists customer_name customer_phone
              customer_email newId now d in
  (exists c,
      find byPhone (DB.customers d') = Some c
      /\ Customer.name c = customer_name
      /\ Customer.phone c = customer_phone
      /\ (forall e, customer_email = Some e -> Customer.email c = Some e))
  /\ (find byPhone (DB.customers d) = None ->
      DB.customers d'
      = DB.customers d
        ++ [Customer.mk newId customer_name customer_phone customer_email None None
                        now])
  /\ (forall known,
        find byPhone (DB.customers d) = Some known ->
        exists c,
          find byPhone (DB.customers d') = Some c
          /\ Customer.id c = Customer.id known
          /\ Customer.address c = Customer.address known
          /\ Customer.notes c = Customer.notes known
          /\ Customer.createdAt c = Customer.createdAt known
          /\ (customer_email = None -> Customer.email c = Customer.email known)
          /\ List.length (DB.customers d') = List.length (DB.customers d))
  /\ (NoDup (map Customer.phone (DB.customers d)) ->
      NoDup (map Customer.phone (DB.customers d'))).
Proof.
  cbv zeta. unfold create_customer_if_not_exists.
  destruct (find _ (DB.customers d)) as [known|] eqn:Hfind; cbn [DB.customers DB.withCustomers].
  - assert (Hsame : forall x : Customer.t,
               String.eqb
                 (Customer.phone
                    (if String.eqb (Customer.id x) (Customer.id known)
                     then Customer.mk (Customer.id x) customer_name (Customer.phone x)
                            match customer_email with
                            | Some e => Some e
                            | None => Customer.email x
                            end (Customer.address x) (Customer.notes x)
                            (Customer.createdAt x)
                     else x)) customer_phone
               = String.eqb (Customer.phone x) customer_phone).
    { intros x. now destruct (String.eqb (Customer.id x) (Customer.id known)). }
    rewrite (find_map_same _ _ _ Hsame), Hfind. cbn [option_map].
    rewrite String.eqb_refl.
    apply find_some in Hfind. destruct Hfind as [_ Hphone].
    apply String.eqb_eq in Hphone.
    split; [|split; [discriminate|split]].
    + eexists; split; [reflexivity|]. cbn. repeat split; [exact Hphone|].
      intros e ->. reflexivity.
    + intros k Hk. injection Hk as <-.
      eexists; split; [reflexivity|]. cbn. repeat split.
      * intros ->. reflexivity.
      * apply length_map.
    + intros Hnodup. rewrite map_map.
      erewrite map_ext; [exact Hnodup|].
      intros x. now destruct (String.eqb (Customer.id x) (Customer.id known)).
  - split; [|split; [reflexivity|split; [discriminate|]]].
    + eexists; split.
      * apply find_app_new; [exact Hfind | apply String.eqb_refl].
      * cbn. repeat split. intros e ->. reflexivity.
    + intros Hnodup. rewrite map_app. cbn.
      apply NoDup_app; [exact Hnodup | repeat constructor; intros [] |].
      intros phone Hin [Heq | []]. subst phone.
      apply in_map_iff in Hin. destruct Hin as (c & Hc & Hin).
      pose proof (find_none _ _ Hfind c Hin) as Hno. cbn in Hno.
      rewrite Hc, String.eqb_refl in Hno. discriminate.
Qed.

Lemma customer_upsert_witness :
  exists c,
    find (fun c => String.eqb (Customer.phone c) "0555123456")
         (DB.customers (create_customer_if_not_exists "A. Benali" "0555123456" None
                                                      "c2" 0 clients))
    = Some c
    /\ Customer.id c = Customer.id ahmed
    /\ Customer.address c = Customer.address ahmed
    /\ Customer.notes c = Customer.notes ahmed
    /\ Customer.createdAt c = Customer.createdAt ahmed
    /\ (@None string = None -> Customer.email c = Customer.email ahmed)
    /\ List.length (DB.customers (create_customer_if_not_exists
                                    "A. Benali" "0555123456" None "c2" 0 clients))
       = List.length (DB.customers clients).
Proof.
  apply (proj1 (proj2 (proj2 (customer_upsert "A. Benali" "0555123456" None
                                              "c2" 0 clients))) ahmed).
  reflexivity.
Defined.

(** X10.  [addTransaction] upserts the customer before it inserts the
    transaction and does not undo it: when the store takes the upsert and
    refuses the transaction row, the call throws, no transaction is
    stored, no stock is moved, and the customer is in the store as
    upserted. *)
Theorem transaction_refused_customer_kept (transactionData : Transaction.t) (s : State) :
  outage s (tick s) = false ->
  outage s (S (tick s)) = true ->
  exists s',
    run (addTransaction transactionData) s = (Rejected PostgrestError, s')
    /\ DB.transactions (db s') = DB.transactions (db s)
    /\ DB.products (db s') = DB.products (db s)
    /\ DB.customers (db s')
       = DB.customers (create_customer_if_not_exists
                         (Transaction.customerName transactionData)
                         (Transaction.customerPhone transactionData)
                         (Transaction.customerEmail transactionData)
                         (uuid s (tick s)) (clock s) (db s)).
Proof.
  intros Ho0 Ho1. rewrite run_addTransaction. cbv zeta. rewrite Ho1.
  destruct (afterUpsert_frame transactionData s)
    as (_ & _ & _ & _ & _ & _ & Hp1 & Ht1 & _).
  eexists; split; [reflexivity|]. cbn [db answered].
  rewrite Ht1, Hp1. split; [reflexivity|]. split; [reflexivity|].
  unfold afterUpsert. rewrite Ho0. reflexivity.
Qed.

Lemma transaction_refused_customer_kept_witness :
  exists s',
    run (addTransaction unpaidSale) (shop (outageAt 1)) = (Rejected PostgrestError, s')
    /\ DB.transactions (db s') = DB.transactions (db (shop (outageAt 1)))
    /\ DB.products (db s') = DB.products (db (shop (outageAt 1)))
    /\ DB.customers (db s')
       = DB.customers (create_customer_if_not_exists
                         (Transaction.customerName unpaidSale)
                         (Transaction.customerPhone unpaidSale)
                         (Transaction.customerEmail unpaidSale)
                         (uuid (shop (outageAt 1)) 0) (clock (shop (outageAt 1)))
                         (db (shop (outageAt 1)))).
Proof.
  apply (transaction_refused_customer_kept unpaidSale (shop (outageAt 1)));
    reflexivity.
Defined.

(** ** Amounts as they are stored *)

Lemma addTransaction_resolved
    (transactionData : Transaction.t) (s s' : State) (newId : string) :
  run (addTransaction transactionData) s = (Resolved newId, s') ->
  newId = uuid s (S (tick s))
  /\ DB.transactions (db s')
     = DB.transactions (db s) ++ [transactionRow transactionData newId (clock s)].
Proof.
  intros Hrun.
  pose proof (addTransaction_tables transactionData s) as Htab.
  cbv zeta in Htab. rewrite Hrun in Htab. cbn [snd] in Htab.
  destruct Htab as (_ & _ & Ht & _).
  rewrite run_addTransaction in Hrun. cbv zeta in Hrun.
  destruct (outage s (S (tick s))); [discriminate|].
  assert (Hid : newId = uuid s (S (tick s))).
  { destruct (if TransactionType_eqb (Transaction.type transactionData) sale
              then _ else _) as [[[]|e] s3]; [|discriminate].
    destruct (run_two_loaders (uuid s (S (tick s))) s3) as (s4 & Hrun4 & _).
    rewrite Hrun4 in Hrun. now injection Hrun as <- _. }
  split; [exact Hid|]. rewrite Ht, Hid. reflexivity.
Qed.

(** X11.  A sale or a rental entered with nothing paid is stored as paid
    in full.  When [addTransaction] (resp. [addRental]) succeeds on a
    record whose [amountPaid] is 0, the row added to the store has the
    total as amount paid, next to the remaining amount as it was given. *)
Theorem unpaid_is_stored_as_paid (s s' : State) (newId : string) :
  (forall transactionData,
      Transaction.amountPaid transactionData = 0 ->
      run (addTransaction transactionData) s = (Resolved newId, s') ->
      exists row,
        DB.transactions (db s') = DB.transactions (db s) ++ [row]
        /\ Transaction.id row = newId
        /\ Transaction.amountPaid row = Transaction.totalAmount transactionData
        /\ Transaction.remainingAmount row = Transaction.remainingAmount transactionData)
  /\ (forall rentalData,
        Rental.amountPaid rentalData = 0 ->
        run (addRental rentalData) s = (Resolved newId, s') ->
        exists row,
          DB.rentals (db s') = DB.rentals (db s) ++ [row]
          /\ RentalRow.id row = newId
          /\ RentalRow.amount_paid row = Rental.totalAmount rentalData
          /\ RentalRow.remaining_amount row = Rental.remainingAmount rentalData).
Proof.
  split.
  - intros transactionData Hzero Hrun.
    apply addTransaction_resolved in Hrun. destruct Hrun as (_ & Ht).
    eexists; split; [exact Ht|]. cbn.
    rewrite Hzero, orNum_zero. repeat split.
  - intros rentalData Hzero Hrun.
    apply addRental_resolved in Hrun. destruct Hrun as (_ & _ & _ & Hr & _).
    eexists; split; [exact Hr|]. cbn.
    rewrite Hzero, orNum_zero. repeat split.
Qed.

Lemma unpaid_is_stored_as_paid_witness :
  exists row,
    DB.transactions (db (snd (run (addTransaction unpaidSale) (shop noOutage))))
    = DB.transactions (db (shop noOutage)) ++ [row]
    /\ Transaction.id row = "b"%string
    /\ Transaction.amountPaid row = 9000
    /\ Transaction.remainingAmount row = 9000.
Proof.
  apply (proj1 (unpaid_is_stored_as_paid
                  (shop noOutage)
                  (snd (run (addTransaction unpaidSale) (shop noOutage))) "b")
               unpaidSale).
  - reflexivity.
  - vm_compute. reflexivity.
Defined.

(** ** Payments one after the other *)

Lemma run_loadTransactions (st : State) :
  run loadTransactions st
  = (Resolved tt,
     if outage st (tick st) then answered (db st) st
     else setTransactions
            (map formatTransaction
                 (newestFirst Transaction.createdAt (DB.transactions (db st))))
            (answered (db st) st)).
Proof.
  unfold loadTransactions. rewrite run_bind, run_supabase.
  destruct (outage st (tick st)); reflexivity.
Qed.

Lemma run_updateTransactionPayment (transactionId : string) (a : Z) (s : State) :
  run (updateTransactionPayment transactionId a) s
  = match find (fun t => String.eqb (Transaction.id t) transactionId) (transactions s) with
    | None => (Resolved tt, s)
    | Some transaction =>
        if outage s (tick s) then (Rejected PostgrestError, answered (db s) s)
        else
          let totalPaid := Transaction.amountPaid transaction + a in
          let remaining := Z.max 0 (Transaction.totalAmount transaction - totalPaid) in
          run loadTransactions
              (answered (setTransactionPayment transactionId totalPaid remaining
                           (paymentStatusOf remaining totalPaid) (db s)) s)
    end.
Proof.
  unfold updateTransactionPayment, getState. cbn [bind run].
  destruct (find _ (transactions s)) as [transaction|]; [|reflexivity].
  cbv zeta. rewrite run_bind, run_supabase, orNum_zero.
  destruct (outage s (tick s)); reflexivity.
Qed.

Lemma setTransactionPayment_twice (transactionId : string)
    (paid1 remaining1 paid2 remaining2 : Z) (st1 st2 : PaymentStatus) (d : DB.t) :
  DB.transactions
    (setTransactionPayment transactionId paid2 remaining2 st2
       (setTransactionPayment transactionId paid1 remaining1 st1 d))
  = DB.transactions (setTransactionPayment transactionId paid2 remaining2 st2 d).
Proof.
  unfold setTransactionPayment; cbn. rewrite map_map. apply map_ext.
  intros t. destruct (String.eqb (Transaction.id t) transactionId) eqn:Hid; cbn.
  - now rewrite Hid.
  - now rewrite Hid.
Qed.

Lemma find_after_payment (transactionId : string) (paid remaining : Z)
    (st : PaymentStatus) (d : DB.t) (t0 : Transaction.t) :
  find (fun t => String.eqb (Transaction.id t) transactionId)
       (newestFirst Transaction.createdAt (DB.transactions d)) = Some t0 ->
  find (fun t => String.eqb (Transaction.id t) transactionId)
       (map formatTransaction
            (newestFirst Transaction.createdAt
               (DB.transactions
                  (setTransactionPayment transactionId paid remaining st d))))
  = Some (formatTransaction (Transaction.withPayment t0 paid remaining (Some st))).
Proof.
  intros Hfind. unfold setTransactionPayment; cbn [DB.transactions DB.withTransactions].
  rewrite (newestFirst_map Transaction.createdAt Transaction.createdAt)
    by (intros y; destruct (String.eqb (Transaction.id y) transactionId); reflexivity).
  rewrite (find_map_same _ formatTransaction) by reflexivity.
  rewrite find_map_same.
  - rewrite Hfind. cbn [option_map].
    apply find_some in Hfind. destruct Hfind as [_ Hid]. now rewrite Hid.
  - intros x. cbv beta.
    destruct (String.eqb (Transaction.id x) transactionId) eqn:Hx; cbn;
      rewrite ?Hx; reflexivity.
Qed.

(** X12.  Two payments of whole-number amounts on a transaction add up
    when each is issued once the provider has rendered the result of the
    one before.  When the in-memory transactions are the store's as
    loaded, the store answers the three round trips (first update, reload,
    second update) and the amount paid after the first payment is not 0,
    paying [a] and then, from the provider as the first payment left it,
    [b] leaves the store's transactions exactly as one payment of [a + b]
    does.  Issued instead from the render that issued the first, as two
    calls awaited in a row by one handler are, the second payment starts
    from the amount [p] known before the first, and the rows of the
    transaction end with [p + b] paid. *)
Theorem payments_add_up (transactionId : string) (a b : Z) (s : State)
    (transaction : Transaction.t) :
  transactions s
  = map formatTransaction (newestFirst Transaction.createdAt (DB.transactions (db s))) ->
  find (fun t => String.eqb (Transaction.id t) transactionId) (transactions s)
    = Some transaction ->
  wholeAmounts (Transaction.amountPaid transaction)
               (Transaction.totalAmount transaction) a ->
  wholeAmounts (Transaction.amountPaid transaction + a)
               (Transaction.totalAmount transaction) b ->
  wholeAmounts (Transaction.amountPaid transaction)
               (Transaction.totalAmount transaction) (a + b) ->
  Transaction.amountPaid transaction + a <> 0 ->
  outage s (tick s) = false ->
  outage s (S (tick s)) = false ->
  outage s (S (S (tick s))) = false ->
  let first := run (updateTransactionPayment transactionId a) s in
  let second := run (updateTransactionPayment transactionId b) (snd first) in
  let once := run (updateTransactionPayment transactionId (a + b)) s in
  let stale := run (updateTransactionPayment transactionId b)
                   (seenFrom s (snd first)) in
  fst first = Resolved tt
  /\ fst second = Resolved tt
  /\ fst once = Resolved tt
  /\ DB.transactions (db (snd second)) = DB.transactions (db (snd once))
  /\ fst stale = Resolved tt
  /\ (forall row,
        In row (DB.transactions (db (snd stale))) ->
        Transaction.id row = transactionId ->
        Transaction.amountPaid row = Transaction.amountPaid transaction + b).
Proof.
  intros Hcache Hfind _ _ _ Hnz Ho0 Ho1 Ho2.
  assert (Hrows : exists t0,
             find (fun t => String.eqb (Transaction.id t) transactionId)
                  (newestFirst Transaction.createdAt (DB.transactions (db s)))
             = Some t0
             /\ transaction = formatTransaction t0).
  { rewrite Hcache, (find_map_same _ formatTransaction) in Hfind by reflexivity.
    destruct (find _ (newestFirst _ (DB.transactions (db s)))) as [t0|];
      [|discriminate].
    injection Hfind as <-. eauto. }
  destruct Hrows as (t0 & Hfind0 & Ht0).
  cbv zeta.
  rewrite (run_updateTransactionPayment transactionId a s), Hfind, Ho0. cbv zeta.
  rewrite run_loadTransactions. cbn [tick answered outage db]. rewrite Ho1.
  cbn [fst snd].
  rewrite (run_updateTransactionPayment transactionId b (seenFrom _ _)).
  cbn [seenFrom transactions setTransactions answered tick outage db].
  rewrite Hfind, Ho2. cbv zeta.
  rewrite (run_updateTransactionPayment transactionId b).
  cbn [transactions setTransactions answered tick outage db].
  rewrite (find_after_payment _ _ _ _ _ t0 Hfind0), Ho2. cbv zeta.
  rewrite !run_loadTransactions.
  rewrite (run_updateTransactionPayment transactionId (a + b) s), Hfind, Ho0.
  cbv zeta. rewrite run_loadTransactions.
  cbn [fst snd].
  split; [reflexivity|]. split; [reflexivity|]. split; [reflexivity|].
  cbn [db answered seenFrom].
  repeat match goal with
         | |- context [db (if ?c then answered ?d ?st else ?e)] =>
             replace (db (if c then answered d st else e)) with d
               by (now destruct c)
         end.
  split; [|split; [reflexivity|]].
  - rewrite setTransactionPayment_twice.
    assert (Hpaid : Transaction.amountPaid
                      (formatTransaction
                         (Transaction.withPayment t0
                            (Transaction.amountPaid transaction + a)
                            (Z.max 0 (Transaction.totalAmount transaction
                                      - (Transaction.amountPaid transaction + a)))
                            (Some (paymentStatusOf
                                     (Z.max 0 (Transaction.totalAmount transaction
                                               - (Transaction.amountPaid transaction + a)))
                                     (Transaction.amountPaid transaction + a)))))
                    = Transaction.amountPaid transaction + a).
    { cbn. unfold orNum.
      destruct (Z.eqb_spec (Transaction.amountPaid transaction + a) 0);
        [contradiction | reflexivity]. }
    rewrite Hpaid.
    replace (Transaction.totalAmount (formatTransaction (Transaction.withPayment t0 _ _ _)))
      with (Transaction.totalAmount transaction) by (rewrite Ht0; reflexivity).
    rewrite <- Z.add_assoc. reflexivity.
  - intros row Hin Hid.
    apply (In_setTransactionPayment _ _ _ _ _ _ Hin Hid).
Qed.

Lemma payments_add_up_witness :
  let first := run (updateTransactionPayment "t1" 200) (ledger 500 100 noOutage) in
  let second := run (updateTransactionPayment "t1" 100) (snd first) in
  let once := run (updateTransactionPayment "t1" (200 + 100)) (ledger 500 100 noOutage) in
  let stale := run (updateTransactionPayment "t1" 100)
                   (seenFrom (ledger 500 100 noOutage) (snd first)) in
  fst first = Resolved tt
  /\ fst second = Resolved tt
  /\ fst once = Resolved tt
  /\ DB.transactions (db (snd second)) = DB.transactions (db (snd once))
  /\ fst stale = Resolved tt
  /\ (forall row,
        In row (DB.transactions (db (snd stale))) ->
        Transaction.id row = "t1"%string ->
        Transaction.amountPaid row = Transaction.amountPaid (saleOf 1 500 100) + 100).
Proof.
  apply (payments_add_up "t1" 200 100 (ledger 500 100 noOutage) (saleOf 1 500 100));
    try reflexivity; try (vm_compute; repeat split; discriminate).
Defined.

(** Two payments of 200 awaited in a row by one handler, on a transaction
    of 1000 of which 100 is paid: the second is computed from the list
    that the handler's render held, and 300 ends up paid, not 500. *)
Example payments_from_one_render :
  let s := ledger 1000 100 noOutage in
  let first := run (updateTransactionPayment "t1" 200) s in
  let second := run (updateTransactionPayment "t1" 200) (seenFrom s (snd first)) in
  map Transaction.amountPaid (DB.transactions (db (snd first))) = [300]
  /\ map Transaction.amountPaid (DB.transactions (db (snd second))) = [300].
Proof. vm_compute. split; reflexivity. Qed.

(** When the first payment brings the amount paid to 0 the sum is lost:
    the reload reads the 0 as the total. *)
Example payments_through_zero :
  let s := ledger 500 100 noOutage in
  let first := run (updateTransactionPayment "t1" (-100)) s in
  let second := run (updateTransactionPayment "t1" 50) (snd first) in
  let once := run (updateTransactionPayment "t1" (-100 + 50)) s in
  map Transaction.amountPaid (DB.transactions (db (snd second))) = [550]
  /\ map Transaction.amountPaid (DB.transactions (db (snd once))) = [50].
Proof. vm_compute. split; reflexivity. Qed.

(** X13.  A payment is computed from the in-memory copy, so a reload that
    fails between two payments makes the second one overwrite the first:
    with the two updates answered and the reload in between refused, the
    rows of the transaction end with [p + b] paid, [p] being the amount
    known before both payments; the first payment [a] is gone. *)
Theorem stale_copy_loses_payment (transactionId : string) (a b : Z) (s : State)
    (transaction : Transaction.t) :
  find (fun t => String.eqb (Transaction.id t) transactionId) (transactions s)
    = Some transaction ->
  outage s (tick s) = false ->
  outage s (S (tick s)) = true ->
  outage s (S (S (tick s))) = false ->
  fst (run (updateTransactionPayment transactionId a ;;
            updateTransactionPayment transactionId b) s) = Resolved tt
  /\ forall row,
       In row (DB.transactions
                 (db (snd (run (updateTransactionPayment transactionId a ;;
                                updateTransactionPayment transactionId b) s)))) ->
       Transaction.id row = transactionId ->
       Transaction.amountPaid row = Transaction.amountPaid transaction + b.
Proof.
  intros Hfind Ho0 Ho1 Ho2.
  rewrite run_bind.
  rewrite (run_updateTransactionPayment transactionId a s), Hfind, Ho0. cbv zeta.
  rewrite run_loadTransactions. cbn [tick answered outage db]. rewrite Ho1.
  rewrite (run_updateTransactionPayment transactionId b).
  cbn [transactions answered tick outage db]. rewrite Hfind, Ho2. cbv zeta.
  rewrite run_loadTransactions. cbn [fst snd]. split; [reflexivity|].
  intros row Hin Hid.
  match type of Hin with
  | In row (DB.transactions (db (if ?c then answered ?d ?st else ?e))) =>
      replace (db (if c then answered d st else e)) with d in Hin
        by (now destruct c)
  end.
  apply (In_setTransactionPayment _ _ _ _ _ _ Hin Hid).
Qed.

Lemma stale_copy_loses_payment_witness :
  fst (run (updateTransactionPayment "t1" 200 ;; updateTransactionPayment "t1" 100)
           (ledger 500 100 (outageAt 1))) = Resolved tt
  /\ forall row,
       In row (DB.transactions
                 (db (snd (run (updateTransactionPayment "t1" 200 ;;
                                updateTransactionPayment "t1" 100)
                               (ledger 500 100 (outageAt 1)))))) ->
       Transaction.id row = "t1"%string ->
       Transaction.amountPaid row = Transaction.amountPaid (saleOf 1 500 100) + 100.
Proof.
  apply (stale_copy_loses_payment "t1" 200 100 (ledger 500 100 (outageAt 1))
                                  (saleOf 1 500 100)); reflexivity.
Defined.

(** ** Returning a rental *)

Lemma run_loadRentals (st : State) :
  run loadRentals st
  = (Resolved tt,
     if outage st (tick st) then answered (db st) st
     else setRentals
            (map formatRental
                 (newestFirst RentalRow.created_at (rentalsWithProduct (db st))))
            (answered (db st) st)).
Proof.
  unfold loadRentals. rewrite run_bind, run_supabase.
  destruct (outage st (tick st)); reflexivity.
Qed.

Lemma run_updateRentalStatus_returned
    (rentalId : string) (returnedAt : option Date) (s : State) :
  outage s (tick s) = false ->
  run (updateRentalStatus rentalId returned returnedAt) s
  = let d1 := setRentalStatus rentalId returned returnedAt (db s) in
    run loadRentals
        (if outage s (S (tick s)) then answered d1 (answered d1 s)
         else answered (releaseCalendar rentalId d1) (answered d1 s)).
Proof.
  intros Ho0. unfold updateRentalStatus.
  rewrite run_bind, run_supabase, Ho0. cbn [fst snd update RentalStatus_eqb].
  rewrite run_bind, run_bind, run_supabase. cbn [tick answered outage db].
  destruct (outage s (S (tick s))); reflexivity.
Qed.

(** X14.  The days of a returned rental can be booked again.  When every
    reserved day of the product in the requested range belongs to one
    rental, returning that rental and then asking for the range answers
    [true], the store answering the two updates and the query. *)
Theorem returned_days_are_free
    (rentalId productId : string) (returnedAt : option Date)
    (startDate endDate : Date) (s : State) :
  (forall e, In e (DB.rental_calendar (db s)) ->
             reservedWithin productId (toISODate startDate) (toISODate endDate) e = true ->
             CalendarRow.rental_id e = rentalId) ->
  outage s (tick s) = false ->
  outage s (S (tick s)) = false ->
  outage s (S (S (S (tick s)))) = false ->
  fst (run (updateRentalStatus rentalId returned returnedAt ;;
            checkProductAvailability productId startDate endDate) s)
  = Resolved true.
Proof.
  intros Hown Ho0 Ho1 Ho3.
  rewrite run_bind, (run_updateRentalStatus_returned _ _ _ Ho0). cbv zeta.
  rewrite Ho1, run_loadRentals, run_checkProductAvailability.
  cbn [tick answered outage db].
  assert (Hfree : filter (reservedWithin productId (toISODate startDate) (toISODate endDate))
                         (DB.rental_calendar
                            (releaseCalendar rentalId
                               (setRentalStatus rentalId returned returnedAt (db s))))
                  = []).
  { apply filter_none. intros e' Hin.
    unfold releaseCalendar, setRentalStatus in Hin. cbn in Hin.
    apply in_map_iff in Hin. destruct Hin as (e & He & Hin).
    destruct (reservedWithin _ _ _ e') eqn:Hres; [|reflexivity].
    destruct (String.eqb_spec (CalendarRow.rental_id e) rentalId) as [Hid | Hne].
    - subst e'. apply reservedWithin_iff in Hres. cbn in Hres.
      destruct Hres as (_ & Hst & _). discriminate.
    - subst e'. elim Hne. now apply Hown. }
  destruct (outage s (S (S (tick s)))); cbn [fst tick answered outage db setRentals];
    rewrite Ho3, Hfree; reflexivity.
Qed.

Lemma returned_days_are_free_witness :
  fst (run (updateRentalStatus "r1" returned None ;;
            checkProductAvailability "p1" (parseISODate june10) (parseISODate june10))
           rented)
  = Resolved true.
Proof.
  apply (returned_days_are_free "r1" "p1" None (parseISODate june10)
                                (parseISODate june10) rented);
    try reflexivity.
  intros e [<- | []] _. reflexivity.
Defined.

(** X15.  [updateRentalStatus] is not all or nothing.  When the store
    refuses the status update the call throws and nothing is written.
    When the store takes the status [returned] and refuses the calendar
    update, the call still succeeds: the rental is stored as returned and
    its calendar is left as it was, reserved days included. *)
Theorem return_without_release
    (rentalId : string) (returnedAt : option Date) (s : State) :
  (outage s (tick s) = true ->
   forall st,
     exists s',
       run (updateRentalStatus rentalId st returnedAt) s = (Rejected PostgrestError, s')
       /\ db s' = db s)
  /\ (outage s (tick s) = false ->
      outage s (S (tick s)) = true ->
      exists s',
        run (updateRentalStatus rentalId returned returnedAt) s = (Resolved tt, s')
        /\ DB.rental_calendar (db s') = DB.rental_calendar (db s)
        /\ forall row, In row (DB.rentals (db s')) ->
                       RentalRow.id row = rentalId ->
                       RentalRow.status row = returned).
Proof.
  split.
  - intros Ho0 st. unfold updateRentalStatus.
    rewrite run_bind, run_supabase, Ho0. cbn [run].
    eexists; split; reflexivity.
  - intros Ho0 Ho1.
    rewrite (run_updateRentalStatus_returned _ _ _ Ho0). cbv zeta.
    rewrite Ho1, run_loadRentals.
    eexists; split; [reflexivity|].
    match goal with
    | |- context [db (if ?c then answered ?d ?st else ?e)] =>
        replace (db (if c then answered d st else e)) with d by (now destruct c)
    end.
    split; [reflexivity|].
    intros row Hin Hid.
    apply (In_setRentalStatus rentalId returned returnedAt (db s)); assumption.
Qed.

Lemma return_without_release_witness :
  (exists s',
      run (updateRentalStatus "r1" cancelled None) (withStore (db rented) (shop (outageAt 0)))
      = (Rejected PostgrestError, s')
      /\ db s' = db (withStore (db rented) (shop (outageAt 0))))
  /\ (exists s',
        run (updateRentalStatus "r1" returned None)
            (withStore (db rented) (shop (outageAt 1)))
        = (Resolved tt, s')
        /\ DB.rental_calendar (db s')
           = DB.rental_calendar (db (withStore (db rented) (shop (outageAt 1))))
        /\ forall row, In row (DB.rentals (db s')) ->
                       RentalRow.id row = "r1"%string ->
                       RentalRow.status row = returned).
Proof.
  split.
  - apply (proj1 (return_without_release
                    "r1" None (withStore (db rented) (shop (outageAt 0))))
                 eq_refl cancelled).
  - apply (proj2 (return_without_release
                    "r1" None (withStore (db rented) (shop (outageAt 1)))));
      reflexivity.
Defined.

(** ** The month view *)

Lemma pushAvailable_acc (toDateString : Date -> string) (tz : TimeZone)
    (reservedDays : list Date) (lastDate : Date) :
  forall (fuel : nat) (currentDate : Date) (acc : list Date),
    pushAvailable toDateString tz fuel reservedDays currentDate lastDate acc
    = acc ++ pushAvailable toDateString tz fuel reservedDays currentDate lastDate [].
Proof.
  induction fuel as [|fuel IH]; intros currentDate acc; simpl.
  - now rewrite app_nil_r.
  - destruct (currentDate <=? lastDate); [|now rewrite app_nil_r].
    destruct (negb (existsb _ reservedDays)).
    + rewrite IH, (IH _ [_]). now rewrite <- app_assoc.
    + apply IH.
Qed.

(** Where a local day is 24 hours, the loop over the month is a filter
    over its days. *)
Lemma pushAvailable_filter (toDateString : Date -> string) (tz : TimeZone)
    (reservedDays : list Date) (lastDate : Date) :
  fixedOffset tz ->
  forall (fuel : nat) (currentDate : Date),
    Z.of_nat fuel = Z.max 0 ((lastDate - currentDate) / msPerDay + 1) ->
    pushAvailable toDateString tz fuel reservedDays currentDate lastDate []
    = filter (fun d => negb (existsb (fun date => String.eqb (toDateString date)
                                                             (toDateString d))
                                     reservedDays))
             (map (fun k => currentDate + Z.of_nat k * msPerDay) (seq 0 fuel)).
Proof.
  intros Htz.
  induction fuel as [|fuel IH]; intros currentDate Hfuel; [reflexivity|].
  assert (Hle : currentDate <= lastDate).
  { unfold msPerDay in Hfuel. Z.div_mod_to_equations. lia. }
  simpl pushAvailable. apply Z.leb_le in Hle. rewrite Hle.
  rewrite (addOneDay_fixedOffset tz currentDate Htz).
  rewrite pushAvailable_acc, IH.
  - cbn [seq map filter]. rewrite Z.add_0_r.
    rewrite <- seq_shift, map_map.
    erewrite (map_ext (fun k => currentDate + Z.of_nat (S k) * msPerDay));
      [destruct (negb (existsb _ reservedDays)); reflexivity|].
    intros k. lia.
  - apply Z.leb_le in Hle.
    unfold msPerDay in *. Z.div_mod_to_equations. lia.
Qed.

Lemma filter_twice {A : Type} (f g : A -> bool) (l : list A) :
  filter f (filter g l) = filter (fun x => g x && f x) l.
Proof.
  induction l as [|x l IH]; simpl; [reflexivity|].
  destruct (g x); simpl; [destruct (f x)|]; now rewrite IH.
Qed.



(** ** The statistics *)

Lemma filter_length_le_of {A : Type} (f g : A -> bool) (l : list A) :
  (forall x, f x = true -> g x = true) ->
  (List.length (filter f l) <= List.length (filter g l))%nat.
Proof.
  intros Hfg. induction l as [|x l IH]; simpl; [lia|].
  destruct (f x) eqn:Hf.
  - rewrite (Hfg x Hf). simpl. lia.
  - destruct (g x); simpl; lia.
Qed.

Lemma sales_and_rentals_split (l : list Transaction.t) :
  (List.length (filter (fun t => TransactionType_eqb (Transaction.type t) sale) l)
   + List.length (filter (fun t => TransactionType_eqb (Transaction.type t) rental) l)
   = List.length l)%nat.
Proof.
  induction l as [|t l IH]; simpl; [reflexivity|].
  destruct (Transaction.type t); simpl; lia.
Qed.

Lemma run_getStats (endOfDay : Date -> Date) (dateFrom dateTo : option Date) (s : State) :
  run (getStats endOfDay dateFrom dateTo) s
  = let filteredTransactions :=
      if outage s (tick s) then []
      else filter (fun t => createdWithin endOfDay dateFrom dateTo (Transaction.createdAt t))
                  (DB.transactions (db s)) in
    let filteredRentals :=
      if outage s (S (tick s)) then []
      else filter (fun r => createdWithin endOfDay dateFrom dateTo (RentalRow.created_at r))
                  (DB.rentals (db s)) in
    let nbActive :=
      List.length (filter (fun r => RentalStatus_eqb (RentalRow.status r) active)
                          filteredRentals) in
    (Resolved (mkStats
       (List.length (filter (fun t => TransactionType_eqb (Transaction.type t) sale)
                            filteredTransactions))
       (List.length (filter (fun t => TransactionType_eqb (Transaction.type t) rental)
                            filteredTransactions))
       (fold_left (fun sum t => sum + orNum (Transaction.amountPaid t)
                                            (Transaction.totalAmount t))
                  filteredTransactions 0)
       (List.length (filter (fun p => Product.stock p <=? 2) (products s)))
       (List.length (products s))
       nbActive nbActive
       (List.length (filter (isOverdue (clock s)) filteredRentals))),
     answered (db s) (answered (db s) s)).
Proof.
  unfold getStats, getState.
  rewrite run_bind, run_supabase.
  destruct (outage s (tick s)); cbn [fst snd select];
    rewrite run_bind, run_supabase; cbn [tick answered outage db];
    destruct (outage s (S (tick s))); reflexivity.
Qed.

(** X17.  The figures of [getStats] hang together whatever the store
    holds and does: overdue rentals are among the active ones, pending
    returns are the active rentals, sales and rental transactions add up
    to the transactions read, low-stock products are among the products
    in memory; and a query that fails counts as no row, so the figures
    drawn from it are 0 instead of an error. *)
Theorem stats_are_consistent
    (endOfDay : Date -> Date) (dateFrom dateTo : option Date) (s : State) :
  exists stats,
    fst (run (getStats endOfDay dateFrom dateTo) s) = Resolved stats
    /\ (overdueRentals stats <= activeRentals stats)%nat
    /\ pendingReturns stats = activeRentals stats
    /\ (lowStockItems stats <= totalProducts stats)%nat
    /\ totalProducts stats = List.length (products s)
    /\ (outage s (tick s) = false ->
        (totalSales stats + totalRentals stats)%nat
        = List.length (filter (fun t => createdWithin endOfDay dateFrom dateTo
                                          (Transaction.createdAt t))
                              (DB.transactions (db s))))
    /\ (outage s (tick s) = true ->
        totalSales stats = 0%nat /\ totalRentals stats = 0%nat /\ revenue stats = 0)
    /\ (outage s (S (tick s)) = true ->
        activeRentals stats = 0%nat /\ overdueRentals stats = 0%nat).
Proof.
  rewrite run_getStats. cbv zeta. eexists; split; [reflexivity|].
  cbn [overdueRentals activeRentals pendingReturns lowStockItems totalProducts
       totalSales totalRentals revenue].
  split.
  { apply filter_length_le_of. intros r Hr. apply isOverdue_iff in Hr.
    destruct Hr as [-> _]. reflexivity. }
  split; [reflexivity|].
  split; [apply filter_length_le|].
  split; [reflexivity|].
  split; [intros ->; apply sales_and_rentals_split|].
  split; intros ->; repeat split.
Qed.

Lemma stats_are_consistent_witness :
  exists stats,
    fst (run (getStats utcEndOfDay None None) (withStore (db rented) (shop (outageAt 0))))
    = Resolved stats
    /\ totalSales stats = 0%nat /\ totalRentals stats = 0%nat /\ revenue stats = 0
    /\ activeRentals stats = 1%nat.
Proof.
  destruct (stats_are_consistent utcEndOfDay None None
              (withStore (db rented) (shop (outageAt 0))))
    as (stats & Hrun & _ & _ & _ & _ & _ & Hzero & _).
  exists stats. split; [exact Hrun|].
  destruct (Hzero eq_refl) as (H1 & H2 & H3).
  split; [exact H1|]. split; [exact H2|]. split; [exact H3|].
  vm_compute in Hrun. injection Hrun as <-. reflexivity.
Defined.

(** ** What the provider shows after a load *)

(** X18.  A load that the store refuses leaves the in-memory copy as it
    was, stale or not; a load that is answered replaces it.  After an
    answered [loadTransactions] the transactions in memory are the rows of
    the store newest first, each as [formatTransaction] reads it: no row
    comes before a newer one (which fixes the list when no two rows were
    created at the same instant), no transaction with a total other than
    0 shows 0 as amount paid, and each has a payment status.  After an
    answered [loadRentals] the rentals in memory are, newest first, those
    whose product is in the store.  Neither load writes to the store. *)
Theorem after_a_load (s : State) :
  (outage s (tick s) = true ->
   transactions (snd (run loadTransactions s)) = transactions s
   /\ rentals (snd (run loadRentals s)) = rentals s)
  /\ (outage s (tick s) = false ->
      (NoDup (map Transaction.createdAt (DB.transactions (db s))) ->
       transactions (snd (run loadTransactions s))
       = map formatTransaction
             (newestFirst Transaction.createdAt (DB.transactions (db s))))
      /\ StronglySorted
           (fun a b => Transaction.createdAt b <= Transaction.createdAt a)
           (transactions (snd (run loadTransactions s)))
      /\ (forall t, In t (transactions (snd (run loadTransactions s))) <->
                    exists row, In row (DB.transactions (db s))
                                /\ t = formatTransaction row)
      /\ (forall t, In t (transactions (snd (run loadTransactions s))) ->
                    Transaction.paymentStatus t <> None
                    /\ (Transaction.amountPaid t = 0 -> Transaction.totalAmount t = 0))
      /\ (NoDup (map RentalRow.created_at (DB.rentals (db s))) ->
          rentals (snd (run loadRentals s))
          = map formatRental
                (newestFirst RentalRow.created_at (rentalsWithProduct (db s))))
      /\ StronglySorted
           (fun a b => Rental.createdAt b <= Rental.createdAt a)
           (rentals (snd (run loadRentals s)))
      /\ (forall r, In r (rentals (snd (run loadRentals s))) ->
                    exists row p,
                      In row (DB.rentals (db s)) /\ In p (DB.products (db s))
                      /\ r = formatRental row
                      /\ Product.id p = RentalRow.product_id row))
  /\ db (snd (run loadTransactions s)) = db s
  /\ db (snd (run loadRentals s)) = db s.
Proof.
  rewrite run_loadTransactions, run_loadRentals. cbn [snd].
  split; [|split].
  - intros ->. split; reflexivity.
  - intros ->. cbn [transactions rentals setTransactions setRentals answered].
    split; [reflexivity|]. split; [|split; [|split; [|split; [reflexivity|split]]]].
    + apply (sorted_map Transaction.createdAt); [reflexivity|].
      apply newestFirst_sorted.
    + intros t. rewrite in_map_iff. split.
      * intros (row & <- & Hin). apply In_newestFirst in Hin. eauto.
      * intros (row & Hin & ->). exists row. split; [reflexivity|].
        apply In_newestFirst. exact Hin.
    + intros t Hin. apply in_map_iff in Hin. destruct Hin as (t0 & <- & _).
      cbn. split; [discriminate|]. unfold orNum.
      destruct (Z.eqb_spec (Transaction.amountPaid t0) 0); [auto | contradiction].
    + apply (sorted_map RentalRow.created_at); [reflexivity|].
      apply newestFirst_sorted.
    + intros r Hin. apply in_map_iff in Hin. destruct Hin as (row & <- & Hin).
      apply In_newestFirst in Hin.
      unfold rentalsWithProduct in Hin. apply filter_In in Hin.
      destruct Hin as [Hin Hex]. apply existsb_exists in Hex.
      destruct Hex as (p & Hp & Hid). apply String.eqb_eq in Hid.
      exists row, p. auto.
  - destruct (outage s (tick s)); split; reflexivity.
Qed.

Lemma after_a_load_witness :
  let older := Transaction.withIdentity (saleOf 1 500 200) "t1" 1000 in
  let newer := Transaction.withIdentity (saleOf 1 300 300) "t2" 2000 in
  let s := withStore (DB.mk [robe] [older; newer] [] [] []) (shop noOutage) in
  (transactions (snd (run loadTransactions (ledger 500 200 (outageAt 0))))
   = transactions (ledger 500 200 (outageAt 0))
   /\ rentals (snd (run loadRentals (ledger 500 200 (outageAt 0))))
      = rentals (ledger 500 200 (outageAt 0)))
  /\ transactions (snd (run loadTransactions s))
     = map formatTransaction (newestFirst Transaction.createdAt [older; newer]).
Proof.
  split.
  - apply (proj1 (after_a_load (ledger 500 200 (outageAt 0)))). reflexivity.
  - apply (proj1 (proj2 (after_a_load
                           (withStore
                              (DB.mk [robe]
                                 [Transaction.withIdentity (saleOf 1 500 200) "t1" 1000;
                                  Transaction.withIdentity (saleOf 1 300 300) "t2" 2000]
                                 [] [] [])
                              (shop noOutage)))) eq_refl).
    cbn. repeat constructor; cbn; intuition discriminate.
Defined.

(** Two sales stored oldest first are shown newest first. *)
Example loaded_newest_first :
  let older := Transaction.withIdentity (saleOf 1 500 200) "t1" 1000 in
  let newer := Transaction.withIdentity (saleOf 1 300 300) "t2" 2000 in
  let s := withStore (DB.mk [robe] [older; newer] [] [] []) (shop noOutage) in
  map Transaction.id (transactions (snd (run loadTransactions s)))
  = ["t2"%string; "t1"%string].
Proof. vm_compute. reflexivity. Qed.

(** ** A rental on its way to the store and back *)

Lemma toISODate_parseISODate (day : IsoDate) : toISODate (parseISODate day) = day.
Proof. unfold toISODate, parseISODate, msPerDay. now rewrite Z.div_mul. Qed.

Lemma timeOfDay_parseISODate (day : IsoDate) : timeOfDay (parseISODate day) = 0.
Proof. unfold timeOfDay, parseISODate, msPerDay. now rewrite Z.mod_mul. Qed.

Lemma orNum_twice (x dflt : Z) : orNum (orNum x dflt) dflt = orNum x dflt.
Proof.
  unfold orNum. destruct (Z.eqb_spec x 0) as [_ | Hx].
  - now destruct (dflt =? 0).
  - apply Z.eqb_neq in Hx. now rewrite Hx.
Qed.

(** X19.  Stored and loaded back, a rental keeps the days of its start and
    of its end and loses their time of day: both dates come back as
    midnight UTC.  The amounts come back as stored, and storing the loaded
    rental again would write the same row. *)
Theorem rental_round_trip (rentalData : Rental.t) (newId : string) (now : Date) :
  let loaded := formatRental (rentalRow rentalData newId now) in
  toISODate (Rental.rentalStartDate loaded) = toISODate (Rental.rentalStartDate rentalData)
  /\ toISODate (Rental.rentalEndDate loaded) = toISODate (Rental.rentalEndDate rentalData)
  /\ timeOfDay (Rental.rentalStartDate loaded) = 0
  /\ timeOfDay (Rental.rentalEndDate loaded) = 0
  /\ Rental.rentalStartDate loaded <= Rental.rentalStartDate rentalData
  /\ Rental.amountPaid loaded
     = RentalRow.amount_paid (rentalRow rentalData newId now)
  /\ rentalRow loaded newId now = rentalRow rentalData newId now.
Proof.
  cbv zeta. unfold formatRental, rentalRow. cbn.
  rewrite !toISODate_parseISODate, !timeOfDay_parseISODate, !orNum_twice.
  repeat split.
  unfold parseISODate, toISODate, msPerDay. Z.div_mod_to_equations. lia.
Qed.

(** ** The catalogue *)

Lemma run_loadProducts (st : State) :
  run loadProducts st
  = (Resolved tt,
     if outage st (tick st) then answered (db st) st
     else setProducts (newestFirst Product.createdAt (DB.products (db st)))
                      (answered (db st) st)).
Proof.
  unfold loadProducts. rewrite run_bind, run_supabase.
  destruct (outage st (tick st)); reflexivity.
Qed.

(** X20.  [updateProduct], answered by the store, touches the rows of the
    given id only and never an id.  An empty string given as name is
    ignored, the names stay; a stock given is written as it is, negative
    or not (no floor at 0 here); and with no field given the products are
    what they were, the call succeeding all the same. *)
Theorem updateProduct_edges (productId : string) (productData : ProductPatch.t)
    (s : State) :
  outage s (tick s) = false ->
  exists s',
    run (updateProduct productId productData) s = (Resolved tt, s')
    /\ map Product.id (DB.products (db s')) = map Product.id (DB.products (db s))
    /\ (forall p, In p (DB.products (db s)) -> Product.id p <> productId ->
                  In p (DB.products (db s')))
    /\ (ProductPatch.name productData = Some EmptyString ->
        map Product.name (DB.products (db s')) = map Product.name (DB.products (db s)))
    /\ (forall n, ProductPatch.stock productData = Some n ->
                  forall row, In row (DB.products (db s')) ->
                              Product.id row = productId -> Product.stock row = n)
    /\ (productData = noPatch -> DB.products (db s') = DB.products (db s)).
Proof.
  intros Ho. unfold updateProduct.
  rewrite run_bind, run_supabase, Ho. cbn [fst snd update].
  rewrite run_loadProducts. eexists; split; [reflexivity|].
  match goal with
  | |- context [db (if ?c then answered ?d ?st else ?e)] =>
      replace (db (if c then answered d st else e)) with d by (now destruct c)
  end.
  cbn [db answered DB.products DB.withProducts].
  split; [|split; [|split; [|split]]].
  - rewrite map_map. apply map_ext. intros p.
    now destruct (String.eqb (Product.id p) productId).
  - intros p Hin Hne. apply in_map_iff. exists p. split; [|exact Hin].
    destruct (String.eqb_spec (Product.id p) productId); [contradiction | reflexivity].
  - intros Hname. rewrite map_map. apply map_ext. intros p.
    destruct (String.eqb (Product.id p) productId); [|reflexivity].
    cbn. now rewrite Hname.
  - intros n Hstock row Hin Hid.
    apply in_map_iff in Hin. destruct Hin as (p & Hp & _).
    destruct (String.eqb_spec (Product.id p) productId) as [_ | Hne].
    + subst row. cbn. now rewrite Hstock.
    + subst row. contradiction.
  - intros ->. rewrite <- (map_id (DB.products (db s))) at 2.
    apply map_ext. intros p.
    destruct (String.eqb (Product.id p) productId); [|reflexivity].
    now destruct p.
Qed.

Lemma updateProduct_edges_witness :
  exists s',
    run (updateProduct "p1" (ProductPatch.mk (Some EmptyString) None None None None
                                             None None None (Some (-4)) None None None))
        (shop noOutage)
    = (Resolved tt, s')
    /\ map Product.name (DB.products (db s')) = map Product.name (DB.products (db (shop noOutage)))
    /\ forall row, In row (DB.products (db s')) ->
                   Product.id row = "p1"%string -> Product.stock row = -4.
Proof.
  destruct (updateProduct_edges "p1"
              (ProductPatch.mk (Some EmptyString) None None None None
                               None None None (Some (-4)) None None None)
              (shop noOutage) eq_refl)
    as (s' & Hrun & _ & _ & Hname & Hstock & _).
  exists s'. split; [exact Hrun|]. split; [apply Hname; reflexivity|].
  apply (Hstock (-4)). reflexivity.
Defined.

(** X21.  [deleteProduct], answered by the store and followed by an
    answered reload, removes every product of the given id from the store
    and from memory and keeps the others: the products in memory are then
    those of the store, newest first, no product before a newer one (which
    fixes the list when no two products were created at the same
    instant); from then on a stock change for that id is a silent no-op.
    Refused by the store, it throws and nothing is changed. *)
Theorem deleteProduct_removes (productId : string) (s : State) :
  (outage s (tick s) = false ->
   outage s (S (tick s)) = false ->
   exists s',
     run (deleteProduct productId) s = (Resolved tt, s')
     /\ (forall p, In p (DB.products (db s')) -> Product.id p <> productId)
     /\ (forall p, In p (DB.products (db s)) -> Product.id p <> productId ->
                   In p (DB.products (db s')))
     /\ (NoDup (map Product.createdAt (DB.products (db s'))) ->
         products s' = newestFirst Product.createdAt (DB.products (db s')))
     /\ StronglySorted (fun a b => Product.createdAt b <= Product.createdAt a)
                       (products s')
     /\ (forall p, In p (products s') <-> In p (DB.products (db s')))
     /\ forall quantity, run (updateStock productId quantity) s' = (Resolved tt, s'))
  /\ (outage s (tick s) = true ->
      exists s',
        run (deleteProduct productId) s = (Rejected PostgrestError, s')
        /\ db s' = db s /\ products s' = products s).
Proof.
  split.
  - intros Ho0 Ho1. unfold deleteProduct.
    rewrite run_bind, run_supabase, Ho0. cbn [fst snd update].
    rewrite run_loadProducts. cbn [tick answered outage db]. rewrite Ho1.
    eexists; split; [reflexivity|].
    cbn [db products setProducts answered DB.products DB.withProducts].
    assert (Hgone : forall p,
               In p (filter (fun p => negb (String.eqb (Product.id p) productId))
                            (DB.products (db s))) ->
               Product.id p <> productId).
    { intros p Hin. apply filter_In in Hin. destruct Hin as [_ Hne].
      destruct (String.eqb_spec (Product.id p) productId); [discriminate | assumption]. }
    split; [exact Hgone|].
    split; [|split; [reflexivity|split; [apply newestFirst_sorted|split]]].
    + intros p Hin Hne. apply filter_In. split; [exact Hin|].
      destruct (String.eqb_spec (Product.id p) productId); [contradiction | reflexivity].
    + intros p. apply In_newestFirst.
    + intros quantity. rewrite run_updateStock.
      cbn [products setProducts].
      destruct (find _ _) as [p|] eqn:Hfind; [|reflexivity].
      apply find_some in Hfind. destruct Hfind as [Hin Hid].
      apply In_newestFirst in Hin.
      apply String.eqb_eq in Hid. elim (Hgone p Hin Hid).
  - intros Ho0. unfold deleteProduct.
    rewrite run_bind, run_supabase, Ho0. cbn [run].
    eexists; split; [reflexivity|]. split; reflexivity.
Qed.

Lemma deleteProduct_removes_witness :
  exists s',
    run (deleteProduct "p1") (shop noOutage) = (Resolved tt, s')
    /\ (forall p, In p (DB.products (db s')) -> Product.id p <> "p1"%string)
    /\ (forall p, In p (DB.products (db (shop noOutage))) ->
                  Product.id p <> "p1"%string -> In p (DB.products (db s')))
    /\ (NoDup (map Product.createdAt (DB.products (db s'))) ->
        products s' = newestFirst Product.createdAt (DB.products (db s')))
    /\ StronglySorted (fun a b => Product.createdAt b <= Product.createdAt a)
                      (products s')
    /\ (forall p, In p (products s') <-> In p (DB.products (db s')))
    /\ forall quantity, run (updateStock "p1" quantity) s' = (Resolved tt, s').
Proof.
  apply (proj1 (deleteProduct_removes "p1" (shop noOutage))); reflexivity.
Defined.

(** X22.  A product added and then deleted leaves the catalogue of the
    store as it was, provided the identifier that the store generated for
    it was not in use: with the insert and the delete answered, the
    products after [addProduct] followed by [deleteProduct] of the new id
    are the products before. *)
Theorem add_then_delete_product (productData : ProductData) (s : State) :
  (forall p, In p (DB.products (db s)) -> Product.id p <> uuid s (tick s)) ->
  outage s (tick s) = false ->
  outage s (S (S (tick s))) = false ->
  fst (run (addProduct productData ;; deleteProduct (uuid s (tick s))) s) = Resolved tt
  /\ DB.products (db (snd (run (addProduct productData ;;
                                deleteProduct (uuid s (tick s))) s)))
     = DB.products (db s).
Proof.
  intros Hfresh Ho0 Ho2.
  assert (Hkeep : filter (fun p => negb (String.eqb (Product.id p) (uuid s (tick s))))
                         (DB.products (db s)
                            ++ [productRow productData (uuid s (tick s)) (clock s)])
                  = DB.products (db s)).
  { rewrite filter_app. cbn. rewrite String.eqb_refl. cbn. rewrite app_nil_r.
    induction (DB.products (db s)) as [|p l IH]; [reflexivity|]. cbn.
    destruct (String.eqb_spec (Product.id p) (uuid s (tick s))) as [Heq | _].
    - elim (Hfresh p (or_introl eq_refl) Heq).
    - cbn. f_equal. apply IH. intros q Hq. apply Hfresh. now right. }
  assert (Hrun : exists s',
             run (addProduct productData ;; deleteProduct (uuid s (tick s))) s
             = (Resolved tt, s')
             /\ DB.products (db s') = DB.products (db s)).
  { rewrite run_bind. unfold addProduct.
    rewrite run_bind, run_supabaseInsert, Ho0. cbn [fst snd].
    rewrite run_loadProducts. cbn [tick answered outage db].
    unfold deleteProduct. rewrite run_bind, run_supabase.
    destruct (outage s (S (tick s)));
      cbn [tick answered outage db setProducts]; rewrite Ho2;
      cbn [fst snd update]; rewrite run_loadProducts;
      (eexists; split; [reflexivity|]);
      match goal with
      | |- context [db (if ?c then answered ?d ?st else ?e)] =>
          replace (db (if c then answered d st else e)) with d by (now destruct c)
      end;
      cbn [db answered DB.products DB.withProducts]; exact Hkeep. }
  destruct Hrun as (s' & -> & Hdb). split; [reflexivity | exact Hdb].
Qed.

Lemma add_then_delete_product_witness :
  fst (run (addProduct caftan ;; deleteProduct (uuid (shop noOutage) 0)) (shop noOutage))
  = Resolved tt
  /\ DB.products (db (snd (run (addProduct caftan ;;
                                deleteProduct (uuid (shop noOutage) 0)) (shop noOutage))))
     = DB.products (db (shop noOutage)).
Proof.
  apply (add_then_delete_product caftan (shop noOutage)); try reflexivity.
  intros p [<- | []]. vm_compute. discriminate.
Defined.

(** ** Customer statistics *)

Lemma fold_left_plus {A : Type} (f : A -> Z) (l : list A) (a : Z) :
  fold_left (fun sum x => sum + f x) l a
  = a + fold_right (fun x sum => f x + sum) 0 l.
Proof.
  revert a. induction l as [|x l IH]; intros a; simpl; [lia|].
  rewrite IH. lia.
Qed.



(** A record with nothing paid is counted twice, as spent and as pending. *)
Example unpaid_counts_twice :
  totalSpent (calculateCustomerStats [unpaidSale] []) = 9000
  /\ pendingAmount (calculateCustomerStats [unpaidSale] []) = 9000
  /\ billed [unpaidSale] [] = 9000.
Proof. repeat split. Qed.

(** ** Users and sessions *)

Lemma single_some {A : Type} (rows : list A) (row : A) :
  Auth.single rows = Some row <-> rows = [row].
Proof.
  destruct rows as [|x [|y rest]]; simpl; split; intros H;
    try discriminate; congruence.
Qed.

Lemma login_session (email password : string) (w : Auth.World) :
  fst (Auth.login email password w) = true ->
  exists row,
    filter (Auth.credentialsMatch email password) (Auth.table w) = [row]
    /\ In row (Auth.table w)
    /\ Auth.User.email row = email
    /\ Auth.User.password row = Some password
    /\ Auth.User.isActive row = true
    /\ Auth.user (snd (Auth.login email password w))
       = Some (Auth.User.mk (Auth.User.id row) (Auth.User.name row)
                            (Auth.User.email row) (Auth.User.role row)
                            (Auth.User.isActive row) (Auth.User.createdAt row) None).
Proof.
  unfold Auth.login.
  destruct (Auth.outage w (Auth.tick w)); [discriminate|].
  destruct (Auth.single _) as [data|] eqn:Hsingle; cbn; [|discriminate].
  intros _. apply single_some in Hsingle. exists data.
  assert (Hin : In data (filter (Auth.credentialsMatch email password) (Auth.table w)))
    by (rewrite Hsingle; left; reflexivity).
  apply filter_In in Hin. destruct Hin as [Hin Hm].
  unfold Auth.credentialsMatch in Hm.
  apply andb_true_iff in Hm. destruct Hm as [Hm Hact].
  apply andb_true_iff in Hm. destruct Hm as [Hemail Hpw].
  apply String.eqb_eq in Hemail.
  destruct (Auth.User.password data) as [stored|]; [|discriminate].
  apply String.eqb_eq in Hpw. subst stored. auto 10.
Qed.

(** X24.  [login] answers [true] exactly when the store answers and one
    and only one active row has the email and the password given.  The
    session user is then that row without its password.  A login that
    fails leaves the session as it was, a user logged in before stays
    logged in; and [login] never writes to the table. *)
Theorem login_needs_exactly_one (email password : string) (w : Auth.World) :
  (fst (Auth.login email password w) = true
   <-> Auth.outage w (Auth.tick w) = false
       /\ exists row,
            filter (Auth.credentialsMatch email password) (Auth.table w) = [row])
  /\ (fst (Auth.login email password w) = true ->
      exists row,
        In row (Auth.table w)
        /\ Auth.User.email row = email
        /\ Auth.User.password row = Some password
        /\ Auth.User.isActive row = true
        /\ Auth.user (snd (Auth.login email password w))
           = Some (Auth.User.mk (Auth.User.id row) (Auth.User.name row)
                                (Auth.User.email row) (Auth.User.role row)
                                (Auth.User.isActive row) (Auth.User.createdAt row) None))
  /\ (fst (Auth.login email password w) = false ->
      Auth.user (snd (Auth.login email password w)) = Auth.user w)
  /\ Auth.table (snd (Auth.login email password w)) = Auth.table w.
Proof.
  unfold Auth.login.
  destruct (Auth.outage w (Auth.tick w)).
  { cbn. repeat split; try discriminate. intros [H _]. discriminate. }
  destruct (Auth.single _) as [data|] eqn:Hsingle; cbn.
  - apply single_some in Hsingle.
    split; [split; [eauto | reflexivity]|].
    split; [|split; [discriminate | reflexivity]].
    intros _. exists data.
    assert (Hin : In data (filter (Auth.credentialsMatch email password) (Auth.table w)))
      by (rewrite Hsingle; left; reflexivity).
    apply filter_In in Hin. destruct Hin as [Hin Hm].
    unfold Auth.credentialsMatch in Hm.
    apply andb_true_iff in Hm. destruct Hm as [Hm Hact].
    apply andb_true_iff in Hm. destruct Hm as [Hemail Hpw].
    apply String.eqb_eq in Hemail.
    destruct (Auth.User.password data) as [stored|]; [|discriminate].
    apply String.eqb_eq in Hpw. subst stored. auto.
  - split; [|split; [discriminate | split; reflexivity]].
    split; [discriminate|]. intros [_ [row Hrow]].
    apply single_some in Hrow. congruence.
Qed.

Lemma login_needs_exactly_one_witness :
  exists row,
    In row (Auth.table (staff noOutage))
    /\ Auth.User.email row = "admin@boutique.com"%string
    /\ Auth.User.password row = Some "hamaza44"%string
    /\ Auth.User.isActive row = true
    /\ Auth.user (snd (Auth.login "admin@boutique.com" "hamaza44" (staff noOutage)))
       = Some (Auth.User.mk (Auth.User.id row) (Auth.User.name row)
                            (Auth.User.email row) (Auth.User.role row)
                            (Auth.User.isActive row) (Auth.User.createdAt row) None).
Proof.
  apply (proj1 (proj2 (login_needs_exactly_one "admin@boutique.com" "hamaza44"
                                               (staff noOutage)))).
  reflexivity.
Defined.

Lemma run_onUser (userId : string) (change : Auth.User.t -> Auth.User.t) (w : Auth.World) :
  Auth.outage w (Auth.tick w) = false ->
  fst (Auth.onUser userId change w) = Resolved tt
  /\ Auth.table (snd (Auth.onUser userId change w))
     = map (fun row => if String.eqb (Auth.User.id row) userId then change row else row)
           (Auth.table w)
  /\ Auth.user (snd (Auth.onUser userId change w)) = Auth.user w
  /\ Auth.outage (snd (Auth.onUser userId change w)) = Auth.outage w
  /\ Auth.tick (snd (Auth.onUser userId change w)) = S (S (Auth.tick w))
  /\ (Auth.outage w (S (Auth.tick w)) = false ->
      Auth.users (snd (Auth.onUser userId change w))
      = newestFirst Auth.User.createdAt
          (filter Auth.User.isActive (Auth.table (snd (Auth.onUser userId change w))))).
Proof.
  intros Ho. unfold Auth.onUser, Auth.loadUsers. rewrite Ho.
  cbn [fst snd Auth.answered Auth.setUsers Auth.table Auth.user Auth.users
       Auth.outage Auth.tick].
  destruct (Auth.outage w (S (Auth.tick w)));
    cbn [fst snd Auth.answered Auth.setUsers Auth.table Auth.user Auth.users
         Auth.outage Auth.tick];
    repeat split; discriminate.
Qed.

(** X25.  [deleteUser] deactivates, it does not delete.  Answered by the
    store, it keeps every row and every id and marks the rows of the
    given id inactive; no login can open a session for that id any more,
    whatever the email and password tried, and after an answered reload
    the id is out of the in-memory users.  The session of the moment is
    not touched: a deactivated user who is logged in stays logged in. *)
Theorem deleted_user_is_locked_out (userId : string) (w : Auth.World) :
  Auth.outage w (Auth.tick w) = false ->
  let w' := snd (Auth.deleteUser userId w) in
  fst (Auth.deleteUser userId w) = Resolved tt
  /\ map Auth.User.id (Auth.table w') = map Auth.User.id (Auth.table w)
  /\ (forall email password u,
        fst (Auth.login email password w') = true ->
        Auth.user (snd (Auth.login email password w')) = Some u ->
        Auth.User.id u <> userId)
  /\ (Auth.outage w (S (Auth.tick w)) = false ->
      forall u, In u (Auth.users w') -> Auth.User.id u <> userId)
  /\ Auth.user w' = Auth.user w.
Proof.
  intros Ho. cbv zeta. unfold Auth.deleteUser.
  destruct (run_onUser userId
              (fun row => Auth.User.mk (Auth.User.id row) (Auth.User.name row)
                            (Auth.User.email row) (Auth.User.role row) false
                            (Auth.User.createdAt row) (Auth.User.password row))
              w Ho) as (Hres & Htab & Huser & _ & _ & Husers).
  set (w' := snd (Auth.onUser userId _ w)) in *.
  assert (Hinactive : forall row, In row (Auth.table w') ->
                                  Auth.User.isActive row = true ->
                                  Auth.User.id row <> userId).
  { intros row Hin Hact Hid. rewrite Htab in Hin.
    apply in_map_iff in Hin. destruct Hin as (r0 & Hr0 & _).
    destruct (String.eqb_spec (Auth.User.id r0) userId) as [_ | Hne].
    - subst row. discriminate.
    - subst row. contradiction. }
  split; [exact Hres|]. split; [|split; [|split; [|exact Huser]]].
  - rewrite Htab, map_map. apply map_ext. intros row.
    now destruct (String.eqb (Auth.User.id row) userId).
  - intros email password u Hok Hu.
    destruct (login_session email password w' Hok)
      as (row & _ & Hin & _ & _ & Hact & Hsession).
    rewrite Hsession in Hu. injection Hu as <-. cbn.
    now apply Hinactive.
  - intros Ho1 u Hin. rewrite (Husers Ho1) in Hin.
    apply In_newestFirst in Hin.
    apply filter_In in Hin. destruct Hin as [Hin Hact]. now apply Hinactive.
Qed.

Lemma deleted_user_is_locked_out_witness :
  let w' := snd (Auth.deleteUser "u1" (staff noOutage)) in
  fst (Auth.deleteUser "u1" (staff noOutage)) = Resolved tt
  /\ map Auth.User.id (Auth.table w') = map Auth.User.id (Auth.table (staff noOutage))
  /\ (forall email password u,
        fst (Auth.login email password w') = true ->
        Auth.user (snd (Auth.login email password w')) = Some u ->
        Auth.User.id u <> "u1"%string)
  /\ (Auth.outage (staff noOutage) (S (Auth.tick (staff noOutage))) = false ->
      forall u, In u (Auth.users w') -> Auth.User.id u <> "u1"%string)
  /\ Auth.user w' = Auth.user (staff noOutage).
Proof.
  apply (deleted_user_is_locked_out "u1" (staff noOutage)). reflexivity.
Defined.

Lemma filter_of_map {A B : Type} (f : B -> bool) (g : A -> B) (l : list A) :
  filter f (map g l) = map g (filter (fun a => f (g a)) l).
Proof.
  induction l as [|a l IH]; simpl; [reflexivity|].
  destruct (f (g a)); simpl; now rewrite IH.
Qed.

(** In a table whose emails are pairwise distinct, selecting by the email
    of a row selects that row or nothing. *)
Lemma filter_by_email (l : list Auth.User.t) (row : Auth.User.t)
    (g : Auth.User.t -> bool) :
  NoDup (map Auth.User.email l) ->
  In row l ->
  filter (fun r => String.eqb (Auth.User.email r) (Auth.User.email row) && g r) l
  = if g row then [row] else [].
Proof.
  induction l as [|x l IH]; intros Hnd Hin; [contradiction|].
  cbn [map] in Hnd. apply NoDup_cons_iff in Hnd. destruct Hnd as [Hx Hnd].
  cbn [filter]. destruct Hin as [-> | Hin].
  - rewrite String.eqb_refl. cbn [andb].
    rewrite filter_none.
    + now destruct (g row).
    + intros y Hy.
      destruct (String.eqb_spec (Auth.User.email y) (Auth.User.email row)) as [He | _];
        [|reflexivity].
      elim Hx. rewrite <- He. now apply in_map.
  - destruct (String.eqb_spec (Auth.User.email x) (Auth.User.email row)) as [He | _].
    + elim Hx. rewrite He. now apply in_map.
    + cbn [andb]. now apply IH.
Qed.

(** X26.  A changed password takes effect at once and for that user only.
    In a table with pairwise distinct emails, once [changePassword] has
    been answered for the id of an active user, a login with the user's
    email and the new password succeeds and a login with the same email
    and any other password fails; the rows of other ids are untouched.
    [updateUser] and [deleteUser], for their part, leave every password
    as it is. *)
Theorem password_change_takes_effect
    (userId newPassword : string) (w : Auth.World) (row : Auth.User.t) :
  NoDup (map Auth.User.email (Auth.table w)) ->
  In row (Auth.table w) ->
  Auth.User.id row = userId ->
  Auth.User.isActive row = true ->
  Auth.outage w (Auth.tick w) = false ->
  Auth.outage w (S (S (Auth.tick w))) = false ->
  let w' := snd (Auth.changePassword userId newPassword w) in
  fst (Auth.login (Auth.User.email row) newPassword w') = true
  /\ (forall other, other <> newPassword ->
                    fst (Auth.login (Auth.User.email row) other w') = false)
  /\ (forall r, In r (Auth.table w) -> Auth.User.id r <> userId -> In r (Auth.table w'))
  /\ (forall userData,
        map Auth.User.password (Auth.table (snd (Auth.updateUser userId userData w)))
        = map Auth.User.password (Auth.table w))
  /\ map Auth.User.password (Auth.table (snd (Auth.deleteUser userId w)))
     = map Auth.User.password (Auth.table w).
Proof.
  intros Hnd Hin Hid Hact Ho0 Ho2. cbv zeta.
  assert (Hkeep : forall change,
             (forall r, Auth.User.password (change r) = Auth.User.password r) ->
             map Auth.User.password (Auth.table (snd (Auth.onUser userId change w)))
             = map Auth.User.password (Auth.table w)).
  { intros change Hch.
    destruct (run_onUser userId change w Ho0) as (_ & -> & _).
    rewrite map_map. apply map_ext. intros r.
    destruct (String.eqb (Auth.User.id r) userId); [apply Hch | reflexivity]. }
  unfold Auth.changePassword.
  set (change := fun r : Auth.User.t =>
                   Auth.User.mk (Auth.User.id r) (Auth.User.name r) (Auth.User.email r)
                                (Auth.User.role r) (Auth.User.isActive r)
                                (Auth.User.createdAt r) (Some newPassword)).
  destruct (run_onUser userId change w Ho0) as (_ & Htab & _ & Hout & Htick & _).
  set (w' := snd (Auth.onUser userId change w)) in *.
  assert (Hsel : forall password,
             filter (Auth.credentialsMatch (Auth.User.email row) password) (Auth.table w')
             = if String.eqb newPassword password then [change row] else []).
  { intros password. rewrite Htab, filter_of_map.
    erewrite filter_ext.
    - rewrite (filter_by_email (Auth.table w) row
                 (fun r => match Auth.User.password
                                   (if String.eqb (Auth.User.id r) userId
                                    then change r else r) with
                           | Some stored => String.eqb stored password
                           | None => false
                           end && Auth.User.isActive r) Hnd Hin).
      rewrite Hid, String.eqb_refl, Hact. cbn. rewrite andb_true_r.
      destruct (String.eqb newPassword password); [|reflexivity].
      cbn. now rewrite Hid, String.eqb_refl.
    - intros r. unfold Auth.credentialsMatch.
      destruct (String.eqb (Auth.User.id r) userId); cbn; now rewrite andb_assoc. }
  split; [|split; [|split; [|split]]].
  - unfold Auth.login. rewrite Hout, Htick, Ho2, Hsel, String.eqb_refl. reflexivity.
  - intros other Hne. unfold Auth.login. rewrite Hout, Htick, Ho2, Hsel.
    destruct (String.eqb_spec newPassword other); [congruence | reflexivity].
  - intros r Hr Hne. rewrite Htab. apply in_map_iff. exists r. split; [|exact Hr].
    destruct (String.eqb_spec (Auth.User.id r) userId); [contradiction | reflexivity].
  - intros userData. apply Hkeep. reflexivity.
  - apply Hkeep. reflexivity.
Qed.

Lemma password_change_takes_effect_witness :
  let w' := snd (Auth.changePassword "u1" "robe2024" (staff noOutage)) in
  fst (Auth.login (Auth.User.email admin) "robe2024" w') = true
  /\ (forall other, other <> "robe2024"%string ->
                    fst (Auth.login (Auth.User.email admin) other w') = false)
  /\ (forall r, In r (Auth.table (staff noOutage)) -> Auth.User.id r <> "u1"%string ->
                In r (Auth.table w'))
  /\ (forall userData,
        map Auth.User.password (Auth.table (snd (Auth.updateUser "u1" userData (staff noOutage))))
        = map Auth.User.password (Auth.table (staff noOutage)))
  /\ map Auth.User.password (Auth.table (snd (Auth.deleteUser "u1" (staff noOutage))))
     = map Auth.User.password (Auth.table (staff noOutage)).
Proof.
  apply (password_change_takes_effect "u1" "robe2024" (staff noOutage) admin);
    try reflexivity.
  - repeat constructor; cbn; intuition discriminate.
  - left; reflexivity.
Defined.

(** X27.  A user added can log in, a user added without a password logs in
    with '123456'.  When the email is new to the table, the flag given is
    not [false] and the store answers, [addUser] succeeds and a login with
    that email and the password given (or '123456' for a missing or empty
    one) opens a session with the generated id and the role given.
    Refused by the store, [addUser] throws and the table is unchanged. *)
Theorem added_user_can_log_in (userData : Auth.UserData) (w : Auth.World) :
  (forall r, In r (Auth.table w) -> Auth.User.email r <> Auth.ud_email userData) ->
  Auth.ud_isActive userData <> Some false ->
  (Auth.outage w (Auth.tick w) = false ->
   Auth.outage w (S (S (Auth.tick w))) = false ->
   let w' := snd (Auth.addUser userData w) in
   let password := Auth.passwordOr (Auth.ud_password userData) "123456" in
   fst (Auth.addUser userData w) = Resolved tt
   /\ fst (Auth.login (Auth.ud_email userData) password w') = true
   /\ (exists u,
          Auth.user (snd (Auth.login (Auth.ud_email userData) password w')) = Some u
          /\ Auth.User.id u = Auth.uuid w (Auth.tick w)
          /\ Auth.User.role u = Auth.ud_role userData
          /\ Auth.User.password u = None)
   /\ (Auth.ud_password userData = None -> password = "123456"%string))
  /\ (Auth.outage w (Auth.tick w) = true ->
      fst (Auth.addUser userData w) = Rejected PostgrestError
      /\ Auth.table (snd (Auth.addUser userData w)) = Auth.table w).
Proof.
  intros Hnew Hflag. split.
  - intros Ho0 Ho2. cbv zeta. unfold Auth.addUser. rewrite Ho0. cbn [fst snd].
    set (row := Auth.User.mk _ _ _ _ _ _ _).
    assert (Hsel : filter (Auth.credentialsMatch (Auth.ud_email userData)
                             (Auth.passwordOr (Auth.ud_password userData) "123456"))
                          (Auth.table w ++ [row])
                   = [row]).
    { rewrite filter_app, filter_none.
      - cbn. unfold Auth.credentialsMatch. subst row. cbn.
        rewrite !String.eqb_refl. cbn.
        destruct (Auth.ud_isActive userData) as [[|]|]; cbn;
          [reflexivity | contradiction | reflexivity].
      - intros r Hr. unfold Auth.credentialsMatch.
        destruct (String.eqb_spec (Auth.User.email r) (Auth.ud_email userData)) as [He | _];
          [elim (Hnew r Hr He) | reflexivity]. }
    assert (Hlogin : Auth.login (Auth.ud_email userData)
                       (Auth.passwordOr (Auth.ud_password userData) "123456")
                       (Auth.loadUsers (Auth.answered (Auth.table w ++ [row]) w))
                     = (true,
                        Auth.setUser
                          (Some (Auth.User.mk (Auth.User.id row) (Auth.User.name row)
                                   (Auth.User.email row) (Auth.User.role row)
                                   (Auth.User.isActive row) (Auth.User.createdAt row) None))
                          (Auth.answered (Auth.table w ++ [row])
                             (Auth.loadUsers (Auth.answered (Auth.table w ++ [row]) w))))).
    { unfold Auth.login, Auth.loadUsers. cbn [Auth.tick Auth.answered Auth.outage].
      destruct (Auth.outage w (S (Auth.tick w)));
        cbn [Auth.tick Auth.answered Auth.outage Auth.table Auth.setUsers];
        rewrite Ho2, Hsel; reflexivity. }
    rewrite Hlogin. cbn [fst snd Auth.user Auth.setUser].
    split; [reflexivity|]. split; [reflexivity|]. split.
    + eexists; split; [reflexivity|]. subst row. cbn. repeat split.
    + intros ->. reflexivity.
  - intros Ho0. unfold Auth.addUser. rewrite Ho0. split; reflexivity.
Qed.

Lemma added_user_can_log_in_witness :
  let w' := snd (Auth.addUser newAgent (staff noOutage)) in
  let password := Auth.passwordOr (Auth.ud_password newAgent) "123456" in
  fst (Auth.addUser newAgent (staff noOutage)) = Resolved tt
  /\ fst (Auth.login (Auth.ud_email newAgent) password w') = true
  /\ (exists u,
         Auth.user (snd (Auth.login (Auth.ud_email newAgent) password w')) = Some u
         /\ Auth.User.id u = Auth.uuid (staff noOutage) (Auth.tick (staff noOutage))
         /\ Auth.User.role u = Auth.ud_role newAgent
         /\ Auth.User.password u = None)
  /\ (Auth.ud_password newAgent = None -> password = "123456"%string).
Proof.
  apply (proj1 (added_user_can_log_in newAgent (staff noOutage)
                  ltac:(intros r [<- | [<- | []]]; cbn; discriminate)
                  ltac:(cbn; discriminate)));
    reflexivity.
Defined.
